(** * faux-rag: document ingestion, chunking and retrieval

    A shallow embedding of the application code of the repository
    (app/config.py, app/services/document_processor.py,
    app/services/vector_store.py, app/api/upload.py, app/api/chat.py) and
    the properties of it that the specification states.

    Conventions of the embedding:
    - a Python [str] is a [string]; each character is one 8-bit code
      point, so [str.strip] and [str.lower] are the Latin-1 restrictions
      of the Unicode operations;
    - the lengths [len(..)] are [nat], the other integers are [Z];
    - a Python float is an exact rational [Q] (binary rounding is not
      modelled; no property below depends on it);
    - a function that may raise returns a [result]; a function that also
      reads or changes the upload directory, the vector index or calls a
      gateway runs in the monad [M] over the record [World];
    - third-party code (the text splitter, the embedding model, the
      vector index service, the language model, the PDF and DOCX readers)
      is not part of the repository; it enters as the fields of the record
      [Services], which also decides when a call to the index service or
      the writing of a file fails. *)

From Stdlib Require Import ZArith List String Ascii Bool Lia QArith Qround Lqa.
From Stdlib.Strings Require Import Byte.
From stdpp Require Import base gmap strings list fin_maps pretty.

Open Scope string_scope.
Open Scope Z_scope.
Open Scope nat_scope.

(** ** Python strings *)

Module PyStr.

Definition newline : string := String "010" EmptyString.

(** [str.isspace] on the code points below 256: U+0009..U+000D,
    U+001C..U+001F, U+0020, U+0085 and U+00A0. *)
Definition is_space (a : ascii) : bool :=
  let n := nat_of_ascii a in
  ((9 <=? n) && (n <=? 13)) || ((28 <=? n) && (n <=? 32))
  || (n =? 133) || (n =? 160).

Fixpoint lstrip (s : string) : string :=
  match s with
  | EmptyString => EmptyString
  | String a s' => if is_space a then lstrip s' else s
  end.

Definition rstrip (s : string) : string :=
  String.rev (lstrip (String.rev s)).

(** [s.strip()] *)
Definition strip (s : string) : string := rstrip (lstrip s).

(** Truth value of a string: [bool(s)]. *)
Definition truthy (s : string) : bool :=
  match s with EmptyString => false | _ => true end.

(** [not s or not s.strip()] *)
Definition blank (s : string) : bool :=
  negb (truthy s) || negb (truthy (strip s)).

(** [str.lower] on the code points below 256: A..Z, and U+00C0..U+00DE
    without the multiplication sign U+00D7. *)
Definition lower_char (a : ascii) : ascii :=
  let n := nat_of_ascii a in
  if ((65 <=? n) && (n <=? 90))
     || ((192 <=? n) && (n <=? 222) && negb (n =? 215))
  then ascii_of_nat (n + 32) else a.

Fixpoint lower (s : string) : string :=
  match s with
  | EmptyString => EmptyString
  | String a s' => String (lower_char a) (lower s')
  end.

(** [s[n:]] for [n >= 0] *)
Fixpoint drop (n : nat) (s : string) : string :=
  match n, s with
  | S n', String _ s' => drop n' s'
  | _, _ => s
  end.

(** [s.rfind(c)], [None] for -1 *)
Fixpoint rfind (c : ascii) (s : string) : option nat :=
  match s with
  | EmptyString => None
  | String a s' =>
      match rfind c s' with
      | Some i => Some (S i)
      | None => if Ascii.eqb a c then Some 0 else None
      end
  end.

(** [s.split(c)] for a one-character separator; [cur] holds the characters
  of the current field, last one first. *)
Fixpoint split_on (c : ascii) (s : string) (cur : string) : list string :=
  match s with
  | EmptyString => [String.rev cur]
  | String a s' =>
      if Ascii.eqb a c then String.rev cur :: split_on c s' EmptyString
      else split_on c s' (String a cur)
  end.

(** [s[:n]] for [n >= 0] *)
Fixpoint take (n : nat) (s : string) : string :=
  match n, s with
  | S n', String a s' => String a (take n' s')
  | _, _ => EmptyString
  end.

(** [sep.join(parts)] *)
Fixpoint join (sep : string) (parts : list string) : string :=
  match parts with
  | [] => EmptyString
  | [p] => p
  | p :: rest => p ++ sep ++ join sep rest
  end.

(** [s * n] for a one-character [s], used to write test inputs. *)
Fixpoint replicate (n : nat) (a : ascii) : string :=
  match n with
  | O => EmptyString
  | S n' => String a (replicate n' a)
  end.

End PyStr.

(** ** Exceptions and results *)

Inductive exn : Type :=
| HTTPException (status_code : Z) (detail : string)
| ValueError (msg : string)
| FileNotFoundError (path : string)
| OSError (msg : string)
| IndexError (msg : string)
| TypeError (msg : string)
| ValidationError (msg : string)
| PyException (msg : string)
| LibraryError (origin msg : string).

(** [str(e)] *)
Definition exn_str (e : exn) : string :=
  match e with
  | HTTPException _ detail => detail
  | ValueError msg => msg
  | FileNotFoundError path => path
  | OSError msg => msg
  | IndexError msg | TypeError msg | ValidationError msg | PyException msg => msg
  | LibraryError _ msg => msg
  end.

Inductive result (A : Type) : Type :=
| Ok (a : A)
| Raise (e : exn).
Arguments Ok {A} a.
Arguments Raise {A} e.

(** ** app/config.py *)

Module Config.
Definition MAX_FILE_SIZE_MB : Z := 15.
Definition ALLOWED_EXTENSIONS : list string := [".pdf"; ".txt"; ".docx"].
Definition CHUNK_SIZE : Z := 1000.
Definition CHUNK_OVERLAP : Z := 200.
End Config.

(** ** app/services/document_processor.py: chunking *)

(** The call [RecursiveCharacterTextSplitter(chunk_size, chunk_overlap,
    length_function=len, separators).split_text(text)] of the
    langchain_text_splitters package: construction and splitting may
    raise, otherwise the pieces come back in order. *)
Definition TextSplitter : Type :=
  Z -> Z -> list string -> string -> result (list string).

Definition separators : list string :=
  [PyStr.newline ++ PyStr.newline; PyStr.newline; ". "; " "; EmptyString].

(** The test of the list comprehension of [chunk_text]:
    [len(chunk.strip()) > 50]. *)
Definition long_enough (chunk : string) : bool :=
  50 <? String.length (PyStr.strip chunk).

Definition chunk_text (split_text : TextSplitter)
    (text : string) (chunk_size chunk_overlap : Z) : result (list string) :=
  if PyStr.blank text then Ok []
  else
    match split_text chunk_size chunk_overlap separators text with
    | Raise e => Raise e
    | Ok chunks => Ok (List.filter long_enough chunks)
    end.

(** An instance of the splitter on its simplest inputs: a text shorter
    than [chunk_size] is never cut, the library merges its splits back
    into one piece and strips it (a piece that strips to nothing is
    dropped). Longer texts are outside this instance, which says so by
    raising. *)
Definition short_text_splitter : TextSplitter :=
  fun chunk_size _ _ text =>
    if (Z.of_nat (String.length text) <? chunk_size)%Z then
      Ok (if PyStr.truthy (PyStr.strip text) then [PyStr.strip text] else [])
    else Raise (LibraryError "short_text_splitter" "text not shorter than chunk_size").

(** ** pathlib: the parts of [PurePosixPath] that the code uses *)

Module PurePath.

(** The components of a path: empty components and [.] are dropped. *)
Definition parts (p : string) : list string :=
  List.filter (fun c => negb (String.eqb c EmptyString) && negb (String.eqb c "."))
              (PyStr.split_on "/" p EmptyString).

(** [Path(p).name] *)
Definition name (p : string) : string := List.last (parts p) EmptyString.

(** [i = name.rfind('.')] when [0 < i < len(name) - 1] *)
Definition suffix_index (nm : string) : option nat :=
  match PyStr.rfind "." nm with
  | Some i => if (0 <? i) && (S i <? String.length nm) then Some i else None
  | None => None
  end.

(** [Path(p).suffix] *)
Definition suffix (p : string) : string :=
  match suffix_index (name p) with
  | Some i => PyStr.drop i (name p)
  | None => EmptyString
  end.

(** [Path(p).stem] *)
Definition stem (p : string) : string :=
  match suffix_index (name p) with
  | Some i => PyStr.take i (name p)
  | None => name p
  end.

End PurePath.

(** ** Python numbers *)

(** Rounding to the nearest integer, ties to the even one. *)
Definition round_half_even (q : Q) : Z :=
  let f := Qfloor q in
  match Qcompare (q - inject_Z f) (1 # 2) with
  | Lt => f
  | Gt => (f + 1)%Z
  | Eq => if Z.even f then f else (f + 1)%Z
  end.

(** [round(q, ndigits)] *)
Definition py_round (q : Q) (ndigits : nat) : Q :=
  let p := (10 ^ Z.of_nat ndigits)%Z in
  Qred (Qmake (round_half_even (q * inject_Z p)) (Z.to_pos p)).

(** [range(0, n, step)] *)
Definition range_step (n step : nat) : list nat :=
  List.map (fun j => j * step) (seq 0 (Nat.div (n + (step - 1)) step)).

(** ** Data model *)

(** The values of a metadata dictionary. *)
Inductive meta_value : Type :=
| MStr (s : string)
| MInt (z : Z)
| MFloat (q : Q).

#[global] Instance Q_eq_dec : EqDecision Q.
Proof. solve_decision. Defined.

#[global] Instance meta_value_eq_dec : EqDecision meta_value.
Proof. solve_decision. Defined.

(** An entry of the vector index, without its id. *)
Record vector_record : Type := mk_vector_record {
  values : list Q;
  metadata : gmap string meta_value
}.

(** A metadata filter of the index: [{field: v}] and
    [{field: {"$in": vs}}]. *)
Inductive metadata_filter : Type :=
| FieldEq (field : string) (v : meta_value)
| FieldIn (field : string) (vs : list meta_value).

(** A match of a similarity query. *)
Record Match : Type := mk_Match {
  match_id : string;
  score : Q;
  match_metadata : gmap string meta_value
}.

(** The calls that leave the process, in the order they are made. *)
Inductive gateway_call : Type :=
| ExtractCall (file_name : string)
| EncodeCall (texts : list string)
| UpsertCall (batch : list (string * vector_record))
| QueryCall (vector : list Q) (top_k : Z) (filter : option metadata_filter)
| DeleteCall (filter : metadata_filter)
| GenerateCall (prompt : string).

(** What a request handler can read and change: the files of UPLOAD_DIR
    by name, the content of the Pinecone index by entry id, and the trace
    of the gateway calls made so far (oldest first). *)
Record World : Type := mk_World {
  upload_dir : gmap string (list Byte.byte);
  pinecone : gmap string vector_record;
  gateway_log : list gateway_call
}.

(** The third-party code and the file system's faults. [pinecone_fault]
    decides, from the calls made so far and the call at hand, whether a
    call to the index service fails. [write_fault] decides whether the
    writing of a file fails: [Some (msg, None)] when [open] raises, so
    that no file appears, and [Some (msg, Some n)] when [write] raises
    after [n] bytes have reached the file. *)
Record Services : Type := mk_Services {
  split_text : TextSplitter;
  pdf_page_texts : list Byte.byte -> result (list string);
  docx_paragraph_texts : list Byte.byte -> result (list string);
  utf8_decode : list Byte.byte -> option string;
  model_encode : list string -> result (list (list Q));
  generate_content : string -> result string;
  similarity : list Q -> list Q -> Q;
  pinecone_fault : list gateway_call -> gateway_call -> option exn;
  write_fault : string -> list Byte.byte -> option (string * option nat)
}.

(** ** The monad of request handlers *)

Definition M (A : Type) : Type := World -> result A * World.

Definition ret {A : Type} (a : A) : M A := fun w => (Ok a, w).

Definition bind {A B : Type} (c : M A) (k : A -> M B) : M B :=
  fun w =>
    match c w with
    | (Ok a, w') => k a w'
    | (Raise e, w') => (Raise e, w')
    end.

Definition raise {A : Type} (e : exn) : M A := fun w => (Raise e, w).

(** [try: c  except Exception as e: h e] *)
Definition try_except {A : Type} (c : M A) (h : exn -> M A) : M A :=
  fun w =>
    match c w with
    | (Ok a, w') => (Ok a, w')
    | (Raise e, w') => h e w'
    end.

Definition lift {A : Type} (r : result A) : M A := fun w => (r, w).

Definition get_world : M World := fun w => (Ok w, w).

#[global] Instance M_ret : MRet M := @ret.
#[global] Instance M_bind : MBind M := fun A B k c => bind c k.

(** The status code of the HTTP response: the framework turns an
    [HTTPException] into a response with its status and any other
    exception into a 500. *)
Definition http_status {A : Type} (r : result A) : Z :=
  match r with
  | Ok _ => 200%Z
  | Raise (HTTPException status _) => status
  | Raise _ => 500%Z
  end.

(** ** Primitive effects *)

Definition log_call (c : gateway_call) : M unit :=
  fun w => (Ok tt, mk_World (upload_dir w) (pinecone w) (gateway_log w ++ [c])).

(** [with open(path, "wb") as f: f.write(contents)]: an [OSError] of
    [open] leaves the directory as it was, one of [write] leaves the file
    with the bytes written so far. *)
Definition fs_write (svc : Services) (file_name : string)
    (contents : list Byte.byte) : M unit :=
  fun w =>
    match write_fault svc file_name contents with
    | None =>
        (Ok tt, mk_World (<[file_name := contents]> (upload_dir w))
                         (pinecone w) (gateway_log w))
    | Some (msg, None) => (Raise (OSError msg), w)
    | Some (msg, Some n) =>
        (Raise (OSError msg),
         mk_World (<[file_name := List.firstn n contents]> (upload_dir w))
                  (pinecone w) (gateway_log w))
    end.

(** [open(path, "rb").read()] *)
Definition fs_read (file_name : string) : M (list Byte.byte) :=
  fun w =>
    match upload_dir w !! file_name with
    | Some contents => (Ok contents, w)
    | None => (Raise (FileNotFoundError file_name), w)
    end.

(** [path.unlink()] *)
Definition fs_unlink (file_name : string) : M unit :=
  fun w =>
    match upload_dir w !! file_name with
    | Some _ => (Ok tt, mk_World (delete file_name (upload_dir w))
                                 (pinecone w) (gateway_log w))
    | None => (Raise (FileNotFoundError file_name), w)
    end.

(** [UPLOAD_DIR.iterdir()], in the order of the map's listing. *)
Definition fs_iterdir : M (list string) :=
  fun w => (Ok (List.map fst (map_to_list (upload_dir w))), w).

Definition set_pinecone (idx : gmap string vector_record) : M unit :=
  fun w => (Ok tt, mk_World (upload_dir w) idx (gateway_log w)).

(** ** The Pinecone index service *)

Module Pinecone.

Definition meta_value_eqb (a b : meta_value) : bool :=
  match a, b with
  | MStr s, MStr t => String.eqb s t
  | MInt x, MInt y => Z.eqb x y
  | MInt x, MFloat q | MFloat q, MInt x => Qeq_bool (inject_Z x) q
  | MFloat p, MFloat q => Qeq_bool p q
  | _, _ => false
  end.

Definition matches_filter (f : metadata_filter) (md : gmap string meta_value) : bool :=
  match f with
  | FieldEq field v =>
      match md !! field with
      | Some x => meta_value_eqb x v
      | None => false
      end
  | FieldIn field vs =>
      match md !! field with
      | Some x => existsb (meta_value_eqb x) vs
      | None => false
      end
  end.

Definition passes (f : option metadata_filter) (md : gmap string meta_value) : bool :=
  match f with
  | Some f' => matches_filter f' md
  | None => true
  end.

(** Every call to the service is recorded, then fails if the fault oracle
    says so. *)
Definition call (svc : Services) (c : gateway_call) : M unit :=
  fun w =>
    let w' := mk_World (upload_dir w) (pinecone w) (gateway_log w ++ [c]) in
    match pinecone_fault svc (gateway_log w) c with
    | Some e => (Raise e, w')
    | None => (Ok tt, w')
    end.

(** The entries of a batch are written in order; an entry replaces the
    one that had its id. *)
Definition write_batch (batch : list (string * vector_record))
    (idx : gmap string vector_record) : gmap string vector_record :=
  fold_left (fun m kv => <[kv.1 := kv.2]> m) batch idx.

(** [index.upsert(vectors=batch)] *)
Definition upsert (svc : Services) (batch : list (string * vector_record)) : M unit :=
  call svc (UpsertCall batch);;
  w ← get_world;
  set_pinecone (write_batch batch (pinecone w)).

(** [index.delete(filter=f)] *)
Definition delete (svc : Services) (f : metadata_filter) : M unit :=
  call svc (DeleteCall f);;
  w ← get_world;
  set_pinecone (filter (fun kv => matches_filter f (metadata kv.2) = false) (pinecone w)).

(** Ranking: higher scores first, equal scores in the order of arrival. *)
Fixpoint insert_ranked (m : Match) (ranked : list Match) : list Match :=
  match ranked with
  | [] => [m]
  | x :: rest =>
      if Qle_bool (score x) (score m) then m :: ranked
      else x :: insert_ranked m rest
  end.

Definition rank (ms : list Match) : list Match :=
  fold_right insert_ranked [] ms.

Definition to_match (svc : Services) (vector : list Q)
    (kv : string * vector_record) : Match :=
  mk_Match kv.1 (similarity svc vector (values kv.2)) (metadata kv.2).

(** [index.query(vector, top_k, include_metadata=True, filter)]: the
    client refuses a [top_k] below 1; otherwise the [top_k] best entries
    that pass the filter. *)
Definition query (svc : Services) (vector : list Q) (top_k : Z)
    (f : option metadata_filter) : M (list Match) :=
  call svc (QueryCall vector top_k f);;
  if (top_k <? 1)%Z then
    raise (LibraryError "pinecone" "top_k must be a positive integer")
  else
    w ← get_world;
    ret (List.firstn (Z.to_nat top_k)
           (rank (List.map (to_match svc vector)
                    (List.filter (fun kv => passes f (metadata kv.2))
                                 (map_to_list (pinecone w)))))).

End Pinecone.

(** ** app/services/vector_store.py *)

(** [f"{file_id}_chunk_{idx}"] *)
Definition vector_id (file_id : string) (idx : nat) : string :=
  file_id ++ "_chunk_" ++ pretty idx.

(** The metadata dictionary that [upsert_chunks] builds for one chunk,
    updated with the additional metadata when there is some. *)
Definition chunk_metadata (file_id filename : string) (idx : nat) (chunk : string)
    (additional_metadata : option (gmap string meta_value)) : gmap string meta_value :=
  let metadata : gmap string meta_value :=
    <["text_length" := MInt (Z.of_nat (String.length chunk))]>
    (<["chunk_text" := MStr (PyStr.take 1000 chunk)]>
    (<["chunk_index" := MInt (Z.of_nat idx)]>
    (<["filename" := MStr filename]>
    (<["file_id" := MStr file_id]> ∅)))) in
  match additional_metadata with
  | Some extra => extra ∪ metadata
  | None => metadata
  end.

(** The list [vectors] of [upsert_chunks]. *)
Definition prepare_vectors (file_id filename : string)
    (chunks : list string) (embeddings : list (list Q))
    (additional_metadata : option (gmap string meta_value))
    : list (string * vector_record) :=
  imap (fun idx ce =>
          (vector_id file_id idx,
           mk_vector_record ce.2
             (chunk_metadata file_id filename idx ce.1 additional_metadata)))
       (zip chunks embeddings).

Definition batch_size : nat := 100.

(** The loop [for i in range(0, len(vectors), batch_size)]; [starts] holds
    the values of [i] still to come. *)
Fixpoint upsert_batches (svc : Services) (vectors : list (string * vector_record))
    (starts : list nat) (total_upserted : nat) : M nat :=
  match starts with
  | [] => ret total_upserted
  | i :: rest =>
      let batch := List.firstn batch_size (List.skipn i vectors) in
      Pinecone.upsert svc batch;;
      upsert_batches svc vectors rest (total_upserted + length batch)
  end.

Definition upsert_chunks (svc : Services) (file_id filename : string)
    (chunks : list string) (embeddings : list (list Q))
    (additional_metadata : option (gmap string meta_value)) : M nat :=
  if negb (length chunks =? length embeddings) then
    raise (ValueError "Number of chunks must match number of embeddings")
  else
    let vectors := prepare_vectors file_id filename chunks embeddings additional_metadata in
    upsert_batches svc vectors (range_step (length vectors) batch_size) 0.

(** [VectorStore.search]; the result stands for [results.matches]. *)
Definition search (svc : Services) (query_embedding : list Q) (top_k : Z)
    (filter_dict : option metadata_filter) : M (list Match) :=
  Pinecone.query svc query_embedding top_k filter_dict.

Definition delete_by_file_id (svc : Services) (file_id : string) : M bool :=
  try_except
    (Pinecone.delete svc (FieldEq "file_id" (MStr file_id));; ret true)
    (fun _ => ret false).

(** ** app/services/embeddings.py *)

Definition generate_embeddings (svc : Services) (texts : list string) : M (list (list Q)) :=
  match texts with
  | [] => ret []
  | _ => log_call (EncodeCall texts);; lift (model_encode svc texts)
  end.

Definition generate_single_embedding (svc : Services) (text : string) : M (list Q) :=
  log_call (EncodeCall [text]);;
  vectors ← lift (model_encode svc [text]);
  match vectors with
  | v :: _ => ret v
  | [] => raise (IndexError "index 0 is out of bounds")
  end.

(** ** app/services/llm.py *)

Definition prompt_indent : string := "        ".

(** The f-string of [generate_response]. *)
Definition build_prompt (query context : string) : string :=
  let nl := PyStr.newline in
  nl ++ nl
  ++ prompt_indent ++ "You are a FAUX an AI assistant developed by Gabriel that answers questions based on the provided context from documents." ++ nl
  ++ nl
  ++ prompt_indent ++ "Context from documents:" ++ nl
  ++ prompt_indent ++ context ++ nl
  ++ nl
  ++ prompt_indent ++ "User question: " ++ query ++ nl
  ++ nl
  ++ prompt_indent ++ "Instructions:" ++ nl
  ++ prompt_indent ++ "- Answer the question based ONLY on the information in the context above" ++ nl
  ++ prompt_indent ++ "- If the context doesn't contain enough information to answer, say so" ++ nl
  ++ prompt_indent ++ "- Be concise but thorough" ++ nl
  ++ prompt_indent ++ "- Cite specific information from the context when relevant" ++ nl
  ++ nl
  ++ prompt_indent ++ "Answer:".

Definition generate_response (svc : Services) (query context : string) : M string :=
  let prompt := build_prompt query context in
  try_except
    (log_call (GenerateCall prompt);; lift (generate_content svc prompt))
    (fun e => raise (PyException ("Failed to generate response: " ++ exn_str e))).

(** ** app/services/document_processor.py: extraction *)

(** Text mode reading translates [\r\n] and [\r] to [\n]. *)
Fixpoint universal_newlines (s : string) : string :=
  match s with
  | EmptyString => EmptyString
  | String "013" (String "010" s' as t) => universal_newlines t
  | String "013" s' => String "010" (universal_newlines s')
  | String a s' => String a (universal_newlines s')
  end.

Definition latin1_decode (contents : list Byte.byte) : string :=
  string_of_list_ascii (List.map ascii_of_byte contents).

Definition extract_text_from_pdf (svc : Services) (file_name : string) : M string :=
  contents ← fs_read file_name;
  pages ← lift (pdf_page_texts svc contents);
  ret (PyStr.join PyStr.newline pages).

Definition extract_text_from_docx (svc : Services) (file_name : string) : M string :=
  contents ← fs_read file_name;
  paragraphs ← lift (docx_paragraph_texts svc contents);
  ret (PyStr.join PyStr.newline
         (List.filter (fun t => PyStr.truthy (PyStr.strip t)) paragraphs)).

Definition extract_text_from_txt (svc : Services) (file_name : string) : M string :=
  contents ← fs_read file_name;
  match utf8_decode svc contents with
  | Some text => ret (universal_newlines text)
  | None => ret (universal_newlines (latin1_decode contents))
  end.

Definition process_document (svc : Services) (file_name : string) : M string :=
  log_call (ExtractCall file_name);;
  let file_type := PyStr.lower (PurePath.suffix file_name) in
  if String.eqb file_type ".pdf" then extract_text_from_pdf svc file_name
  else if String.eqb file_type ".docx" then extract_text_from_docx svc file_name
  else if String.eqb file_type ".txt" then extract_text_from_txt svc file_name
  else raise (ValueError ("Unsupported file type : " ++ file_type)).

(** ** app/api/upload.py *)

Record UploadFile : Type := mk_UploadFile {
  filename : string;
  file_contents : list Byte.byte
}.

(** What [upload_file] draws from its environment: the string of
    [uuid.uuid4()] and the two readings of [datetime.now().isoformat()]. *)
Record UploadEnv : Type := mk_UploadEnv {
  uuid4 : string;
  now_metadata : string;
  now_response : string
}.

Record UploadSummary : Type := mk_UploadSummary {
  success : bool;
  summary_file_id : string;
  summary_filename : string;
  size_bytes : nat;
  size_mb : Q;
  text_length : nat;
  num_chunks : nat;
  num_embeddings : nat;
  vectors_stored : nat;
  embedding_dimension : nat;
  upload_date : string;
  summary_message : string
}.

Definition allowed_extension (file_name : string) : bool :=
  existsb (String.eqb (PyStr.lower (PurePath.suffix file_name)))
          Config.ALLOWED_EXTENSIONS.

Definition validate_file (file : UploadFile) : M unit :=
  if negb (allowed_extension (filename file)) then
    raise (HTTPException 400
             ("File type not allowed. Allowed types: "
              ++ PyStr.join "," Config.ALLOWED_EXTENSIONS))
  else if negb (PyStr.truthy (filename file)) then
    raise (HTTPException 400 "No file provided")
  else ret tt.

(** [len(contents) / (1024 * 1024)] *)
Definition file_size_mb (contents : list Byte.byte) : Q :=
  Qmake (Z.of_nat (length contents)) (1024 * 1024).

(** [file_size_mb > MAX_FILE_SIZE_MB] *)
Definition too_large (contents : list Byte.byte) : bool :=
  negb (Qle_bool (file_size_mb contents) (inject_Z Config.MAX_FILE_SIZE_MB)).

(** The name under which the upload is stored in UPLOAD_DIR. *)
Definition unique_filename (env : UploadEnv) (file : UploadFile) : string :=
  uuid4 env ++ PurePath.suffix (filename file).

(** The [additional_metadata] that [upload_file] passes to
    [upsert_chunks]. *)
Definition upload_metadata (env : UploadEnv) (contents : list Byte.byte)
    : gmap string meta_value :=
  <["file_size_mb" := MFloat (py_round (file_size_mb contents) 2)]>
  (<["upload_date" := MStr (now_metadata env)]> ∅).

(** The body of the [try] block of [upload_file]. *)
Definition process_upload (svc : Services) (env : UploadEnv) (file : UploadFile)
    : M UploadSummary :=
  let contents := file_contents file in
  let file_id := uuid4 env in
  extracted_text ← process_document svc (unique_filename env file);
  (if PyStr.blank extracted_text then
     raise (ValueError "No text could be extracted from the document")
   else ret tt);;
  chunks ← lift (chunk_text (split_text svc) extracted_text
                   Config.CHUNK_SIZE Config.CHUNK_OVERLAP);
  (match chunks with
   | [] => raise (ValueError "No valid chunks created from uploaded document")
   | _ => ret tt
   end);;
  embeddings ← generate_embeddings svc chunks;
  num_vectors ← upsert_chunks svc file_id (filename file) chunks embeddings
                  (Some (upload_metadata env contents));
  ret (mk_UploadSummary true file_id (filename file) (length contents)
         (py_round (file_size_mb contents) 2)
         (String.length extracted_text) (length chunks) (length embeddings)
         num_vectors
         (match embeddings with e :: _ => length e | [] => 0 end)
         (now_response env)
         "File uploaded, processed, and stored in vector database successfully").

Definition upload_file (svc : Services) (env : UploadEnv) (file : UploadFile)
    : M UploadSummary :=
  validate_file file;;
  let contents := file_contents file in
  if too_large contents then
    raise (HTTPException 413
             ("File too large. Max Size: " ++ pretty Config.MAX_FILE_SIZE_MB ++ "MB"))
  else
    fs_write svc (unique_filename env file) contents;;
    try_except
      (process_upload svc env file)
      (fun e =>
         fs_unlink (unique_filename env file);;
         raise (HTTPException 500 ("Failed to process document: " ++ exn_str e))).

(** The loop of [delete_file]: the first listed file whose stem is
    [file_id] is removed together with its vectors. *)
Fixpoint delete_first (svc : Services) (file_id : string) (listing : list string)
    : M bool :=
  match listing with
  | [] => ret false
  | file_name :: rest =>
      if String.eqb (PurePath.stem file_name) file_id then
        fs_unlink file_name;;
        delete_by_file_id svc file_id;;
        ret true
      else delete_first svc file_id rest
  end.

Definition delete_file (svc : Services) (file_id : string) : M (bool * string) :=
  listing ← fs_iterdir;
  found ← delete_first svc file_id listing;
  if negb found then raise (HTTPException 404 "File not found")
  else ret (true, "File deleted successfully").

(** ** app/api/chat.py *)

Record ChatRequest : Type := mk_ChatRequest {
  message : string;
  file_ids : option (list string);
  top_k : Z
}.

(** The construction of a [ChatRequest] from the fields of the request
    body that are present: [file_ids] defaults to [None] and [top_k] to 5. *)
Definition ChatRequest_init (message : string) (file_ids : option (list string))
    (top_k : option Z) : ChatRequest :=
  mk_ChatRequest message file_ids
    (match top_k with Some k => k | None => 5%Z end).

Record Source : Type := mk_Source {
  source_filename : string;
  source_chunk_text : string;
  chunk_index : Z;
  similarity_score : Q
}.

Record ChatResponse : Type := mk_ChatResponse {
  reply : string;
  sources : list Source;
  num_sources : nat
}.

Definition no_information_reply : string :=
  "I couldn't find any relevant information in the uploaded documents to answer your question.".

(** [match.metadata.get("chunk_text", default)] with the empty string as
    default, which the handler then slices:
    a value that is not a string cannot be sliced. *)
Definition match_chunk_text (m : Match) : result string :=
  match match_metadata m !! "chunk_text" with
  | None => Ok EmptyString
  | Some (MStr s) => Ok s
  | Some _ => Raise (TypeError "object is not subscriptable")
  end.

(** [match.metadata.get("filename", "Unknown")] as the [str] field of
    [Source]. *)
Definition match_filename (m : Match) : result string :=
  match match_metadata m !! "filename" with
  | None => Ok "Unknown"
  | Some (MStr s) => Ok s
  | Some _ => Raise (ValidationError "filename: Input should be a valid string")
  end.

(** [match.metadata.get("chunk_index", 0)] as the [int] field of [Source];
    a float is accepted when it has no fractional part. (Strings are
    refused here; [upsert_chunks] writes an int.) *)
Definition match_chunk_index (m : Match) : result Z :=
  match match_metadata m !! "chunk_index" with
  | None => Ok 0%Z
  | Some (MInt z) => Ok z
  | Some (MFloat q) =>
      if Qeq_bool q (inject_Z (Qfloor q)) then Ok (Qfloor q)
      else Raise (ValidationError "chunk_index: Input should be a valid integer")
  | Some (MStr _) => Raise (ValidationError "chunk_index: Input should be a valid integer")
  end.

(** One turn of the loop over the matches: the context chunk and the
    source of a match. *)
Definition assemble_match (m : Match) : result (string * Source) :=
  match match_chunk_text m with
  | Raise e => Raise e
  | Ok chunk =>
      match match_filename m, match_chunk_index m with
      | Ok name, Ok idx =>
          Ok (chunk, mk_Source name (PyStr.take 200 chunk ++ "...") idx
                       (py_round (score m) 4))
      | Raise e, _ | _, Raise e => Raise e
      end
  end.

(** The loop over the matches: [context_chunks] and [sources]. *)
Fixpoint assemble (ms : list Match) : result (list string * list Source) :=
  match ms with
  | [] => Ok ([], [])
  | m :: rest =>
      match assemble_match m with
      | Raise e => Raise e
      | Ok (chunk, source) =>
          match assemble rest with
          | Raise e => Raise e
          | Ok (context_chunks, sources) => Ok (chunk :: context_chunks, source :: sources)
          end
      end
  end.

Definition blank_line : string := PyStr.newline ++ PyStr.newline.

(** [filter_dict]: [{"file_id": {"$in": request.file_ids}}] when the
    request names files, else [None]. *)
Definition filter_dict_of (request : ChatRequest) : option metadata_filter :=
  match file_ids request with
  | Some (id :: ids) => Some (FieldIn "file_id" (List.map MStr (id :: ids)))
  | _ => None
  end.

Definition chat (svc : Services) (request : ChatRequest) : M ChatResponse :=
  if PyStr.blank (message request) then
    raise (HTTPException 400 "Message cannot be empty")
  else
    query_embedding ← generate_single_embedding svc (message request);
    let filter_dict := filter_dict_of request in
    matches ← search svc query_embedding (top_k request) filter_dict;
    match matches with
    | [] => ret (mk_ChatResponse no_information_reply [] 0)
    | _ =>
        '(context_chunks, sources) ← lift (assemble matches);
        let context := PyStr.join blank_line context_chunks in
        llm_response ← generate_response svc (message request) context;
        ret (mk_ChatResponse llm_response sources (length sources))
    end.

(** ** Vocabulary of the properties *)

(** A string without a character that is not white space (the empty
    string is one). *)
Definition whitespace_only (s : string) : bool :=
  forallb PyStr.is_space (list_ascii_of_string s).

(** The entries of the index that carry the file id [file_id]. *)
Definition entries_of (file_id : string) (idx : gmap string vector_record)
    : gmap string vector_record :=
  filter (fun kv => metadata kv.2 !! "file_id" = Some (MStr file_id)) idx.

(** A string of decimal digits. *)
Definition is_digit (a : ascii) : bool :=
  match Ascii.is_nat a with Some _ => true | None => false end.

Definition all_digits (s : string) : bool :=
  forallb is_digit (list_ascii_of_string s).

(** The additional metadata leaves the fields named in [fields] to
    [upsert_chunks]. *)
Definition leaves_fields (fields : list string)
    (additional_metadata : option (gmap string meta_value)) : Prop :=
  match additional_metadata with
  | Some extra => Forall (fun f => extra !! f = None) fields
  | None => True
  end.

(** The [chunk_text] field of a stored entry as the chat handler reads
    it. *)
Definition stored_chunk_text (e : vector_record) : result string :=
  match_chunk_text (mk_Match EmptyString 0 (metadata e)).

(** The index [idx] holds chunk number [i] of the document [file_id] with
    the first 1000 characters of [chunk] as its [chunk_text] and the full
    length of [chunk] as its [text_length], and the chat handler, which
    reads [chunk_text] from the metadata of a match, takes from such an
    entry a context chunk of at most 1000 characters and makes the preview
    of its source from it. *)
Definition stores_first_1000 (idx : gmap string vector_record)
    (file_id : string) (i : nat) (chunk : string) : Prop :=
  ∃ e, idx !! vector_id file_id i = Some e
       ∧ metadata e !! "chunk_text" = Some (MStr (PyStr.take 1000 chunk))
       ∧ metadata e !! "text_length"
         = Some (MInt (Z.of_nat (String.length chunk)))
       ∧ String.length (PyStr.take 1000 chunk) ≤ 1000
       ∧ ∀ m piece src,
           match_metadata m = metadata e →
           assemble_match m = Ok (piece, src) →
           piece = PyStr.take 1000 chunk
           ∧ source_chunk_text src
             = PyStr.take 200 (PyStr.take 1000 chunk) ++ "...".

(** A computation that leaves one component of the world, read by
    [proj], as it found it, whatever its outcome. *)
Definition keeps {A X : Type} (proj : World → X) (c : M A) : Prop :=
  ∀ w, proj (c w).2 = proj w.

Abbreviation keeps_files := (keeps upload_dir).
Abbreviation keeps_index := (keeps pinecone).

(** ** Instances of the third-party code, for concrete runs *)

Module Demo.

(** Readers that take the bytes for Latin-1 text, an embedding model that
    maps a text to its length, a language model with one answer, the
    product of the first coordinates as similarity, and an index service
    that never fails. *)
Definition services : Services := {|
  split_text := short_text_splitter;
  pdf_page_texts := fun b => Ok [latin1_decode b];
  docx_paragraph_texts := fun b => Ok [latin1_decode b];
  utf8_decode := fun b => Some (latin1_decode b);
  model_encode := fun texts =>
    Ok (List.map (fun t => [inject_Z (Z.of_nat (String.length t))]) texts);
  generate_content := fun _ => Ok "an answer";
  similarity := fun a b =>
    match a, b with x :: _, y :: _ => (x * y)%Q | _, _ => 0%Q end;
  pinecone_fault := fun _ _ => None;
  write_fault := fun _ _ => None
|}.

(** The same, with an index service whose delete calls fail. *)
Definition services_delete_fails : Services := {|
  split_text := split_text services;
  pdf_page_texts := pdf_page_texts services;
  docx_paragraph_texts := docx_paragraph_texts services;
  utf8_decode := utf8_decode services;
  model_encode := model_encode services;
  generate_content := generate_content services;
  similarity := similarity services;
  write_fault := write_fault services;
  pinecone_fault := fun _ c =>
    match c with
    | DeleteCall _ => Some (LibraryError "pinecone" "delete failed")
    | _ => None
    end
|}.

(** The same, with an embedding model that fails. *)
Definition services_encode_fails : Services := {|
  split_text := split_text services;
  pdf_page_texts := pdf_page_texts services;
  docx_paragraph_texts := docx_paragraph_texts services;
  utf8_decode := utf8_decode services;
  model_encode := fun _ => Raise (LibraryError "sentence_transformers" "out of memory");
  generate_content := generate_content services;
  similarity := similarity services;
  write_fault := write_fault services;
  pinecone_fault := pinecone_fault services
|}.

Definition empty_world : World := mk_World ∅ ∅ [].

Definition env : UploadEnv :=
  mk_UploadEnv "1b4e28ba-2fa1-41d2-883f-0016d3cca427"
               "2024-05-01T10:00:00" "2024-05-01T10:00:01".

(** A text file of [n] letters [a]. *)
Definition text_file (name : string) (n : nat) : UploadFile :=
  mk_UploadFile name (List.repeat Byte.x61 n).

(** A chunk of exactly 50 letters, one of 51 and one of 1001. *)
Definition fifty_letters : string := PyStr.replicate 50 "a".
Definition fifty_one_letters : string := PyStr.replicate 51 "a".
Definition long_chunk : string := PyStr.replicate 1001 "a".

(** A PDF upload of 15 MiB and one byte. *)
Definition big_file : UploadFile :=
  mk_UploadFile "big.pdf" (List.repeat Byte.x61 (Z.to_nat 15728641)).

(** An upload of the same size whose type is not allowed. *)
Definition big_exe : UploadFile :=
  mk_UploadFile "big.exe" (List.repeat Byte.x61 (Z.to_nat 15728641)).

Definition question : string := "what is it?".

Definition request : ChatRequest := ChatRequest_init question None None.

(** The world after [upsert_chunks] has stored the chunk of 1001
    letters. *)
Definition world_long_chunk : World :=
  (upsert_chunks services "doc" "long.txt" [long_chunk] [[1001%Q]] None
     empty_world).2.

(** The matches of a search result. *)
Definition matches_of (r : result (list Match) * World) : list Match :=
  match r.1 with Ok ms => ms | Raise _ => [] end.

(** The world after the upload of a text file of 60 letters. *)
Definition world_one_document : World :=
  (upload_file services env (text_file "notes.txt" 60) empty_world).2.

(** The summary returned by that upload. *)
Definition first_summary : UploadSummary :=
  match (upload_file services env (text_file "notes.txt" 60) empty_world).1 with
  | Ok summary => summary
  | Raise _ => mk_UploadSummary false EmptyString EmptyString 0 0 0 0 0 0 0
                 EmptyString EmptyString
  end.



Definition env_second : UploadEnv :=
  mk_UploadEnv "7c9e6679-7425-40de-944b-e07fc1f90ae7"
               "2024-05-02T09:30:00" "2024-05-02T09:30:01".

(** The world after a second upload whose embedding step fails. *)
Definition world_failed_upload : World :=
  (upload_file services_encode_fails env_second (text_file "more.txt" 70)
     world_one_document).2.

(** The steps of the chat request [request] in a world [w]: the world
    after the embedding of the question, the result of the search, and
    what the loop over the matches yields. *)
Definition after_embedding (w : World) : World :=
  (generate_single_embedding services question w).2.

Definition search_result (w : World) : result (list Match) * World :=
  search services [11%Q] 5 None (after_embedding w).

Definition assembled (w : World) : list string * list Source :=
  match assemble (matches_of (search_result w)) with
  | Ok r => r
  | Raise _ => ([], [])
  end.

(** The same services, with an index service whose upsert calls fail once
    an upsert call has been made: the second batch of an upload fails. *)
Definition services_second_upsert_fails : Services := {|
  split_text := split_text services;
  pdf_page_texts := pdf_page_texts services;
  docx_paragraph_texts := docx_paragraph_texts services;
  utf8_decode := utf8_decode services;
  model_encode := model_encode services;
  generate_content := generate_content services;
  similarity := similarity services;
  write_fault := write_fault services;
  pinecone_fault := fun log c =>
    match c with
    | UpsertCall _ =>
        if existsb (fun c' => match c' with UpsertCall _ => true | _ => false end) log
        then Some (LibraryError "pinecone" "connection reset")
        else None
    | _ => None
    end
|}.

(** The same services, on a disk that is full once [n] bytes of a file
    are written. *)
Definition services_disk_full (n : nat) : Services := {|
  split_text := split_text services;
  pdf_page_texts := pdf_page_texts services;
  docx_paragraph_texts := docx_paragraph_texts services;
  utf8_decode := utf8_decode services;
  model_encode := model_encode services;
  generate_content := generate_content services;
  similarity := similarity services;
  pinecone_fault := pinecone_fault services;
  write_fault := fun _ _ => Some ("No space left on device", Some n)
|}.

(** The world after an upload on that disk. *)
Definition world_disk_full : World :=
  (upload_file (services_disk_full 10) env (text_file "notes.txt" 60)
     empty_world).2.

(** 101 chunks and their embeddings. *)
Definition many_chunks : list string := List.repeat "a chunk of text" 101.
Definition many_embeddings : list (list Q) := List.repeat [15%Q] 101.

(** The world after [upsert_chunks] failed on the second batch of the 101
    chunks. *)
Definition world_partial_upsert : World :=
  (upsert_chunks services_second_upsert_fails "doc" "big.txt"
     many_chunks many_embeddings None empty_world).2.

(** The world after [upsert_chunks] stored the 101 chunks. *)
Definition world_many_chunks : World :=
  (upsert_chunks services "doc" "big.txt" many_chunks many_embeddings None
     empty_world).2.

(** The response to the chat request [request] in the world with one
    document. *)
Definition first_response : ChatResponse :=
  match (chat services request world_one_document).1 with
  | Ok response => response
  | Raise _ => mk_ChatResponse EmptyString [] 0
  end.

(** A second text file, uploaded into the world with one document. *)
Definition world_two_documents : World :=
  (upload_file services env_second (text_file "more.txt" 70)
     world_one_document).2.

(** A chat request restricted to the second document. *)
Definition request_second : ChatRequest :=
  ChatRequest_init question (Some [uuid4 env_second]) None.

(** The response to that request in the world with two documents. *)
Definition second_response : ChatResponse :=
  match (chat services request_second world_two_documents).1 with
  | Ok response => response
  | Raise _ => mk_ChatResponse EmptyString [] 0
  end.

(** The same services, with an embedding model that returns one vector
    too many. *)
Definition services_extra_vector : Services := {|
  split_text := split_text services;
  pdf_page_texts := pdf_page_texts services;
  docx_paragraph_texts := docx_paragraph_texts services;
  utf8_decode := utf8_decode services;
  model_encode := fun texts =>
    Ok ([0%Q] :: List.map (fun t => [inject_Z (Z.of_nat (String.length t))]) texts);
  generate_content := generate_content services;
  similarity := similarity services;
  write_fault := write_fault services;
  pinecone_fault := pinecone_fault services
|}.

End Demo.

(** ** app/api/upload.py: listing *)

Record FileInfo : Type := mk_FileInfo {
  info_filename : string;
  info_size : nat;
  info_upload_date : string
}.

(** [list_files]; [ctime_iso name] stands for the creation time of the
    file, [datetime.fromtimestamp(stat().st_ctime).isoformat()]. Every
    entry of the upload directory is a regular file. *)
Definition list_files (ctime_iso : string -> string) : M (list FileInfo * nat) :=
  w ← get_world;
  let files :=
    List.map (fun kv => mk_FileInfo kv.1 (length kv.2) (ctime_iso kv.1))
             (map_to_list (upload_dir w)) in
  ret (files, length files).

(** ** Vocabulary of the further properties *)

(** A string without the character [c]. *)
Definition lacks (c : ascii) (s : string) : bool :=
  forallb (fun a => negb (Ascii.eqb a c)) (list_ascii_of_string s).

(** A file id that can stand as the stem of a file name: not empty, no
    slash and no dot (the string of a UUID is one). *)
Definition plain_id (s : string) : bool :=
  PyStr.truthy s && lacks "/" s && lacks "." s.

(** The first file of the listing of the upload directory whose stem is
    [file_id]: the file that [delete_file] removes. *)
Definition file_for (file_id : string) (w : World) : option string :=
  List.find (fun file_name => String.eqb (PurePath.stem file_name) file_id)
            (List.map fst (map_to_list (upload_dir w))).

(** Scores from the highest to the lowest. *)
Fixpoint descending (scores : list Q) : Prop :=
  match scores with
  | a :: (b :: _) as rest => (b <= a)%Q ∧ descending rest
  | _ => True
  end.

(** The batches that the loop of [upsert_chunks] sends. *)
Definition batches_of (vectors : list (string * vector_record))
    : list (list (string * vector_record)) :=
  List.map (fun i => List.firstn batch_size (List.skipn i vectors))
           (range_step (length vectors) batch_size).

(** * Properties *)

(** ** Strings *)

Lemma lstrip_whitespace_only (s : string) :
  whitespace_only s = true → PyStr.lstrip s = EmptyString.
Proof.
  unfold whitespace_only.
  induction s as [|a s IH]; simpl; [done|].
  intros [Ha Hs]%andb_prop. rewrite Ha. auto.
Qed.

Lemma blank_whitespace_only (s : string) :
  whitespace_only s = true → PyStr.blank s = true.
Proof.
  intros H. unfold PyStr.blank, PyStr.strip.
  rewrite (lstrip_whitespace_only s H).
  destruct s; reflexivity.
Qed.

Lemma take_length (n : nat) (s : string) :
  String.length (PyStr.take n s) = Nat.min n (String.length s).
Proof.
  revert s. induction n as [|n IH]; intros [|a s]; simpl; auto.
Qed.

Lemma take_all (n : nat) (s : string) :
  String.length s ≤ n → PyStr.take n s = s.
Proof.
  revert s. induction n as [|n IH]; intros [|a s]; simpl; try done; try lia.
  intros H. f_equal. apply IH. lia.
Qed.

(** ** The chunker *)

Lemma chunk_text_blank (split : TextSplitter) (text : string) (cs co : Z) :
  PyStr.blank text = true → chunk_text split text cs co = Ok [].
Proof. intros H. unfold chunk_text. by rewrite H. Qed.

(** C9. For every empty or whitespace-only text, and every chunk size and
    overlap (valid or not), [chunk_text] returns the empty list: it
    returns before the splitter is built, so nothing can raise. *)
Theorem chunk_text_whitespace_only (split : TextSplitter) (text : string)
    (chunk_size chunk_overlap : Z) :
  whitespace_only text = true →
  chunk_text split text chunk_size chunk_overlap = Ok [].
Proof.
  intros H. apply chunk_text_blank, blank_whitespace_only, H.
Qed.

Lemma chunk_text_whitespace_only_witness :
  chunk_text short_text_splitter
    (" " ++ PyStr.newline ++ "  ") Config.CHUNK_SIZE Config.CHUNK_OVERLAP = Ok [].
Proof. apply chunk_text_whitespace_only. reflexivity. Defined.

Lemma long_enough_spec (chunk : string) :
  long_enough chunk = true ↔ 51 ≤ String.length (PyStr.strip chunk).
Proof. unfold long_enough. rewrite Nat.ltb_lt. lia. Qed.

(** C1, as the code has it. Every chunk that [chunk_text] returns has a
    trimmed length of at least 51: the filter keeps a chunk when its
    trimmed length is greater than 50, so none of trimmed length 50 or
    less comes out; the chunks kept are the pieces of the splitter that
    pass, in their order. *)
Theorem chunk_text_keeps_longer_than_50 (split : TextSplitter) (text : string)
    (chunk_size chunk_overlap : Z) (chunks : list string) :
  chunk_text split text chunk_size chunk_overlap = Ok chunks →
  Forall (fun chunk => 51 ≤ String.length (PyStr.strip chunk)) chunks
  ∧ (PyStr.blank text = false →
     ∃ pieces, split chunk_size chunk_overlap separators text = Ok pieces
               ∧ chunks = List.filter long_enough pieces).
Proof.
  unfold chunk_text. destruct (PyStr.blank text).
  - intros [= <-]. split; [constructor | discriminate].
  - destruct (split _ _ _ _) as [pieces|e]; [|discriminate].
    intros [= <-]. split; [|eauto].
    apply Forall_forall. intros c Hc%list_elem_of_In.
    apply filter_In in Hc as [_ Hc]. by apply long_enough_spec.
Qed.

Lemma chunk_text_keeps_longer_than_50_witness :
  Forall (fun chunk => 51 ≤ String.length (PyStr.strip chunk))
         [Demo.fifty_one_letters]
  ∧ (PyStr.blank Demo.fifty_one_letters = false →
     ∃ pieces, short_text_splitter Config.CHUNK_SIZE Config.CHUNK_OVERLAP
                 separators Demo.fifty_one_letters = Ok pieces
               ∧ [Demo.fifty_one_letters] = List.filter long_enough pieces).
Proof.
  apply (chunk_text_keeps_longer_than_50 short_text_splitter
           Demo.fifty_one_letters Config.CHUNK_SIZE Config.CHUNK_OVERLAP).
  reflexivity.
Defined.

(** C1, as the specification has it, fails: the splitter hands back a
    piece of trimmed length exactly 50, and [chunk_text] drops it. *)
Lemma chunk_of_trimmed_length_50_is_dropped :
  String.length (PyStr.strip Demo.fifty_letters) = 50
  ∧ short_text_splitter Config.CHUNK_SIZE Config.CHUNK_OVERLAP separators
      Demo.fifty_letters = Ok [Demo.fifty_letters]
  ∧ chunk_text short_text_splitter Demo.fifty_letters
      Config.CHUNK_SIZE Config.CHUNK_OVERLAP = Ok [].
Proof. vm_compute. auto. Qed.

(** ** Running handlers *)

Ltac run := unfold mbind, M_bind, mret, M_ret, bind, ret, raise, lift,
                   try_except, get_world, set_pinecone, log_call in *.

Lemma bind_run {A B : Type} (c : M A) (k : A → M B) (w : World) :
  (c ≫= k) w = match c w with
               | (Ok a, w') => k a w'
               | (Raise e, w') => (Raise e, w')
               end.
Proof. reflexivity. Qed.

Lemma bind_ok {A B : Type} (c : M A) (k : A → M B) (w w' : World) (a : A) :
  c w = (Ok a, w') → (c ≫= k) w = k a w'.
Proof. intros H. by rewrite bind_run, H. Qed.

Lemma bind_raise {A B : Type} (c : M A) (k : A → M B) (w w' : World) (e : exn) :
  c w = (Raise e, w') → (c ≫= k) w = (Raise e, w').
Proof. intros H. by rewrite bind_run, H. Qed.

(** ** The chat endpoint *)

Lemma generate_single_embedding_effect (svc : Services) (text : string) (w : World) :
  let w' := (generate_single_embedding svc text w).2 in
  gateway_log w' = (gateway_log w ++ [EncodeCall [text]])%list
  ∧ pinecone w' = pinecone w ∧ upload_dir w' = upload_dir w.
Proof.
  unfold generate_single_embedding. run. simpl.
  destruct (model_encode svc [text]) as [[|v vs]|e]; simpl; auto.
Qed.

Lemma query_effect (svc : Services) (v : list Q) (k : Z)
    (f : option metadata_filter) (w : World) :
  let w' := (Pinecone.query svc v k f w).2 in
  gateway_log w' = (gateway_log w ++ [QueryCall v k f])%list
  ∧ pinecone w' = pinecone w ∧ upload_dir w' = upload_dir w.
Proof.
  unfold Pinecone.query, Pinecone.call. run. simpl.
  destruct (pinecone_fault svc _ _); simpl; [auto|].
  destruct (k <? 1)%Z; simpl; auto.
Qed.

Lemma search_effect (svc : Services) (v : list Q) (k : Z)
    (f : option metadata_filter) (w : World) (r : result (list Match)) (w' : World) :
  search svc v k f w = (r, w') →
  gateway_log w' = (gateway_log w ++ [QueryCall v k f])%list
  ∧ pinecone w' = pinecone w ∧ upload_dir w' = upload_dir w.
Proof.
  intros H. pose proof (query_effect svc v k f w) as He.
  unfold search in H. rewrite H in He. exact He.
Qed.

Lemma chat_no_matches_run (svc : Services) (request : ChatRequest)
    (w w1 w2 : World) (v : list Q) :
  PyStr.blank (message request) = false →
  generate_single_embedding svc (message request) w = (Ok v, w1) →
  search svc v (top_k request) (filter_dict_of request) w1 = (Ok [], w2) →
  chat svc request w = (Ok (mk_ChatResponse no_information_reply [] 0), w2).
Proof.
  intros Hmsg Hemb Hsearch.
  unfold chat. rewrite Hmsg.
  rewrite (bind_ok _ _ _ _ _ Hemb). cbv zeta.
  rewrite (bind_ok _ _ _ _ _ Hsearch). reflexivity.
Qed.

(** C6. When the similarity search returns no match, the chat endpoint
    returns (not raises) the fixed reply with an empty source list and
    [num_sources = 0]; the calls it made are the embedding of the question
    and the search, and no call to the language model. *)
Theorem chat_without_matches (svc : Services) (request : ChatRequest)
    (w w1 w2 : World) (v : list Q) :
  PyStr.blank (message request) = false →
  generate_single_embedding svc (message request) w = (Ok v, w1) →
  search svc v (top_k request) (filter_dict_of request) w1 = (Ok [], w2) →
  chat svc request w = (Ok (mk_ChatResponse no_information_reply [] 0), w2)
  ∧ gateway_log w2
    = (gateway_log w ++ [EncodeCall [message request];
                         QueryCall v (top_k request) (filter_dict_of request)])%list
  ∧ pinecone w2 = pinecone w ∧ upload_dir w2 = upload_dir w.
Proof.
  intros Hmsg Hemb Hsearch.
  split; [by apply (chat_no_matches_run svc request w w1 w2 v)|].
  pose proof (generate_single_embedding_effect svc (message request) w) as He.
  rewrite Hemb in He. simpl in He. destruct He as (Hl1 & Hp1 & Hu1).
  destruct (search_effect _ _ _ _ _ _ _ Hsearch) as (Hl2 & Hp2 & Hu2).
  rewrite Hl2, Hl1, Hp2, Hp1, Hu2, Hu1, <- app_assoc. auto.
Qed.

Lemma chat_without_matches_witness :
  chat Demo.services (ChatRequest_init "what is it?" None None) Demo.empty_world
  = (Ok (mk_ChatResponse no_information_reply [] 0),
     mk_World ∅ ∅ [EncodeCall ["what is it?"]; QueryCall [11%Q] 5 None]).
Proof.
  apply (chat_without_matches Demo.services
           (ChatRequest_init "what is it?" None None) Demo.empty_world
           (mk_World ∅ ∅ [EncodeCall ["what is it?"]])
           (mk_World ∅ ∅ [EncodeCall ["what is it?"]; QueryCall [11%Q] 5 None])
           [11%Q]);
    reflexivity.
Defined.

Lemma generate_response_effect (svc : Services) (query context : string) (w : World) :
  let w' := (generate_response svc query context w).2 in
  gateway_log w' = (gateway_log w ++ [GenerateCall (build_prompt query context)])%list
  ∧ pinecone w' = pinecone w ∧ upload_dir w' = upload_dir w.
Proof.
  unfold generate_response. run. simpl.
  destruct (generate_content svc _); simpl; auto.
Qed.

(** The handler once the search has returned matches and the loop over
    them has gone through. *)
Lemma chat_with_matches (svc : Services) (request : ChatRequest)
    (w w1 w2 : World) (v : list Q) (m : Match) (ms : list Match)
    (pieces : list string) (srcs : list Source) :
  PyStr.blank (message request) = false →
  generate_single_embedding svc (message request) w = (Ok v, w1) →
  search svc v (top_k request) (filter_dict_of request) w1 = (Ok (m :: ms), w2) →
  assemble (m :: ms) = Ok (pieces, srcs) →
  chat svc request w
  = match generate_response svc (message request)
            (PyStr.join blank_line pieces) w2 with
    | (Ok llm_response, w3) =>
        (Ok (mk_ChatResponse llm_response srcs (length srcs)), w3)
    | (Raise e, w3) => (Raise e, w3)
    end.
Proof.
  intros Hmsg Hemb Hsearch Hassemble.
  unfold chat. rewrite Hmsg.
  rewrite (bind_ok _ _ _ _ _ Hemb). cbv zeta.
  rewrite (bind_ok _ _ _ _ _ Hsearch).
  rewrite bind_run. unfold lift. rewrite Hassemble.
  rewrite bind_run. reflexivity.
Qed.

Lemma chat_reaches_search (svc : Services) (request : ChatRequest)
    (w w1 : World) (v : list Q) :
  PyStr.blank (message request) = false →
  generate_single_embedding svc (message request) w = (Ok v, w1) →
  ∃ rest, gateway_log (chat svc request w).2
          = (gateway_log w1
             ++ QueryCall v (top_k request) (filter_dict_of request) :: rest)%list.
Proof.
  intros Hmsg Hemb.
  destruct (search svc v (top_k request) (filter_dict_of request) w1)
    as [r w2] eqn:Hsearch.
  destruct (search_effect _ _ _ _ _ _ _ Hsearch) as (Hl2 & _ & _).
  destruct r as [[|m ms]|e].
  - rewrite (chat_no_matches_run svc request w w1 w2 v Hmsg Hemb Hsearch).
    exists []. exact Hl2.
  - destruct (assemble (m :: ms)) as [[pieces srcs]|e] eqn:Hassemble.
    + rewrite (chat_with_matches svc request w w1 w2 v m ms pieces srcs)
        by assumption.
      pose proof (generate_response_effect svc (message request)
                    (PyStr.join blank_line pieces) w2) as (Hl3 & _).
      destruct (generate_response _ _ _ w2) as [[r|e] w3]; simpl in *;
        rewrite Hl3, Hl2, <- app_assoc; eauto.
    + unfold chat. rewrite Hmsg.
      rewrite (bind_ok _ _ _ _ _ Hemb). cbv zeta.
      rewrite (bind_ok _ _ _ _ _ Hsearch).
      rewrite bind_run. unfold lift. rewrite Hassemble.
      exists []. exact Hl2.
  - unfold chat. rewrite Hmsg.
    rewrite (bind_ok _ _ _ _ _ Hemb). cbv zeta.
    rewrite (bind_raise _ _ _ _ _ Hsearch).
    exists []. exact Hl2.
Qed.

(** C3, as the code has it. [top_k] is 5 when the caller leaves it out and
    otherwise the caller's integer, whatever its sign; the handler makes
    no check of it and hands it unchanged to the similarity search. *)
Theorem chat_passes_top_k_unchecked (svc : Services) (msg : string)
    (fids : option (list string)) (k : option Z) (w w1 : World) (v : list Q) :
  PyStr.blank msg = false →
  generate_single_embedding svc msg w = (Ok v, w1) →
  top_k (ChatRequest_init msg fids None) = 5%Z
  ∧ top_k (ChatRequest_init msg fids k) = default 5%Z k
  ∧ ∃ rest, gateway_log (chat svc (ChatRequest_init msg fids k) w).2
            = (gateway_log w1
               ++ QueryCall v (default 5%Z k)
                    (filter_dict_of (ChatRequest_init msg fids k)) :: rest)%list.
Proof.
  intros Hmsg Hemb.
  split; [reflexivity|]. split; [by destruct k|].
  destruct (chat_reaches_search svc (ChatRequest_init msg fids k) w w1 v Hmsg Hemb)
    as [rest Hrest].
  exists rest. rewrite Hrest. by destruct k.
Qed.

Lemma chat_passes_top_k_unchecked_witness :
  top_k (ChatRequest_init "what is it?" None None) = 5%Z
  ∧ top_k (ChatRequest_init "what is it?" None (Some (-3)%Z)) = (-3)%Z
  ∧ ∃ rest, gateway_log (chat Demo.services
                           (ChatRequest_init "what is it?" None (Some (-3)%Z))
                           Demo.empty_world).2
            = ([EncodeCall ["what is it?"]]
               ++ QueryCall [11%Q] (-3) None :: rest)%list.
Proof.
  apply (chat_passes_top_k_unchecked Demo.services "what is it?" None
           (Some (-3)%Z) Demo.empty_world
           (mk_World ∅ ∅ [EncodeCall ["what is it?"]]) [11%Q]);
    reflexivity.
Defined.

(** C3, as the specification has it, fails: a request with [top_k = 0] is
    not turned away with a client error; its [top_k] reaches the
    similarity search, and the failure of that call leaves the handler as
    a server error. *)
Lemma chat_top_k_zero_reaches_search :
  gateway_log (chat Demo.services (ChatRequest_init "what is it?" None (Some 0%Z))
                 Demo.empty_world).2
  = [EncodeCall ["what is it?"]; QueryCall [11%Q] 0 None]
  ∧ http_status (chat Demo.services (ChatRequest_init "what is it?" None (Some 0%Z))
                   Demo.empty_world).1 = 500%Z.
Proof. vm_compute. auto. Qed.

(** ** What the index stores and what a query returns *)

Lemma chunk_metadata_chunk_text (fid fname : string) (i : nat) (c : string)
    (extra : option (gmap string meta_value)) :
  leaves_fields ["chunk_text"] extra →
  chunk_metadata fid fname i c extra !! "chunk_text"
  = Some (MStr (PyStr.take 1000 c)).
Proof.
  unfold chunk_metadata, leaves_fields. destruct extra as [extra|].
  - intros [H _]%Forall_cons. rewrite lookup_union_r by exact H.
    rewrite lookup_insert_ne by done. apply lookup_insert_eq.
  - intros _. rewrite lookup_insert_ne by done. apply lookup_insert_eq.
Qed.

Lemma chunk_metadata_text_length (fid fname : string) (i : nat) (c : string)
    (extra : option (gmap string meta_value)) :
  leaves_fields ["text_length"] extra →
  chunk_metadata fid fname i c extra !! "text_length"
  = Some (MInt (Z.of_nat (String.length c))).
Proof.
  unfold chunk_metadata, leaves_fields. destruct extra as [extra|].
  - intros [H _]%Forall_cons. rewrite lookup_union_r by exact H.
    apply lookup_insert_eq.
  - intros _. apply lookup_insert_eq.
Qed.



Lemma insert_ranked_In (m x : Match) (l : list Match) :
  In m (Pinecone.insert_ranked x l) ↔ m = x ∨ In m l.
Proof.
  induction l as [|y l IH]; simpl.
  - intuition.
  - destruct (Qle_bool (score y) (score x)); simpl; [intuition|].
    rewrite IH. intuition.
Qed.

Lemma rank_In (m : Match) (l : list Match) :
  In m (Pinecone.rank l) ↔ In m l.
Proof.
  induction l as [|x l IH]; simpl; [tauto|].
  unfold Pinecone.rank in *. simpl. rewrite insert_ranked_In, IH. intuition.
Qed.

(** A match is an entry of the index with its metadata, and passes the
    filter. *)
Lemma query_matches_stored (svc : Services) (v : list Q) (k : Z)
    (f : option metadata_filter) (w w' : World) (ms : list Match) :
  search svc v k f w = (Ok ms, w') →
  Forall (fun m => ∃ e, pinecone w' !! match_id m = Some e
                        ∧ match_metadata m = metadata e
                        ∧ Pinecone.passes f (metadata e) = true) ms.
Proof.
  unfold search, Pinecone.query, Pinecone.call. run.
  destruct (pinecone_fault svc _ _); [discriminate|].
  destruct (k <? 1)%Z; [discriminate|].
  intros [= <- <-]. cbn [pinecone].
  apply Forall_forall. intros m Hm%list_elem_of_In.
  assert (In m (Pinecone.rank
                  (List.map (Pinecone.to_match svc v)
                     (List.filter (fun kv => Pinecone.passes f (metadata kv.2))
                        (map_to_list (pinecone w)))))) as Hr.
  { rewrite <- (firstn_skipn (Z.to_nat k)). apply in_or_app. by left. }
  apply rank_In, in_map_iff in Hr as ([key e] & <- & Hkv).
  apply filter_In in Hkv as [Hkv Hpass].
  apply list_elem_of_In, elem_of_map_to_list in Hkv.
  exists e. auto.
Qed.

Lemma assemble_Forall2 (ms : list Match) (pieces : list string) (srcs : list Source) :
  assemble ms = Ok (pieces, srcs) →
  Forall2 (fun m piece => match_chunk_text m = Ok piece) ms pieces
  ∧ Forall2 (fun piece src =>
               source_chunk_text src = PyStr.take 200 piece ++ "...") pieces srcs.
Proof.
  revert pieces srcs. induction ms as [|m ms IH]; intros pieces srcs; simpl.
  - intros [= <- <-]. split; constructor.
  - unfold assemble_match.
    destruct (match_chunk_text m) as [chunk|] eqn:Hc; [|discriminate].
    destruct (match_filename m); [|discriminate].
    destruct (match_chunk_index m); [|discriminate].
    destruct (assemble ms) as [[cs ss]|]; [|discriminate].
    intros [= <- <-]. destruct (IH cs ss eq_refl) as [IH1 IH2].
    split; constructor; auto.
Qed.

(** ** upsert_chunks *)

Lemma vector_id_inj (fid : string) : Inj (=) (=) (vector_id fid).
Proof.
  intros i j H. unfold vector_id in H.
  apply (String.app_inj fid), (String.app_inj "_chunk_") in H.
  by apply pretty_nat_inj in H.
Qed.

Lemma write_batch_app (l1 l2 : list (string * vector_record))
    (idx : gmap string vector_record) :
  Pinecone.write_batch (l1 ++ l2) idx
  = Pinecone.write_batch l2 (Pinecone.write_batch l1 idx).
Proof. apply fold_left_app. Qed.

Lemma write_batch_lookup_other (l : list (string * vector_record))
    (idx : gmap string vector_record) (k : string) :
  k ∉ l.*1 → Pinecone.write_batch l idx !! k = idx !! k.
Proof.
  revert idx. induction l as [|[k' v'] l IH]; intros idx Hk; [done|].
  simpl in *. apply not_elem_of_cons in Hk as [Hne Hk].
  rewrite IH by done. by rewrite lookup_insert_ne.
Qed.

Lemma write_batch_lookup (l : list (string * vector_record))
    (idx : gmap string vector_record) (k : string) (v : vector_record) :
  NoDup l.*1 → (k, v) ∈ l → Pinecone.write_batch l idx !! k = Some v.
Proof.
  revert idx. induction l as [|[k' v'] l IH]; intros idx Hnd Hin.
  - by apply elem_of_nil in Hin.
  - simpl in *. apply NoDup_cons in Hnd as [Hk' Hnd].
    apply elem_of_cons in Hin as [[= <- <-]|Hin].
    + rewrite write_batch_lookup_other by done. apply lookup_insert_eq.
    + by apply IH.
Qed.

Lemma pinecone_upsert_effect (svc : Services) (batch : list (string * vector_record))
    (w : World) :
  let r := Pinecone.upsert svc batch w in
  upload_dir r.2 = upload_dir w
  ∧ gateway_log r.2 = (gateway_log w ++ [UpsertCall batch])%list
  ∧ match r.1 with
    | Ok _ => pinecone r.2 = Pinecone.write_batch batch (pinecone w)
    | Raise _ => pinecone r.2 = pinecone w
    end.
Proof.
  unfold Pinecone.upsert, Pinecone.call. run.
  destruct (pinecone_fault svc _ _); simpl; auto.
Qed.

(** The loop over the batches, when no call fails: the batches from number
    [a] on, [k] of them, write the corresponding stretch of [vectors]. *)
Lemma upsert_batches_ok (svc : Services) (vectors : list (string * vector_record))
    (k a total : nat) (w w' : World) (n : nat) :
  upsert_batches svc vectors
    (List.map (fun j => j * batch_size) (seq a k)) total w = (Ok n, w') →
  n = total + length (take (k * batch_size) (drop (a * batch_size) vectors))
  ∧ pinecone w'
    = Pinecone.write_batch (take (k * batch_size) (drop (a * batch_size) vectors))
                           (pinecone w)
  ∧ upload_dir w' = upload_dir w.
Proof.
  revert a total w w' n. induction k as [|k IH]; intros a total w w' n.
  - simpl. intros [= <- <-]. rewrite Nat.add_0_r. auto.
  - assert (take (S k * batch_size) (drop (a * batch_size) vectors)
            = (take batch_size (drop (a * batch_size) vectors)
               ++ take (k * batch_size) (drop (S a * batch_size) vectors))%list)
      as Hsplit.
    { replace (S k * batch_size) with (batch_size + k * batch_size) by lia.
      rewrite <- take_take_drop, drop_drop. do 3 f_equal. lia. }
    cbn [seq List.map upsert_batches]. rewrite bind_run.
    pose proof (pinecone_upsert_effect svc
                  (take batch_size (drop (a * batch_size) vectors)) w) as He.
    destruct (Pinecone.upsert svc _ w) as [[[]|e] w1]; [|discriminate].
    simpl in He. destruct He as (Hu & _ & Hp).
    intros H. apply IH in H as (-> & -> & ->).
    rewrite Hsplit, length_app, write_batch_app, Hp, Hu.
    split; [lia|]. auto.
Qed.

Lemma range_step_covers (n : nat) :
  n ≤ (n + (batch_size - 1)) / batch_size * batch_size.
Proof.
  unfold batch_size.
  pose proof (Nat.div_mod_eq (n + (100 - 1)) 100).
  pose proof (Nat.mod_upper_bound (n + (100 - 1)) 100). lia.
Qed.

(** [upsert_chunks], when it returns: the lists had the same length, all
    the prepared vectors were written, and their number is returned. *)
Lemma upsert_chunks_ok (svc : Services) (fid fname : string)
    (chunks : list string) (embs : list (list Q))
    (extra : option (gmap string meta_value)) (w w' : World) (n : nat) :
  upsert_chunks svc fid fname chunks embs extra w = (Ok n, w') →
  length chunks = length embs
  ∧ n = length chunks
  ∧ pinecone w'
    = Pinecone.write_batch (prepare_vectors fid fname chunks embs extra) (pinecone w)
  ∧ upload_dir w' = upload_dir w.
Proof.
  unfold upsert_chunks.
  destruct (length chunks =? length embs) eqn:Hlen; simpl; [|discriminate].
  apply Nat.eqb_eq in Hlen. unfold range_step. intros H.
  apply (upsert_batches_ok svc _ _ 0 0) in H as (-> & -> & ->).
  rewrite Nat.mul_0_l, drop_0, take_ge by apply range_step_covers.
  split; [done|]. split; [|done].
  unfold prepare_vectors. rewrite length_imap, length_zip, <- Hlen. lia.
Qed.

Lemma prepare_vectors_keys (fid fname : string) (chunks : list string)
    (embs : list (list Q)) (extra : option (gmap string meta_value)) :
  (prepare_vectors fid fname chunks embs extra).*1
  = vector_id fid <$> seq 0 (length (zip chunks embs)).
Proof.
  unfold prepare_vectors. rewrite fmap_imap.
  rewrite <- (imap_seq_0 (zip chunks embs) (vector_id fid)).
  reflexivity.
Qed.

Lemma prepare_vectors_NoDup (fid fname : string) (chunks : list string)
    (embs : list (list Q)) (extra : option (gmap string meta_value)) :
  NoDup (prepare_vectors fid fname chunks embs extra).*1.
Proof.
  rewrite prepare_vectors_keys.
  apply (@NoDup_fmap_2 _ _ (vector_id fid) (vector_id_inj fid)), NoDup_seq.
Qed.

(** After [upsert_chunks], chunk number [i] is the entry under
    [vector_id fid i], with the metadata built for it. *)
Lemma upsert_chunks_lookup (svc : Services) (fid fname : string)
    (chunks : list string) (embs : list (list Q))
    (extra : option (gmap string meta_value)) (w w' : World) (n i : nat)
    (c : string) :
  upsert_chunks svc fid fname chunks embs extra w = (Ok n, w') →
  chunks !! i = Some c →
  ∃ emb, embs !! i = Some emb
         ∧ pinecone w' !! vector_id fid i
           = Some (mk_vector_record emb (chunk_metadata fid fname i c extra)).
Proof.
  intros (Hlen & _ & -> & _)%upsert_chunks_ok Hc.
  destruct (embs !! i) as [emb|] eqn:He.
  2: { apply lookup_ge_None in He. apply lookup_lt_Some in Hc. lia. }
  exists emb. split; [done|].
  apply write_batch_lookup; [apply prepare_vectors_NoDup|].
  apply list_elem_of_lookup. exists i.
  unfold prepare_vectors. rewrite list_lookup_imap.
  assert (zip chunks embs !! i = Some (c, emb)) as -> by by apply lookup_zip_Some.
  reflexivity.
Qed.

(** ** The context block of the chat endpoint *)

Lemma Forall2_with_Forall {A B : Type} (P : A → Prop) (R T : A → B → Prop)
    (l : list A) (k : list B) :
  (∀ a b, P a → R a b → T a b) →
  Forall P l → Forall2 R l k → Forall2 T l k.
Proof.
  intros HT HP HR. induction HR as [|a b l k Hab HR IH]; [constructor|].
  apply Forall_cons in HP as [Ha HP]. constructor; auto.
Qed.

Lemma stored_chunk_text_of_match (m : Match) (e : vector_record) :
  match_metadata m = metadata e → stored_chunk_text e = match_chunk_text m.
Proof.
  intros H. unfold stored_chunk_text, match_chunk_text. cbn [match_metadata].
  by rewrite H.
Qed.

Lemma match_chunk_text_written (m : Match) (fid fname : string) (i : nat)
    (c : string) (extra : option (gmap string meta_value)) :
  match_metadata m = chunk_metadata fid fname i c extra →
  leaves_fields ["chunk_text"] extra →
  match_chunk_text m = Ok (PyStr.take 1000 c).
Proof.
  intros Hm Hextra. unfold match_chunk_text.
  by rewrite Hm, chunk_metadata_chunk_text.
Qed.

(** C2. When the search returns matches, the context block handed to the
    language model is made of the chunk texts of the matches, one piece
    per match, in result order, joined by a blank line; each piece is the
    [chunk_text] that the index stores for the match, whole, and not the
    200-character preview that the sources carry. (What the index stores
    is what [upsert_chunks] wrote there; for a chunk of at most 1000
    characters written without a [chunk_text] of the caller's own that is
    the chunk itself.) *)
Theorem chat_context_is_stored_text (svc : Services) (request : ChatRequest)
    (w w1 w2 : World) (v : list Q) (ms : list Match)
    (pieces : list string) (srcs : list Source) :
  PyStr.blank (message request) = false →
  generate_single_embedding svc (message request) w = (Ok v, w1) →
  search svc v (top_k request) (filter_dict_of request) w1 = (Ok ms, w2) →
  ms ≠ [] →
  assemble ms = Ok (pieces, srcs) →
  gateway_log (chat svc request w).2
  = (gateway_log w2
     ++ [GenerateCall (build_prompt (message request)
                         (PyStr.join blank_line pieces))])%list
  ∧ Forall2 (fun m piece =>
       ∃ e, pinecone w2 !! match_id m = Some e
            ∧ stored_chunk_text e = Ok piece
            ∧ ∀ fid fname i c extra,
                metadata e = chunk_metadata fid fname i c extra →
                leaves_fields ["chunk_text"] extra →
                piece = PyStr.take 1000 c
                ∧ (String.length c ≤ 1000 → piece = c))
      ms pieces.
Proof.
  intros Hmsg Hemb Hsearch Hne Hassemble.
  destruct ms as [|m ms]; [done|]. split.
  - rewrite (chat_with_matches svc request w w1 w2 v m ms pieces srcs)
      by assumption.
    pose proof (generate_response_effect svc (message request)
                  (PyStr.join blank_line pieces) w2) as (Hl & _).
    by destruct (generate_response _ _ _ w2) as [[r|e] w3].
  - apply assemble_Forall2 in Hassemble as [Hpieces _].
    apply query_matches_stored in Hsearch.
    revert Hsearch Hpieces. apply Forall2_with_Forall.
    intros m' piece (e & He & Hmeta & _) Hpiece.
    exists e. split; [done|]. split.
    + by rewrite (stored_chunk_text_of_match m' e).
    + intros fid fname i c extra Hwritten Hextra.
      rewrite Hwritten in Hmeta.
      rewrite (match_chunk_text_written _ _ _ _ _ _ Hmeta Hextra) in Hpiece.
      injection Hpiece as <-. split; [done|]. apply take_all.
Qed.

Lemma chat_context_is_stored_text_witness :
  length (Demo.matches_of (Demo.search_result Demo.world_two_documents)) = 2
  ∧ gateway_log (chat Demo.services Demo.request Demo.world_two_documents).2
    = (gateway_log (Demo.search_result Demo.world_two_documents).2
       ++ [GenerateCall (build_prompt (message Demo.request)
                           (PyStr.join blank_line
                              (Demo.assembled Demo.world_two_documents).1))])%list
  ∧ Forall2 (fun m piece =>
       ∃ e, pinecone (Demo.search_result Demo.world_two_documents).2 !! match_id m
            = Some e
            ∧ stored_chunk_text e = Ok piece
            ∧ ∀ fid fname i c extra,
                metadata e = chunk_metadata fid fname i c extra →
                leaves_fields ["chunk_text"] extra →
                piece = PyStr.take 1000 c
                ∧ (String.length c ≤ 1000 → piece = c))
      (Demo.matches_of (Demo.search_result Demo.world_two_documents))
      (Demo.assembled Demo.world_two_documents).1.
Proof.
  split; [vm_compute; reflexivity|].
  apply (chat_context_is_stored_text Demo.services Demo.request
           Demo.world_two_documents
           (Demo.after_embedding Demo.world_two_documents)
           (Demo.search_result Demo.world_two_documents).2
           [11%Q]
           (Demo.matches_of (Demo.search_result Demo.world_two_documents))
           (Demo.assembled Demo.world_two_documents).1
           (Demo.assembled Demo.world_two_documents).2).
  - reflexivity.
  - vm_compute. reflexivity.
  - vm_compute. reflexivity.
  - intros H. vm_compute in H. discriminate H.
  - vm_compute. reflexivity.
Defined.

(** ** The stored chunk text *)

Lemma leaves_fields_elem (fields : list string) (f : string)
    (extra : option (gmap string meta_value)) :
  leaves_fields fields extra → f ∈ fields → leaves_fields [f] extra.
Proof.
  unfold leaves_fields. destruct extra as [extra|]; [|done].
  intros H Hf. rewrite Forall_forall in H. constructor; [auto|constructor].
Qed.

Lemma assemble_match_parts (m : Match) (piece : string) (src : Source) :
  assemble_match m = Ok (piece, src) →
  match_chunk_text m = Ok piece
  ∧ source_chunk_text src = PyStr.take 200 piece ++ "...".
Proof.
  unfold assemble_match.
  destruct (match_chunk_text m) as [chunk|]; [|discriminate].
  destruct (match_filename m); [|discriminate].
  destruct (match_chunk_index m); [|discriminate].
  by intros [= <- <-].
Qed.

(** What [upsert_chunks] stores for a chunk when the additional metadata
    has no [chunk_text] and no [text_length] of its own. *)
Lemma upsert_chunks_first_1000 (svc : Services) (fid fname : string)
    (chunks : list string) (embs : list (list Q))
    (extra : option (gmap string meta_value)) (w w' : World) (n i : nat)
    (c : string) :
  leaves_fields ["chunk_text"; "text_length"] extra →
  upsert_chunks svc fid fname chunks embs extra w = (Ok n, w') →
  chunks !! i = Some c →
  stores_first_1000 (pinecone w') fid i c.
Proof.
  intros Hextra Hup Hc.
  assert (leaves_fields ["chunk_text"] extra) as Hct
    by (apply (leaves_fields_elem _ _ _ Hextra); set_solver).
  assert (leaves_fields ["text_length"] extra) as Htl
    by (apply (leaves_fields_elem _ _ _ Hextra); set_solver).
  destruct (upsert_chunks_lookup _ _ _ _ _ _ _ _ _ _ _ Hup Hc) as (emb & _ & He).
  eexists. split; [exact He|]. cbn [metadata].
  split; [by apply chunk_metadata_chunk_text|].
  split; [by apply chunk_metadata_text_length|].
  split; [rewrite take_length; lia|].
  intros m piece src Hm [Hpiece Hsrc]%assemble_match_parts.
  rewrite (match_chunk_text_written _ _ _ _ _ _ Hm Hct) in Hpiece.
  injection Hpiece as <-. auto.
Qed.

(** ** The upload endpoint: rejections *)

Lemma too_large_spec (contents : list Byte.byte) :
  too_large contents = true
  ↔ (Config.MAX_FILE_SIZE_MB * 1024 * 1024 < Z.of_nat (length contents))%Z.
Proof.
  unfold too_large, file_size_mb, Qle_bool, Config.MAX_FILE_SIZE_MB.
  cbn [Qnum Qden inject_Z].
  rewrite negb_true_iff, Z.leb_gt.
  change (Z.pos (1024 * 1024)) with 1048576%Z. lia.
Qed.

Lemma allowed_extension_nonempty (file_name : string) :
  allowed_extension file_name = true → PyStr.truthy file_name = true.
Proof. by destruct file_name. Qed.

Lemma validate_file_run (file : UploadFile) (w : World) :
  validate_file file w
  = if allowed_extension (filename file) then (Ok tt, w)
    else (Raise (HTTPException 400
                   ("File type not allowed. Allowed types: "
                    ++ PyStr.join "," Config.ALLOWED_EXTENSIONS)), w).
Proof.
  unfold validate_file.
  destruct (allowed_extension (filename file)) eqn:Hext; simpl; [|done].
  by rewrite (allowed_extension_nonempty _ Hext).
Qed.

(** C5, as the code has it. An upload whose extension is not allowed is
    rejected with status 400, whatever its size, and an upload with an
    allowed extension of more than [MAX_FILE_SIZE_MB] MiB is rejected with
    status 413; in both cases the handler stops before it writes the file
    and before it starts the extraction: the upload directory, the vector
    index and the trace of outside calls are as they were. *)
Theorem upload_rejected_before_persisting (svc : Services) (env : UploadEnv)
    (file : UploadFile) (w : World) :
  allowed_extension (filename file) = false
  ∨ (Config.MAX_FILE_SIZE_MB * 1024 * 1024
     < Z.of_nat (length (file_contents file)))%Z →
  ∃ status detail,
    upload_file svc env file w = (Raise (HTTPException status detail), w)
    ∧ (allowed_extension (filename file) = false → status = 400%Z)
    ∧ (allowed_extension (filename file) = true → status = 413%Z).
Proof.
  intros H. unfold upload_file. rewrite bind_run, validate_file_run.
  destruct (allowed_extension (filename file)) eqn:Hext.
  - destruct H as [|H]; [done|].
    apply too_large_spec in H. rewrite H.
    eexists _, _. split; [reflexivity|]. split; done.
  - eexists _, _. split; [reflexivity|]. split; done.
Qed.

Lemma upload_rejected_before_persisting_witness :
  (∃ status detail,
     upload_file Demo.services Demo.env (Demo.text_file "setup.exe" 60)
       Demo.world_one_document
     = (Raise (HTTPException status detail), Demo.world_one_document)
     ∧ (allowed_extension "setup.exe" = false → status = 400%Z)
     ∧ (allowed_extension "setup.exe" = true → status = 413%Z))
  ∧ (∃ status detail,
       upload_file Demo.services Demo.env Demo.big_file Demo.world_one_document
       = (Raise (HTTPException status detail), Demo.world_one_document)
       ∧ (allowed_extension "big.pdf" = false → status = 400%Z)
       ∧ (allowed_extension "big.pdf" = true → status = 413%Z)).
Proof.
  split.
  - apply (upload_rejected_before_persisting Demo.services Demo.env
             (Demo.text_file "setup.exe" 60) Demo.world_one_document).
    left. reflexivity.
  - apply (upload_rejected_before_persisting Demo.services Demo.env
             Demo.big_file Demo.world_one_document).
    right. unfold Demo.big_file. cbn [file_contents].
    rewrite repeat_length, Z2Nat.id by lia. reflexivity.
Defined.

(** C5, as the specification has it, fails: an upload of 15 MiB and one
    byte whose extension is not allowed exceeds the size ceiling and is
    answered with status 400, not 413, since the file type is checked
    first. *)
Lemma oversized_upload_of_disallowed_type_is_400 :
  (Config.MAX_FILE_SIZE_MB * 1024 * 1024
   < Z.of_nat (length (file_contents Demo.big_exe)))%Z
  ∧ too_large (file_contents Demo.big_exe) = true
  ∧ upload_file Demo.services Demo.env Demo.big_exe Demo.empty_world
    = (Raise (HTTPException 400
                "File type not allowed. Allowed types: .pdf,.txt,.docx"),
       Demo.empty_world)
  ∧ http_status (upload_file Demo.services Demo.env Demo.big_exe
                   Demo.empty_world).1 ≠ 413%Z.
Proof.
  assert ((Config.MAX_FILE_SIZE_MB * 1024 * 1024
           < Z.of_nat (length (file_contents Demo.big_exe)))%Z) as Hbig.
  { unfold Demo.big_exe. cbn [file_contents].
    rewrite repeat_length, Z2Nat.id by lia. reflexivity. }
  assert (upload_file Demo.services Demo.env Demo.big_exe Demo.empty_world
          = (Raise (HTTPException 400
                      "File type not allowed. Allowed types: .pdf,.txt,.docx"),
             Demo.empty_world)) as Hrun.
  { unfold upload_file. rewrite bind_run, validate_file_run. reflexivity. }
  split; [exact Hbig|]. split; [by apply too_large_spec|].
  split; [exact Hrun|]. rewrite Hrun. discriminate.
Qed.

(** ** The upload endpoint: failures after the file was written *)

Section Frame.
Context {X : Type} (proj : World → X).

Lemma keeps_bind {A B : Type} (c : M A) (k : A → M B) :
  keeps proj c → (∀ a, keeps proj (k a)) → keeps proj (c ≫= k).
Proof.
  intros Hc Hk w. rewrite bind_run. specialize (Hc w).
  destruct (c w) as [[a|e] w1]; simpl in *; [rewrite Hk|]; done.
Qed.

Lemma keeps_try_except {A : Type} (c : M A) (h : exn → M A) :
  keeps proj c → (∀ e, keeps proj (h e)) → keeps proj (try_except c h).
Proof.
  intros Hc Hh w. unfold try_except. specialize (Hc w).
  destruct (c w) as [[a|e] w1]; simpl in *; [|rewrite Hh]; done.
Qed.

Lemma keeps_ret {A : Type} (a : A) : keeps proj (ret a).
Proof. done. Qed.

Lemma keeps_raise {A : Type} (e : exn) : keeps proj (raise (A:=A) e).
Proof. done. Qed.

Lemma keeps_lift {A : Type} (r : result A) : keeps proj (lift r).
Proof. done. Qed.

Lemma keeps_get_world : keeps proj get_world.
Proof. done. Qed.

Lemma keeps_fs_read (file_name : string) : keeps proj (fs_read file_name).
Proof. intros w. unfold fs_read. by destruct (upload_dir w !! file_name). Qed.

End Frame.

Lemma keeps_files_log_call (c : gateway_call) : keeps_files (log_call c).
Proof. done. Qed.

Lemma keeps_index_log_call (c : gateway_call) : keeps_index (log_call c).
Proof. done. Qed.

Lemma keeps_files_set_pinecone (idx : gmap string vector_record) :
  keeps_files (set_pinecone idx).
Proof. done. Qed.

Lemma keeps_files_call (svc : Services) (c : gateway_call) :
  keeps_files (Pinecone.call svc c).
Proof. intros w. unfold Pinecone.call. by destruct (pinecone_fault svc _ _). Qed.

Lemma keeps_index_call (svc : Services) (c : gateway_call) :
  keeps_index (Pinecone.call svc c).
Proof. intros w. unfold Pinecone.call. by destruct (pinecone_fault svc _ _). Qed.

Create HintDb frame.
#[local] Hint Resolve keeps_ret keeps_raise keeps_lift keeps_get_world
  keeps_fs_read keeps_files_log_call keeps_index_log_call
  keeps_files_set_pinecone keeps_files_call keeps_index_call : frame.

(** Takes a handler apart along its binds and its case distinctions. *)
Ltac frame :=
  repeat first
    [ progress auto with frame
    | apply keeps_bind; [|intros]
    | apply keeps_try_except; [|intros]
    | match goal with
      | |- keeps _ (if ?b then _ else _) => destruct b
      | |- keeps _ (match ?x with _ => _ end) => destruct x
      end ].

Lemma keeps_files_upsert_batches (svc : Services)
    (vectors : list (string * vector_record)) (starts : list nat) (total : nat) :
  keeps_files (upsert_batches svc vectors starts total).
Proof.
  revert total. induction starts as [|i rest IH]; intros total; simpl.
  - frame.
  - unfold Pinecone.upsert. frame.
Qed.
#[local] Hint Resolve keeps_files_upsert_batches : frame.

Lemma keeps_files_process_upload (svc : Services) (env : UploadEnv)
    (file : UploadFile) :
  keeps_files (process_upload svc env file).
Proof.
  unfold process_upload, process_document, extract_text_from_pdf,
    extract_text_from_docx, extract_text_from_txt, generate_embeddings,
    upsert_chunks.
  frame.
Qed.

(** The handler once the checks have passed and the file is written: the
    processing runs, and its failure removes the file. *)
Lemma upload_file_persisted (svc : Services) (env : UploadEnv)
    (file : UploadFile) (w : World) :
  allowed_extension (filename file) = true →
  too_large (file_contents file) = false →
  write_fault svc (unique_filename env file) (file_contents file) = None →
  let name := unique_filename env file in
  let w0 := mk_World (<[name := file_contents file]> (upload_dir w))
                     (pinecone w) (gateway_log w) in
  upload_file svc env file w
  = match process_upload svc env file w0 with
    | (Ok summary, w1) => (Ok summary, w1)
    | (Raise e, w1) =>
        (Raise (HTTPException 500 ("Failed to process document: " ++ exn_str e)),
         mk_World (delete name (upload_dir w)) (pinecone w1) (gateway_log w1))
    end.
Proof.
  intros Hext Hsize Hwrite name w0.
  unfold upload_file. rewrite bind_run, validate_file_run, Hext, Hsize.
  rewrite bind_run. unfold fs_write at 1. rewrite Hwrite. fold name w0.
  cbv beta iota. unfold try_except.
  pose proof (keeps_files_process_upload svc env file w0) as Hkeep.
  destruct (process_upload svc env file w0) as [[summary|e] w1]; [done|].
  simpl in Hkeep. rewrite bind_run. unfold fs_unlink.
  rewrite Hkeep, lookup_insert_eq. unfold raise.
  by rewrite delete_insert_eq.
Qed.

(** The handler once the checks have passed and the writing of the file
    fails: the [OSError] leaves the handler as it is, since the file is
    written before the [try] block, and what was written stays. *)
Lemma upload_file_write_fails (svc : Services) (env : UploadEnv)
    (file : UploadFile) (w : World) (msg : string) (written : option nat) :
  allowed_extension (filename file) = true →
  too_large (file_contents file) = false →
  write_fault svc (unique_filename env file) (file_contents file)
  = Some (msg, written) →
  upload_file svc env file w
  = (Raise (OSError msg),
     match written with
     | None => w
     | Some n =>
         mk_World (<[unique_filename env file
                     := List.firstn n (file_contents file)]> (upload_dir w))
                  (pinecone w) (gateway_log w)
     end).
Proof.
  intros Hext Hsize Hwrite.
  unfold upload_file. rewrite bind_run, validate_file_run, Hext, Hsize.
  rewrite bind_run. unfold fs_write at 1. rewrite Hwrite.
  by destruct written.
Qed.

(** A successful upload has passed the checks and written its file. *)
Lemma upload_file_ok_checks (svc : Services) (env : UploadEnv)
    (file : UploadFile) (w w' : World) (summary : UploadSummary) :
  upload_file svc env file w = (Ok summary, w') →
  allowed_extension (filename file) = true
  ∧ too_large (file_contents file) = false
  ∧ write_fault svc (unique_filename env file) (file_contents file) = None.
Proof.
  destruct (allowed_extension (filename file)) eqn:Hext.
  2: { unfold upload_file. rewrite bind_run, validate_file_run, Hext.
       discriminate. }
  destruct (too_large (file_contents file)) eqn:Hsize.
  { unfold upload_file. rewrite bind_run, validate_file_run, Hext, Hsize.
    discriminate. }
  destruct (write_fault svc (unique_filename env file) (file_contents file))
    as [[msg written]|] eqn:Hwrite; [|done].
  rewrite (upload_file_write_fails svc env file w msg written Hext Hsize Hwrite).
  discriminate.
Qed.

(** C4. When an upload has passed the checks and its bytes were written
    under the generated name, and the handler then fails at any step
    (extraction, empty text, chunking, no chunk, embedding, upsert), the
    failure surfaces as status 500 and the written file is gone: the
    upload directory holds no file of that name and is otherwise as
    before. *)
Theorem upload_failure_removes_file (svc : Services) (env : UploadEnv)
    (file : UploadFile) (w w' : World) (e : exn) :
  allowed_extension (filename file) = true →
  too_large (file_contents file) = false →
  write_fault svc (unique_filename env file) (file_contents file) = None →
  upload_file svc env file w = (Raise e, w') →
  upload_dir w' = delete (unique_filename env file) (upload_dir w)
  ∧ upload_dir w' !! unique_filename env file = None
  ∧ ∃ detail, e = HTTPException 500 detail.
Proof.
  intros Hext Hsize Hwrite.
  rewrite (upload_file_persisted svc env file w Hext Hsize Hwrite).
  destruct (process_upload svc env file _) as [[summary|e0] w1]; [discriminate|].
  intros [= <- <-]. cbn [upload_dir].
  split; [done|]. split; [apply lookup_delete_eq | eauto].
Qed.

Lemma upload_failure_removes_file_witness :
  upload_dir Demo.world_failed_upload
  = delete (unique_filename Demo.env_second (Demo.text_file "more.txt" 70))
           (upload_dir Demo.world_one_document)
  ∧ upload_dir Demo.world_failed_upload
    !! unique_filename Demo.env_second (Demo.text_file "more.txt" 70) = None
  ∧ ∃ detail,
      HTTPException 500 "Failed to process document: out of memory"
      = HTTPException 500 detail.
Proof.
  apply (upload_failure_removes_file Demo.services_encode_fails Demo.env_second
           (Demo.text_file "more.txt" 70) Demo.world_one_document
           Demo.world_failed_upload
           (HTTPException 500 "Failed to process document: out of memory")).
  - reflexivity.
  - reflexivity.
  - reflexivity.
  - vm_compute. reflexivity.
Defined.

(** ** Entry ids *)

Lemma list_ascii_of_string_app (a b : string) :
  list_ascii_of_string (a ++ b)
  = (list_ascii_of_string a ++ list_ascii_of_string b)%list.
Proof. induction a as [|x a IH]; simpl; [done|]. by rewrite IH. Qed.

Lemma list_ascii_of_string_inj (a b : string) :
  list_ascii_of_string a = list_ascii_of_string b → a = b.
Proof.
  intros H. rewrite <- (string_of_list_ascii_of_string a),
    <- (string_of_list_ascii_of_string b). by rewrite H.
Qed.

Lemma pretty_N_char_digit (x : N) : is_digit (pretty_N_char x) = true.
Proof. unfold pretty_N_char. by repeat case_match. Qed.

Lemma pretty_N_go_digits (x : N) (s : string) :
  all_digits s = true → all_digits (pretty_N_go x s) = true.
Proof.
  revert s. induction (N.lt_wf_0 x) as [x _ IH]; intros s Hs.
  destruct (decide (x = 0)%N) as [->|Hx]; [by rewrite pretty_N_go_0|].
  rewrite pretty_N_go_step by lia.
  apply IH; [apply N.div_lt; lia|].
  unfold all_digits in *. simpl. by rewrite pretty_N_char_digit, Hs.
Qed.

Lemma pretty_nat_digits (n : nat) : all_digits (pretty n) = true.
Proof.
  unfold pretty, pretty_nat, pretty, pretty_N.
  case_decide; [done|]. by apply pretty_N_go_digits.
Qed.

(** Two lists that begin with elements of [P] up to a first element [x]
    outside [P] are equal only piece by piece. *)
Lemma split_at_first_outside {A : Type} (P : A → Prop) (d1 d2 r1 r2 : list A)
    (x : A) :
  Forall P d1 → Forall P d2 → ¬ P x →
  (d1 ++ x :: r1 = d2 ++ x :: r2)%list → d1 = d2 ∧ r1 = r2.
Proof.
  intros H1. revert d2. induction H1 as [|a d1 Ha H1 IH]; intros d2 H2 Hx Heq.
  - destruct H2 as [|b d2 Hb H2]; simpl in Heq.
    + by injection Heq as ->.
    + injection Heq as -> _. done.
  - destruct H2 as [|b d2 Hb H2]; simpl in Heq.
    + injection Heq as -> _. done.
    + injection Heq as -> Heq. destruct (IH d2 H2 Hx Heq) as [-> ->]. done.
Qed.

(** The id of an entry determines the file id and the chunk number. *)
Lemma vector_id_inj2 (fid fid' : string) (i j : nat) :
  vector_id fid i = vector_id fid' j → fid = fid' ∧ i = j.
Proof.
  intros H.
  assert (fid = fid' ∧ (pretty i : string) = pretty j) as [-> Hp].
  2: { split; [done|]. by apply pretty_nat_inj in Hp. }
  unfold vector_id in H.
  apply (f_equal list_ascii_of_string) in H.
  rewrite !list_ascii_of_string_app in H.
  change (list_ascii_of_string "_chunk_")
    with (list_ascii_of_string "_chunk" ++ ["_"%char])%list in H.
  apply (f_equal reverse) in H.
  rewrite !reverse_app, <- !app_assoc in H. simpl in H.
  apply (split_at_first_outside (fun a => is_digit a = true)) in H
    as [Hd Hf].
  - apply (inj reverse) in Hd. apply list_ascii_of_string_inj in Hd.
    injection Hf as Hf. apply (inj reverse) in Hf.
    apply list_ascii_of_string_inj in Hf. done.
  - apply Forall_reverse, Forall_forall. intros a Ha%list_elem_of_In.
    pose proof (pretty_nat_digits i) as Hi. unfold all_digits in Hi.
    rewrite forallb_forall in Hi. auto.
  - apply Forall_reverse, Forall_forall. intros a Ha%list_elem_of_In.
    pose proof (pretty_nat_digits j) as Hj. unfold all_digits in Hj.
    rewrite forallb_forall in Hj. auto.
  - done.
Qed.

(** ** Documents and their index entries *)

Lemma matches_file_id (fid : string) (md : gmap string meta_value) :
  Pinecone.matches_filter (FieldEq "file_id" (MStr fid)) md = true
  ↔ md !! "file_id" = Some (MStr fid).
Proof.
  unfold Pinecone.matches_filter, Pinecone.meta_value_eqb.
  destruct (md !! "file_id") as [[s|z|q]|]; try (split; [discriminate|done]).
  rewrite String.eqb_eq. split; [by intros ->|by intros [= ->]].
Qed.

Lemma upload_metadata_leaves (env : UploadEnv) (contents : list Byte.byte)
    (fields : list string) :
  Forall (fun f => f ≠ "file_size_mb" ∧ f ≠ "upload_date") fields →
  leaves_fields fields (Some (upload_metadata env contents)).
Proof.
  unfold leaves_fields, upload_metadata. intros H.
  eapply Forall_impl; [exact H|].
  intros f [H1 H2]. cbv beta. by rewrite !lookup_insert_ne, lookup_empty.
Qed.

Lemma keeps_index_process_document (svc : Services) (file_name : string) :
  keeps_index (process_document svc file_name).
Proof.
  unfold process_document, extract_text_from_pdf, extract_text_from_docx,
    extract_text_from_txt.
  frame.
Qed.

Lemma keeps_index_generate_embeddings (svc : Services) (texts : list string) :
  keeps_index (generate_embeddings svc texts).
Proof. unfold generate_embeddings. frame. Qed.

Lemma keeps_index_chat (svc : Services) (request : ChatRequest) :
  keeps_index (chat svc request).
Proof.
  unfold chat, generate_single_embedding, search, Pinecone.query,
    generate_response.
  frame.
Qed.

Lemma keeps_files_generate_embeddings (svc : Services) (texts : list string) :
  keeps_files (generate_embeddings svc texts).
Proof. unfold generate_embeddings. frame. Qed.

Lemma keeps_files_process_document (svc : Services) (file_name : string) :
  keeps_files (process_document svc file_name).
Proof.
  unfold process_document, extract_text_from_pdf, extract_text_from_docx,
    extract_text_from_txt.
  frame.
Qed.

(** The steps of a successful upload. *)
Lemma upload_file_steps (svc : Services) (env : UploadEnv) (file : UploadFile)
    (w w' : World) (summary : UploadSummary) :
  upload_file svc env file w = (Ok summary, w') →
  ∃ text chunks embs wa wb,
    allowed_extension (filename file) = true
    ∧ too_large (file_contents file) = false
    ∧ process_document svc (unique_filename env file)
        (mk_World (<[unique_filename env file := file_contents file]> (upload_dir w))
                  (pinecone w) (gateway_log w)) = (Ok text, wa)
    ∧ PyStr.blank text = false
    ∧ chunk_text (split_text svc) text Config.CHUNK_SIZE Config.CHUNK_OVERLAP
      = Ok chunks
    ∧ chunks ≠ []
    ∧ generate_embeddings svc chunks wa = (Ok embs, wb)
    ∧ upsert_chunks svc (uuid4 env) (filename file) chunks embs
        (Some (upload_metadata env (file_contents file))) wb
      = (Ok (vectors_stored summary), w')
    ∧ summary
      = mk_UploadSummary true (uuid4 env) (filename file)
          (length (file_contents file))
          (py_round (file_size_mb (file_contents file)) 2)
          (String.length text) (length chunks) (length embs)
          (vectors_stored summary)
          (match embs with e :: _ => length e | [] => 0 end)
          (now_response env)
          "File uploaded, processed, and stored in vector database successfully".
Proof.
  intros Hup.
  destruct (upload_file_ok_checks svc env file w w' summary Hup)
    as (Hext & Hsize & Hwrite).
  revert Hup. rewrite (upload_file_persisted svc env file w Hext Hsize Hwrite).
  set (w0 := mk_World _ _ _).
  unfold process_upload. rewrite bind_run.
  destruct (process_document svc _ w0) as [[text|e] wa] eqn:Hdoc; [|discriminate].
  rewrite bind_run.
  destruct (PyStr.blank text) eqn:Hblank; [discriminate|]. unfold ret at 1.
  rewrite bind_run. unfold lift.
  destruct (chunk_text (split_text svc) text _ _) as [chunks|e] eqn:Hchunks;
    [|discriminate].
  rewrite bind_run.
  destruct chunks as [|c chunks]; [discriminate|]. unfold ret at 1.
  rewrite bind_run.
  destruct (generate_embeddings svc (c :: chunks) wa) as [[embs|e] wb] eqn:Hemb;
    [|discriminate].
  rewrite bind_run.
  destruct (upsert_chunks svc _ _ _ _ _ wb) as [[n|e] wc] eqn:Hup;
    [|discriminate].
  unfold ret. intros [= <- <-].
  exists text, (c :: chunks), embs, wa, wb. cbn [vectors_stored].
  repeat split; done.
Qed.

(** What a successful upload leaves in the index: the vectors prepared
    for its chunks, written over the index it found. *)
Lemma upload_file_index (svc : Services) (env : UploadEnv) (file : UploadFile)
    (w w' : World) (summary : UploadSummary) :
  upload_file svc env file w = (Ok summary, w') →
  ∃ text wa chunks embs,
    process_document svc (unique_filename env file)
      (mk_World (<[unique_filename env file := file_contents file]> (upload_dir w))
                (pinecone w) (gateway_log w)) = (Ok text, wa)
    ∧ chunk_text (split_text svc) text Config.CHUNK_SIZE Config.CHUNK_OVERLAP
      = Ok chunks
    ∧ length chunks = length embs
    ∧ num_chunks summary = length chunks
    ∧ vectors_stored summary = length chunks
    ∧ (∀ i c, chunks !! i = Some c →
         stores_first_1000 (pinecone w') (uuid4 env) i c)
    ∧ pinecone w'
      = Pinecone.write_batch
          (prepare_vectors (uuid4 env) (filename file) chunks embs
             (Some (upload_metadata env (file_contents file))))
          (pinecone w).
Proof.
  intros H. apply upload_file_steps in H
    as (text & chunks & embs & wa & wb & _ & _ & Hdoc & _ & Hchunks & _ & Hemb
        & Hup & Hsum).
  pose proof (keeps_index_process_document svc (unique_filename env file)
                (mk_World (<[unique_filename env file := file_contents file]>
                             (upload_dir w)) (pinecone w) (gateway_log w)))
    as Hk1.
  rewrite Hdoc in Hk1. cbn [snd pinecone] in Hk1.
  pose proof (keeps_index_generate_embeddings svc chunks wa) as Hk2.
  rewrite Hemb in Hk2. cbn [snd] in Hk2.
  assert (num_chunks summary = length chunks) as Hn
    by (rewrite Hsum; reflexivity).
  exists text, wa, chunks, embs.
  split; [done|]. split; [done|].
  assert (∀ i c, chunks !! i = Some c →
            stores_first_1000 (pinecone w') (uuid4 env) i c) as Hstored.
  { intros i c Hc.
    apply (upsert_chunks_first_1000 _ _ _ _ _ _ _ _ _ _ _
             (upload_metadata_leaves env (file_contents file)
                ["chunk_text"; "text_length"]
                ltac:(repeat constructor; done)) Hup Hc). }
  apply upsert_chunks_ok in Hup as (Hlen & Hstore & Hidx & _).
  repeat split; try done. by rewrite Hidx, Hk2, Hk1.
Qed.









(** C10. The entry that the program stores for a chunk holds the first
    1000 characters of the chunk under [chunk_text] and the full length of
    the chunk under [text_length], and the chat handler takes from it a
    context chunk of at most 1000 characters and makes its source preview
    from it: this holds of every call of [upsert_chunks] with the
    additional metadata left out or as [upload_file], its only caller,
    builds them, and so of every chunk of every successful upload. *)
Theorem stored_chunk_text_is_first_1000 (svc : Services) (env : UploadEnv)
    (file : UploadFile) (w : World) :
  (∀ fid fname chunks embs extra w1 w' n i c,
     extra = None ∨ extra = Some (upload_metadata env (file_contents file)) →
     upsert_chunks svc fid fname chunks embs extra w1 = (Ok n, w') →
     chunks !! i = Some c →
     stores_first_1000 (pinecone w') fid i c)
  ∧ (∀ summary w',
       upload_file svc env file w = (Ok summary, w') →
       ∃ text wa chunks,
         process_document svc (unique_filename env file)
           (mk_World (<[unique_filename env file := file_contents file]>
                        (upload_dir w)) (pinecone w) (gateway_log w))
         = (Ok text, wa)
         ∧ chunk_text (split_text svc) text Config.CHUNK_SIZE Config.CHUNK_OVERLAP
           = Ok chunks
         ∧ length chunks = num_chunks summary
         ∧ ∀ i c, chunks !! i = Some c →
             stores_first_1000 (pinecone w') (uuid4 env) i c).
Proof.
  split.
  - intros fid fname chunks embs extra w1 w' n i c Hextra.
    apply upsert_chunks_first_1000.
    destruct Hextra as [->| ->]; [exact I|].
    apply upload_metadata_leaves. repeat constructor; done.
  - intros summary w' Hup.
    apply upload_file_index in Hup
      as (text & wa & chunks & embs & Hdoc & Hchunks & _ & Hn & _ & Hstored & _).
    exists text, wa, chunks. done.
Qed.

Lemma stored_chunk_text_is_first_1000_witness :
  stores_first_1000 (pinecone Demo.world_long_chunk) "doc" 0 Demo.long_chunk
  ∧ ∃ text wa chunks,
      process_document Demo.services
        (unique_filename Demo.env (Demo.text_file "notes.txt" 60))
        (mk_World (<[unique_filename Demo.env (Demo.text_file "notes.txt" 60)
                     := file_contents (Demo.text_file "notes.txt" 60)]>
                     (upload_dir Demo.empty_world))
                  (pinecone Demo.empty_world) (gateway_log Demo.empty_world))
      = (Ok text, wa)
      ∧ chunk_text (split_text Demo.services) text
          Config.CHUNK_SIZE Config.CHUNK_OVERLAP = Ok chunks
      ∧ length chunks = num_chunks Demo.first_summary
      ∧ ∀ i c, chunks !! i = Some c →
          stores_first_1000 (pinecone Demo.world_one_document)
            (uuid4 Demo.env) i c.
Proof.
  destruct (stored_chunk_text_is_first_1000 Demo.services Demo.env
              (Demo.text_file "notes.txt" 60) Demo.empty_world)
    as [Hupsert Hupload].
  split.
  - apply (Hupsert "doc" "long.txt" [Demo.long_chunk] [[1001%Q]] None
             Demo.empty_world Demo.world_long_chunk 1 0 Demo.long_chunk).
    + by left.
    + vm_compute. reflexivity.
    + reflexivity.
  - apply (Hupload Demo.first_summary Demo.world_one_document).
    vm_compute. reflexivity.
Defined.


(** * Further properties of the code *)

(** A run is its outcome and its final world. *)
Lemma run_outcome {A : Type} (p : result A * World) (r : result A) :
  p.1 = r → p = (r, p.2).
Proof. destruct p as [r' w]. by intros [= ->]. Qed.

(** ** The upload endpoint *)

(** X1. [validate_file] changes nothing and has one way to fail, the 400
    for a file type that is not allowed: it passes exactly the names whose
    lower-cased suffix is allowed, and its second check never fires, since
    a missing (empty) file name has no suffix and is turned away by the
    first. *)
Theorem validate_file_rejects_only_by_type (file : UploadFile) (w w' : World)
    (r : result unit) :
  validate_file file w = (r, w') →
  w' = w
  ∧ r ≠ Raise (HTTPException 400 "No file provided")
  ∧ (r = Ok tt ↔ allowed_extension (filename file) = true)
  ∧ (filename file = EmptyString → http_status r = 400%Z).
Proof.
  rewrite validate_file_run.
  destruct (allowed_extension (filename file)) eqn:Hext; intros [= <- <-].
  - repeat split; try done. intros Hname. by rewrite Hname in Hext.
  - repeat split; try done.
Qed.

Lemma validate_file_rejects_only_by_type_witness :
  Demo.empty_world = Demo.empty_world
  ∧ Raise (A:=unit) (HTTPException 400
             "File type not allowed. Allowed types: .pdf,.txt,.docx")
    ≠ Raise (HTTPException 400 "No file provided")
  ∧ (Raise (A:=unit) (HTTPException 400
              "File type not allowed. Allowed types: .pdf,.txt,.docx") = Ok tt
     ↔ allowed_extension (filename (Demo.text_file EmptyString 3)) = true)
  ∧ (filename (Demo.text_file EmptyString 3) = EmptyString →
     http_status (A:=unit)
       (Raise (HTTPException 400
                 "File type not allowed. Allowed types: .pdf,.txt,.docx"))
     = 400%Z).
Proof.
  apply (validate_file_rejects_only_by_type (Demo.text_file EmptyString 3)
           Demo.empty_world Demo.empty_world).
  reflexivity.
Defined.

(** X2. The size limit of [upload_file] is inclusive: an upload of an
    allowed type is answered with status 413 exactly when it has more than
    15 * 1024 * 1024 bytes, and then nothing is changed; a file of exactly
    15 MiB is not turned away for its size. *)
Theorem size_limit_is_inclusive (svc : Services) (env : UploadEnv)
    (file : UploadFile) (w : World) :
  allowed_extension (filename file) = true →
  (http_status (upload_file svc env file w).1 = 413%Z
   ↔ (15 * 1024 * 1024 < Z.of_nat (length (file_contents file)))%Z)
  ∧ ((15 * 1024 * 1024 < Z.of_nat (length (file_contents file)))%Z →
     (upload_file svc env file w).2 = w).
Proof.
  intros Hext.
  pose proof (too_large_spec (file_contents file)) as Hspec.
  unfold Config.MAX_FILE_SIZE_MB in Hspec.
  destruct (too_large (file_contents file)) eqn:Hsize.
  - assert (upload_file svc env file w
            = (Raise (HTTPException 413
                        ("File too large. Max Size: "
                         ++ pretty Config.MAX_FILE_SIZE_MB ++ "MB")), w)) as ->.
    { unfold upload_file. by rewrite bind_run, validate_file_run, Hext, Hsize. }
    split; [|done]. split; [intros _; by apply Hspec|done].
  - assert (¬ (15 * 1024 * 1024 < Z.of_nat (length (file_contents file)))%Z)
      as Hsmall by (intros Hbig; apply Hspec in Hbig; discriminate).
    split; [|done]. split; [|done].
    destruct (write_fault svc (unique_filename env file) (file_contents file))
      as [[msg written]|] eqn:Hwrite.
    + rewrite (upload_file_write_fails svc env file w msg written Hext Hsize
                 Hwrite).
      discriminate.
    + rewrite (upload_file_persisted svc env file w Hext Hsize Hwrite).
      destruct (process_upload svc env file _) as [[summary|e] w1];
        discriminate.
Qed.

Lemma size_limit_is_inclusive_witness :
  (http_status (upload_file Demo.services Demo.env
                  (Demo.text_file "notes.txt" 60) Demo.empty_world).1 = 413%Z
   ↔ (15 * 1024 * 1024
      < Z.of_nat (length (file_contents (Demo.text_file "notes.txt" 60))))%Z)
  ∧ ((15 * 1024 * 1024
      < Z.of_nat (length (file_contents (Demo.text_file "notes.txt" 60))))%Z →
     (upload_file Demo.services Demo.env (Demo.text_file "notes.txt" 60)
        Demo.empty_world).2 = Demo.empty_world).
Proof.
  apply (size_limit_is_inclusive Demo.services Demo.env
           (Demo.text_file "notes.txt" 60) Demo.empty_world).
  reflexivity.
Defined.

(** X3. The ways in which [upload_file] fails. A refused file type is a
    400 and an oversized file a 413, both with the world as it was. A
    failure of the writing of the file is not caught: the file is written
    before the [try] block, so the [OSError] leaves the handler as it is,
    and the bytes that were written stay in the upload directory under the
    generated name. Every failure after the file was written is a 500,
    and the file is removed again. *)
Theorem upload_file_failures (svc : Services) (env : UploadEnv)
    (file : UploadFile) (w w' : World) (e : exn) :
  upload_file svc env file w = (Raise e, w') →
  (∃ detail, e = HTTPException 400 detail
             ∧ allowed_extension (filename file) = false ∧ w' = w)
  ∨ (∃ detail, e = HTTPException 413 detail
               ∧ too_large (file_contents file) = true ∧ w' = w)
  ∨ (∃ msg written,
       write_fault svc (unique_filename env file) (file_contents file)
       = Some (msg, written)
       ∧ e = OSError msg
       ∧ pinecone w' = pinecone w
       ∧ gateway_log w' = gateway_log w
       ∧ upload_dir w'
         = match written with
           | None => upload_dir w
           | Some n =>
               <[unique_filename env file := take n (file_contents file)]>
                 (upload_dir w)
           end)
  ∨ (∃ detail, e = HTTPException 500 detail
               ∧ write_fault svc (unique_filename env file) (file_contents file)
                 = None
               ∧ upload_dir w'
                 = delete (unique_filename env file) (upload_dir w)).
Proof.
  destruct (allowed_extension (filename file)) eqn:Hext.
  2: { unfold upload_file. rewrite bind_run, validate_file_run, Hext.
       intros [= <- <-]. left. eauto. }
  destruct (too_large (file_contents file)) eqn:Hsize.
  { unfold upload_file. rewrite bind_run, validate_file_run, Hext, Hsize.
    intros [= <- <-]. right. left. eauto. }
  destruct (write_fault svc (unique_filename env file) (file_contents file))
    as [[msg written]|] eqn:Hwrite.
  - rewrite (upload_file_write_fails svc env file w msg written Hext Hsize
               Hwrite).
    intros [= <- <-]. right. right. left. exists msg, written.
    split; [done|]. split; [done|]. by destruct written.
  - rewrite (upload_file_persisted svc env file w Hext Hsize Hwrite).
    destruct (process_upload svc env file _) as [[summary|e0] w1];
      [discriminate|].
    intros [= <- <-]. right. right. right. eauto.
Qed.

Lemma upload_file_failures_witness :
  (∃ detail, OSError "No space left on device" = HTTPException 400 detail
             ∧ allowed_extension (filename (Demo.text_file "notes.txt" 60))
               = false
             ∧ Demo.world_disk_full = Demo.empty_world)
  ∨ (∃ detail, OSError "No space left on device" = HTTPException 413 detail
               ∧ too_large (file_contents (Demo.text_file "notes.txt" 60)) = true
               ∧ Demo.world_disk_full = Demo.empty_world)
  ∨ (∃ msg written,
       write_fault (Demo.services_disk_full 10)
         (unique_filename Demo.env (Demo.text_file "notes.txt" 60))
         (file_contents (Demo.text_file "notes.txt" 60))
       = Some (msg, written)
       ∧ OSError "No space left on device" = OSError msg
       ∧ pinecone Demo.world_disk_full = pinecone Demo.empty_world
       ∧ gateway_log Demo.world_disk_full = gateway_log Demo.empty_world
       ∧ upload_dir Demo.world_disk_full
         = match written with
           | None => upload_dir Demo.empty_world
           | Some n =>
               <[unique_filename Demo.env (Demo.text_file "notes.txt" 60)
                 := take n (file_contents (Demo.text_file "notes.txt" 60))]>
                 (upload_dir Demo.empty_world)
           end)
  ∨ (∃ detail, OSError "No space left on device" = HTTPException 500 detail
               ∧ write_fault (Demo.services_disk_full 10)
                   (unique_filename Demo.env (Demo.text_file "notes.txt" 60))
                   (file_contents (Demo.text_file "notes.txt" 60))
                 = None
               ∧ upload_dir Demo.world_disk_full
                 = delete (unique_filename Demo.env
                             (Demo.text_file "notes.txt" 60))
                          (upload_dir Demo.empty_world)).
Proof.
  apply (upload_file_failures (Demo.services_disk_full 10) Demo.env
           (Demo.text_file "notes.txt" 60) Demo.empty_world
           Demo.world_disk_full).
  vm_compute. reflexivity.
Defined.

(** X4. A successful upload has stored the uploaded bytes under
    [{uuid}{suffix}] and touched no other file; its summary reports the
    generated id, the byte size, at least one chunk, and as many
    embeddings and stored vectors as chunks. *)
Theorem upload_success_stores_file (svc : Services) (env : UploadEnv)
    (file : UploadFile) (w w' : World) (summary : UploadSummary) :
  upload_file svc env file w = (Ok summary, w') →
  upload_dir w'
  = <[unique_filename env file := file_contents file]> (upload_dir w)
  ∧ success summary = true
  ∧ summary_file_id summary = uuid4 env
  ∧ size_bytes summary = length (file_contents file)
  ∧ 0 < num_chunks summary
  ∧ num_embeddings summary = num_chunks summary
  ∧ vectors_stored summary = num_chunks summary.
Proof.
  intros H. apply upload_file_steps in H
    as (text & chunks & embs & wa & wb & _ & _ & Hdoc & _ & _ & Hne & Hemb
        & Hup & Hsum).
  apply upsert_chunks_ok in Hup as (Hlen & Hn & _ & Hfiles).
  pose proof (keeps_files_process_document svc (unique_filename env file)
                (mk_World (<[unique_filename env file := file_contents file]>
                             (upload_dir w)) (pinecone w) (gateway_log w)))
    as Hk1.
  rewrite Hdoc in Hk1. cbn [snd upload_dir] in Hk1.
  pose proof (keeps_files_generate_embeddings svc chunks wa) as Hk2.
  rewrite Hemb in Hk2. cbn [snd] in Hk2.
  split; [by rewrite Hfiles, Hk2, Hk1|].
  rewrite Hsum. cbn [success summary_file_id size_bytes num_chunks
                     num_embeddings vectors_stored].
  repeat split; try done; try lia.
  destruct chunks; [done|]. simpl. lia.
Qed.

Lemma upload_success_stores_file_witness :
  upload_dir Demo.world_one_document
  = <[unique_filename Demo.env (Demo.text_file "notes.txt" 60)
      := file_contents (Demo.text_file "notes.txt" 60)]>
    (upload_dir Demo.empty_world)
  ∧ success Demo.first_summary = true
  ∧ summary_file_id Demo.first_summary = uuid4 Demo.env
  ∧ size_bytes Demo.first_summary
    = length (file_contents (Demo.text_file "notes.txt" 60))
  ∧ 0 < num_chunks Demo.first_summary
  ∧ num_embeddings Demo.first_summary = num_chunks Demo.first_summary
  ∧ vectors_stored Demo.first_summary = num_chunks Demo.first_summary.
Proof.
  apply (upload_success_stores_file Demo.services Demo.env
           (Demo.text_file "notes.txt" 60) Demo.empty_world).
  vm_compute. reflexivity.
Defined.

(** ** upsert_chunks: batches, failures, repetition *)

Lemma batches_concat (vectors : list (string * vector_record)) (k a : nat) :
  concat (List.map (fun i => take batch_size (drop i vectors))
            (List.map (fun j => j * batch_size) (seq a k)))
  = take (k * batch_size) (drop (a * batch_size) vectors).
Proof.
  revert a. induction k as [|k IH]; intros a; [done|].
  cbn [seq List.map concat]. rewrite IH.
  replace (S k * batch_size) with (batch_size + k * batch_size) by lia.
  rewrite <- take_take_drop, drop_drop. do 3 f_equal. lia.
Qed.

Lemma batches_of_concat (vectors : list (string * vector_record)) :
  concat (batches_of vectors) = vectors.
Proof.
  unfold batches_of, range_step. rewrite batches_concat.
  rewrite Nat.mul_0_l, drop_0. apply take_ge, range_step_covers.
Qed.

Lemma batch_count_bound (n j : nat) :
  j < (n + (batch_size - 1)) / batch_size → j * batch_size < n.
Proof.
  unfold batch_size. intros Hj.
  pose proof (Nat.div_mod_eq (n + (100 - 1)) 100).
  pose proof (Nat.mod_upper_bound (n + (100 - 1)) 100). lia.
Qed.

Lemma batches_of_sizes (vectors : list (string * vector_record)) :
  Forall (fun batch => 0 < length batch ≤ batch_size) (batches_of vectors).
Proof.
  unfold batches_of, range_step. apply Forall_forall.
  intros batch (i & -> & (j & -> & Hj%elem_of_seq)%list_elem_of_fmap)%list_elem_of_fmap.
  assert (j * batch_size < length vectors) as Hlt
    by (apply batch_count_bound; lia).
  rewrite length_take, length_drop. unfold batch_size in *. lia.
Qed.

(** The loop over the batches, whatever its outcome: the upsert calls it
    has made. *)
Lemma upsert_batches_log (svc : Services) (vectors : list (string * vector_record))
    (starts : list nat) (total : nat) (w w' : World) (n : nat) :
  upsert_batches svc vectors starts total w = (Ok n, w') →
  gateway_log w'
  = (gateway_log w
     ++ List.map (fun i => UpsertCall (take batch_size (drop i vectors))) starts)%list.
Proof.
  revert total w. induction starts as [|i rest IH]; intros total w.
  - simpl. intros [= <- <-]. by rewrite app_nil_r.
  - cbn [upsert_batches List.map]. rewrite bind_run.
    pose proof (pinecone_upsert_effect svc (take batch_size (drop i vectors)) w)
      as He.
    destruct (Pinecone.upsert svc _ w) as [[[]|e] w1]; [|discriminate].
    simpl in He. destruct He as (_ & Hl & _).
    intros H. apply IH in H. rewrite H, Hl, <- app_assoc. done.
Qed.

(** One upsert call: the call is recorded; when it goes through, the
    batch is written. *)
Lemma pinecone_upsert_run (svc : Services) (batch : list (string * vector_record))
    (w : World) :
  Pinecone.upsert svc batch w
  = match pinecone_fault svc (gateway_log w) (UpsertCall batch) with
    | Some e =>
        (Raise e, mk_World (upload_dir w) (pinecone w)
                           (gateway_log w ++ [UpsertCall batch]))
    | None =>
        (Ok tt, mk_World (upload_dir w)
                         (Pinecone.write_batch batch (pinecone w))
                         (gateway_log w ++ [UpsertCall batch]))
    end.
Proof.
  unfold Pinecone.upsert, Pinecone.call. run.
  by destruct (pinecone_fault svc _ _).
Qed.

(** The loop over the batches, when a call fails: the failing call is the
    last of the trace, and the batches sent before it are written and
    stay. *)
Lemma upsert_batches_fails (svc : Services) (vectors : list (string * vector_record))
    (k a total : nat) (w w' : World) (e : exn) :
  upsert_batches svc vectors
    (List.map (fun j => j * batch_size) (seq a k)) total w = (Raise e, w') →
  ∃ j, j < k
       ∧ gateway_log w'
         = (gateway_log w
            ++ List.map (fun i => UpsertCall
                                    (take batch_size (drop (i * batch_size) vectors)))
                        (seq a (S j)))%list
       ∧ pinecone_fault svc
           (gateway_log w
            ++ List.map (fun i => UpsertCall
                                    (take batch_size (drop (i * batch_size) vectors)))
                        (seq a j))%list
           (UpsertCall (take batch_size (drop ((a + j) * batch_size) vectors)))
         = Some e
       ∧ pinecone w'
         = Pinecone.write_batch (take (j * batch_size) (drop (a * batch_size) vectors))
                                (pinecone w)
       ∧ upload_dir w' = upload_dir w.
Proof.
  revert a total w. induction k as [|k IH]; intros a total w; [discriminate|].
  cbn [seq List.map upsert_batches]. rewrite bind_run, pinecone_upsert_run.
  destruct (pinecone_fault svc (gateway_log w) _) as [e0|] eqn:Hfault.
  - intros [= <- <-]. exists 0. cbn [gateway_log pinecone upload_dir seq List.map].
    split; [lia|]. split; [done|].
    split; [by rewrite app_nil_r, Nat.add_0_r|]. done.
  - intros H. apply IH in H as (j & Hj & Hl & Hf & Hp & Hu).
    cbn [gateway_log pinecone upload_dir] in Hl, Hf, Hp, Hu.
    exists (S j). split; [lia|]. cbn [seq List.map].
    rewrite <- app_assoc in Hl, Hf. cbn [app] in Hl, Hf.
    split; [exact Hl|]. split.
    { replace (a + S j) with (S a + j) by lia. exact Hf. }
    split; [|done]. rewrite Hp, <- write_batch_app. f_equal.
    replace (S j * batch_size) with (batch_size + j * batch_size) by lia.
    rewrite <- take_take_drop, drop_drop. do 3 f_equal. lia.
Qed.

(** The calls for the first [j] batches. *)
Lemma batches_of_take (vectors : list (string * vector_record)) (j : nat) :
  j ≤ (length vectors + (batch_size - 1)) / batch_size →
  List.map UpsertCall (take j (batches_of vectors))
  = List.map (fun i => UpsertCall (take batch_size (drop (i * batch_size) vectors)))
             (seq 0 j)
  ∧ length (take j (batches_of vectors)) = j.
Proof.
  intros Hj. unfold batches_of, range_step.
  rewrite !firstn_map, take_seq, Nat.min_l by done.
  rewrite !map_map, !length_map, length_seq. done.
Qed.

(** X5. [upsert_chunks] has no rollback. When it fails, either the two
    lists differed in length and nothing was sent (the world is as it
    was), or a call to the index failed: then the trace ends with the
    failing call, the call for batch number [j], and the [j] batches sent
    before it, and only those, were written: their entries are in the
    index. The upload directory is untouched either way. *)
Theorem upsert_chunks_failure_keeps_earlier_batches (svc : Services)
    (fid fname : string) (chunks : list string) (embs : list (list Q))
    (extra : option (gmap string meta_value)) (w w' : World) (e : exn) :
  upsert_chunks svc fid fname chunks embs extra w = (Raise e, w') →
  upload_dir w' = upload_dir w
  ∧ ((length chunks ≠ length embs ∧ w' = w
      ∧ e = ValueError "Number of chunks must match number of embeddings")
     ∨ (length chunks = length embs
        ∧ ∃ j, j * batch_size < length chunks
               ∧ gateway_log w'
                 = (gateway_log w
                    ++ List.map UpsertCall
                         (take (S j)
                            (batches_of
                               (prepare_vectors fid fname chunks embs extra))))%list
               ∧ length (take (S j)
                           (batches_of
                              (prepare_vectors fid fname chunks embs extra)))
                 = S j
               ∧ pinecone_fault svc
                   (gateway_log w
                    ++ List.map UpsertCall
                         (take j
                            (batches_of
                               (prepare_vectors fid fname chunks embs extra))))%list
                   (UpsertCall
                      (take batch_size
                         (drop (j * batch_size)
                            (prepare_vectors fid fname chunks embs extra))))
                 = Some e
               ∧ pinecone w'
                 = Pinecone.write_batch
                     (take (j * batch_size)
                        (prepare_vectors fid fname chunks embs extra))
                     (pinecone w)
               ∧ ∀ i c, i < j * batch_size → chunks !! i = Some c →
                   ∃ emb, embs !! i = Some emb
                          ∧ pinecone w' !! vector_id fid i
                            = Some (mk_vector_record emb
                                      (chunk_metadata fid fname i c extra)))).
Proof.
  unfold upsert_chunks.
  destruct (length chunks =? length embs) eqn:Hlen; simpl.
  - apply Nat.eqb_eq in Hlen. unfold range_step. intros H.
    apply (upsert_batches_fails svc _ _ 0) in H as (j & Hj & Hl & Hf & Hp & Hu).
    split; [done|]. right. split; [done|]. exists j.
    rewrite Nat.mul_0_l, drop_0 in Hp. rewrite Nat.add_0_l in Hf.
    set (vs := prepare_vectors fid fname chunks embs extra) in *.
    destruct (batches_of_take vs (S j)) as [Hcalls Hcount]; [lia|].
    destruct (batches_of_take vs j) as [Hcalls' _]; [lia|].
    split.
    { apply batch_count_bound in Hj. unfold vs, prepare_vectors in Hj.
      rewrite length_imap, length_zip, <- Hlen in Hj. lia. }
    rewrite Hcalls, Hcalls'. do 4 (split; [done|]).
    intros i c Hi Hc.
    destruct (embs !! i) as [emb|] eqn:He.
    2: { apply lookup_ge_None in He. apply lookup_lt_Some in Hc. lia. }
    exists emb. split; [done|]. rewrite Hp.
    apply write_batch_lookup.
    + rewrite fmap_take.
      eapply sublist_NoDup; [apply prepare_vectors_NoDup|apply sublist_take].
    + apply list_elem_of_lookup. exists i. rewrite lookup_take_lt by done.
      unfold vs, prepare_vectors. rewrite list_lookup_imap.
      assert (zip chunks embs !! i = Some (c, emb)) as ->
        by by apply lookup_zip_Some.
      reflexivity.
  - apply Nat.eqb_neq in Hlen. intros [= <- <-]. split; [done|]. by left.
Qed.

Lemma upsert_chunks_failure_keeps_earlier_batches_witness :
  upload_dir Demo.world_partial_upsert = upload_dir Demo.empty_world
  ∧ ((length Demo.many_chunks ≠ length Demo.many_embeddings
      ∧ Demo.world_partial_upsert = Demo.empty_world
      ∧ LibraryError "pinecone" "connection reset"
        = ValueError "Number of chunks must match number of embeddings")
     ∨ (length Demo.many_chunks = length Demo.many_embeddings
        ∧ ∃ j, j * batch_size < length Demo.many_chunks
               ∧ gateway_log Demo.world_partial_upsert
                 = (gateway_log Demo.empty_world
                    ++ List.map UpsertCall
                         (take (S j)
                            (batches_of
                               (prepare_vectors "doc" "big.txt" Demo.many_chunks
                                  Demo.many_embeddings None))))%list
               ∧ length (take (S j)
                           (batches_of
                              (prepare_vectors "doc" "big.txt" Demo.many_chunks
                                 Demo.many_embeddings None)))
                 = S j
               ∧ pinecone_fault Demo.services_second_upsert_fails
                   (gateway_log Demo.empty_world
                    ++ List.map UpsertCall
                         (take j
                            (batches_of
                               (prepare_vectors "doc" "big.txt" Demo.many_chunks
                                  Demo.many_embeddings None))))%list
                   (UpsertCall
                      (take batch_size
                         (drop (j * batch_size)
                            (prepare_vectors "doc" "big.txt" Demo.many_chunks
                               Demo.many_embeddings None))))
                 = Some (LibraryError "pinecone" "connection reset")
               ∧ pinecone Demo.world_partial_upsert
                 = Pinecone.write_batch
                     (take (j * batch_size)
                        (prepare_vectors "doc" "big.txt" Demo.many_chunks
                           Demo.many_embeddings None))
                     (pinecone Demo.empty_world)
               ∧ ∀ i c, i < j * batch_size → Demo.many_chunks !! i = Some c →
                   ∃ emb, Demo.many_embeddings !! i = Some emb
                          ∧ pinecone Demo.world_partial_upsert
                            !! vector_id "doc" i
                            = Some (mk_vector_record emb
                                      (chunk_metadata "doc" "big.txt" i c None)))).
Proof.
  apply (upsert_chunks_failure_keeps_earlier_batches
           Demo.services_second_upsert_fails "doc" "big.txt"
           Demo.many_chunks Demo.many_embeddings None Demo.empty_world).
  apply run_outcome. vm_compute. reflexivity.
Defined.

(** X6. When [upsert_chunks] returns, it has made one upsert call per
    batch and no other call: the batches are the prepared vectors cut, in
    order, into stretches of at most 100 entries, none of them empty, so
    their number is the number of vectors divided by 100, rounded up. *)
Theorem upsert_chunks_sends_batches (svc : Services) (fid fname : string)
    (chunks : list string) (embs : list (list Q))
    (extra : option (gmap string meta_value)) (w w' : World) (n : nat) :
  upsert_chunks svc fid fname chunks embs extra w = (Ok n, w') →
  gateway_log w'
  = (gateway_log w
     ++ List.map UpsertCall
          (batches_of (prepare_vectors fid fname chunks embs extra)))%list
  ∧ concat (batches_of (prepare_vectors fid fname chunks embs extra))
    = prepare_vectors fid fname chunks embs extra
  ∧ Forall (fun batch => 0 < length batch ≤ 100)
           (batches_of (prepare_vectors fid fname chunks embs extra))
  ∧ length (batches_of (prepare_vectors fid fname chunks embs extra))
    = (n + 99) / 100.
Proof.
  intros H. pose proof H as (Hlen & Hn & _)%upsert_chunks_ok.
  unfold upsert_chunks in H. rewrite Hlen, Nat.eqb_refl in H. simpl in H.
  apply upsert_batches_log in H.
  split; [|split; [|split]].
  - rewrite H. unfold batches_of. by rewrite List.map_map.
  - apply batches_of_concat.
  - apply batches_of_sizes.
  - unfold batches_of, range_step. rewrite !length_map, length_seq.
    unfold prepare_vectors. rewrite length_imap, length_zip, <- Hlen, Hn.
    unfold batch_size. f_equal. lia.
Qed.

Lemma upsert_chunks_sends_batches_witness :
  gateway_log Demo.world_many_chunks
  = (gateway_log Demo.empty_world
     ++ List.map UpsertCall
          (batches_of (prepare_vectors "doc" "big.txt" Demo.many_chunks
                         Demo.many_embeddings None)))%list
  ∧ concat (batches_of (prepare_vectors "doc" "big.txt" Demo.many_chunks
                          Demo.many_embeddings None))
    = prepare_vectors "doc" "big.txt" Demo.many_chunks Demo.many_embeddings None
  ∧ Forall (fun batch => 0 < length batch ≤ 100)
           (batches_of (prepare_vectors "doc" "big.txt" Demo.many_chunks
                          Demo.many_embeddings None))
  ∧ length (batches_of (prepare_vectors "doc" "big.txt" Demo.many_chunks
                          Demo.many_embeddings None))
    = (101 + 99) / 100.
Proof.
  apply (upsert_chunks_sends_batches Demo.services "doc" "big.txt"
           Demo.many_chunks Demo.many_embeddings None Demo.empty_world
           Demo.world_many_chunks 101).
  apply run_outcome. vm_compute. reflexivity.
Defined.

Lemma write_batch_twice (l : list (string * vector_record))
    (idx : gmap string vector_record) :
  NoDup l.*1 →
  Pinecone.write_batch l (Pinecone.write_batch l idx) = Pinecone.write_batch l idx.
Proof.
  intros Hnd. apply map_eq. intros k.
  destruct (decide (k ∈ l.*1)) as [Hin|Hout].
  - apply list_elem_of_fmap in Hin as ([k' v] & -> & Hin).
    by rewrite !(write_batch_lookup l _ k' v).
  - by rewrite !write_batch_lookup_other.
Qed.

(** X7. Storing the same chunks again under the same file id changes
    nothing in the index: the second call writes every entry over itself
    (ids are made of the file id and the chunk number), so a repeated
    ingestion does not duplicate entries. *)
Theorem upsert_chunks_again_changes_nothing (svc : Services) (fid fname : string)
    (chunks : list string) (embs : list (list Q))
    (extra : option (gmap string meta_value)) (w w1 w2 : World) (n n' : nat) :
  upsert_chunks svc fid fname chunks embs extra w = (Ok n, w1) →
  upsert_chunks svc fid fname chunks embs extra w1 = (Ok n', w2) →
  pinecone w2 = pinecone w1 ∧ n' = n.
Proof.
  intros (_ & -> & Hp1 & _)%upsert_chunks_ok (_ & -> & Hp2 & _)%upsert_chunks_ok.
  split; [|done]. rewrite Hp2, Hp1.
  apply write_batch_twice, prepare_vectors_NoDup.
Qed.

Lemma upsert_chunks_again_changes_nothing_witness :
  pinecone (upsert_chunks Demo.services "doc" "big.txt" Demo.many_chunks
              Demo.many_embeddings None Demo.world_many_chunks).2
  = pinecone Demo.world_many_chunks
  ∧ 101 = 101.
Proof.
  apply (upsert_chunks_again_changes_nothing Demo.services "doc" "big.txt"
           Demo.many_chunks Demo.many_embeddings None Demo.empty_world
           Demo.world_many_chunks
           (upsert_chunks Demo.services "doc" "big.txt" Demo.many_chunks
              Demo.many_embeddings None Demo.world_many_chunks).2 101 101).
  - apply run_outcome. vm_compute. reflexivity.
  - apply run_outcome. vm_compute. reflexivity.
Defined.

(** X8. The id of an index entry, [{file_id}_chunk_{idx}], determines
    both the file id and the chunk number: two ids are equal only when
    both parts are, whatever characters the file ids contain. *)
Theorem entry_ids_do_not_collide (fid fid' : string) (i j : nat) :
  vector_id fid i = vector_id fid' j ↔ fid = fid' ∧ i = j.
Proof.
  split; [apply vector_id_inj2|]. by intros [-> ->].
Qed.

(** ** File names *)

Lemma append_cons (a : ascii) (s t : string) :
  String a s ++ t = String a (s ++ t).
Proof. reflexivity. Qed.

Lemma append_empty_l (s : string) : EmptyString ++ s = s.
Proof. reflexivity. Qed.

Lemma take_drop_string (i : nat) (s : string) :
  PyStr.take i s ++ PyStr.drop i s = s.
Proof.
  revert s. induction i as [|i IH]; intros [|a s];
    cbn [PyStr.take PyStr.drop]; rewrite ?append_cons, ?append_empty_l;
    try done.
  by rewrite IH.
Qed.

(** X9. The stem and the suffix of a path are the two parts of its name:
    [Path(p).stem + Path(p).suffix == Path(p).name], so the stored name
    [{uuid}{suffix}] loses nothing of the extension of the upload. *)
Theorem stem_suffix_name (p : string) :
  PurePath.stem p ++ PurePath.suffix p = PurePath.name p.
Proof.
  unfold PurePath.stem, PurePath.suffix.
  destruct (PurePath.suffix_index (PurePath.name p)) as [i|].
  - apply take_drop_string.
  - induction (PurePath.name p) as [|a s IH]; [done|].
    by rewrite append_cons, IH.
Qed.

Lemma append_empty_r (s : string) : s ++ EmptyString = s.
Proof. induction s as [|a s IH]; [done|]. by rewrite append_cons, IH. Qed.

Lemma append_length (a b : string) :
  String.length (a ++ b) = String.length a + String.length b.
Proof.
  induction a as [|x a IH]; [done|].
  rewrite append_cons. simpl. by rewrite IH.
Qed.

Lemma rev_app_rev_app (s t u : string) :
  String.rev_app (String.rev_app s t) u = String.rev_app t (s ++ u).
Proof.
  revert t u. induction s as [|a s IH]; intros t u; [done|].
  cbn [String.rev_app]. by rewrite IH, append_cons.
Qed.

Lemma rev_rev (s : string) : String.rev (String.rev s) = s.
Proof.
  unfold String.rev. rewrite rev_app_rev_app. cbn [String.rev_app].
  apply append_empty_r.
Qed.

Lemma lacks_cons (c a : ascii) (s : string) :
  lacks c (String a s) = negb (Ascii.eqb a c) && lacks c s.
Proof. reflexivity. Qed.

Lemma lacks_app (c : ascii) (a b : string) :
  lacks c (a ++ b) = lacks c a && lacks c b.
Proof.
  induction a as [|x a IH]; [done|].
  by rewrite append_cons, !lacks_cons, IH, andb_assoc.
Qed.

Lemma lacks_rev_app (c : ascii) (s t : string) :
  lacks c (String.rev_app s t) = lacks c s && lacks c t.
Proof.
  revert t. induction s as [|a s IH]; intros t; [done|].
  cbn [String.rev_app]. rewrite IH, !lacks_cons.
  destruct (negb (Ascii.eqb a c)), (lacks c s), (lacks c t); done.
Qed.

Lemma lacks_drop (c : ascii) (i : nat) (s : string) :
  lacks c s = true → lacks c (PyStr.drop i s) = true.
Proof.
  revert s. induction i as [|i IH]; intros [|a s]; simpl; try done.
  rewrite lacks_cons. intros [_ H]%andb_prop. by apply IH.
Qed.

(** A string without the separator is its own single field. *)
Lemma split_on_lacks (c : ascii) (s cur : string) :
  lacks c s = true →
  PyStr.split_on c s cur = [String.rev (String.rev_app s cur)].
Proof.
  revert cur. induction s as [|a s IH]; intros cur; [done|].
  rewrite lacks_cons. intros [Ha Hs]%andb_prop.
  cbn [PyStr.split_on String.rev_app].
  apply negb_true_iff in Ha. rewrite Ha. by apply IH.
Qed.

(** No field of a split contains the separator. *)
Lemma split_on_fields_lack (c : ascii) (s cur : string) :
  lacks c cur = true → Forall (fun f => lacks c f = true) (PyStr.split_on c s cur).
Proof.
  revert cur. induction s as [|a s IH]; intros cur Hcur.
  - constructor; [|constructor]. unfold String.rev. by rewrite lacks_rev_app, Hcur.
  - cbn [PyStr.split_on]. destruct (Ascii.eqb a c) eqn:Ha.
    + constructor; [|by apply IH].
      unfold String.rev. by rewrite lacks_rev_app, Hcur.
    + apply IH. by rewrite lacks_cons, Ha, Hcur.
Qed.

Lemma name_lacks_slash (p : string) : lacks "/" (PurePath.name p) = true.
Proof.
  unfold PurePath.name, PurePath.parts.
  pose proof (split_on_fields_lack "/" p EmptyString eq_refl) as H.
  induction H as [|f fs Hf H IH]; [done|].
  cbn [List.filter].
  destruct (negb (String.eqb f EmptyString) && negb (String.eqb f ".")); [|done].
  destruct (List.filter _ fs) as [|g gs] eqn:Hfs; [done|].
  exact IH.
Qed.

Lemma suffix_lacks_slash (p : string) : lacks "/" (PurePath.suffix p) = true.
Proof.
  unfold PurePath.suffix.
  destruct (PurePath.suffix_index (PurePath.name p)); [|done].
  apply lacks_drop, name_lacks_slash.
Qed.

(** Where [rfind] finds the character, the rest of the string is free of
    it. *)
Lemma rfind_Some (c : ascii) (s : string) (i : nat) :
  PyStr.rfind c s = Some i →
  ∃ r, PyStr.drop i s = String c r ∧ lacks c r = true
       ∧ String.length s = i + 1 + String.length r.
Proof.
  revert i. induction s as [|a s IH]; intros i; [done|].
  cbn [PyStr.rfind].
  destruct (PyStr.rfind c s) as [j|] eqn:Hj.
  - intros [= <-]. destruct (IH j eq_refl) as (r & Hr & Hl & Hlen).
    exists r. simpl. rewrite Hlen. split; [done|]. split; [done|lia].
  - destruct (Ascii.eqb a c) eqn:Ha; [|done].
    intros [= <-]. apply Ascii.eqb_eq in Ha as ->.
    exists s. simpl. split; [done|]. split; [|lia].
    clear IH. induction s as [|b s IH]; [done|].
    cbn [PyStr.rfind] in Hj. rewrite lacks_cons.
    destruct (PyStr.rfind c s); [done|].
    destruct (Ascii.eqb b c); [done|]. by rewrite IH.
Qed.

Lemma rfind_lacks (c : ascii) (s : string) :
  lacks c s = true → PyStr.rfind c s = None.
Proof.
  induction s as [|a s IH]; [done|].
  rewrite lacks_cons. intros [Ha Hs]%andb_prop. cbn [PyStr.rfind].
  rewrite (IH Hs). apply negb_true_iff in Ha. by rewrite Ha.
Qed.

Lemma rfind_app_last (c : ascii) (u r : string) :
  lacks c r = true →
  PyStr.rfind c (u ++ String c r) = Some (String.length u).
Proof.
  intros Hr. induction u as [|a u IH].
  - rewrite append_empty_l. cbn [PyStr.rfind String.length].
    by rewrite (rfind_lacks c r Hr), Ascii.eqb_refl.
  - rewrite append_cons. cbn [PyStr.rfind String.length]. by rewrite IH.
Qed.

Lemma take_app_length (u e : string) :
  PyStr.take (String.length u) (u ++ e) = u.
Proof.
  induction u as [|a u IH]; [by destruct e|].
  rewrite append_cons. cbn [String.length PyStr.take]. by rewrite IH.
Qed.

Lemma drop_app_length (u e : string) :
  PyStr.drop (String.length u) (u ++ e) = e.
Proof.
  induction u as [|a u IH]; [by destruct e|].
  rewrite append_cons. cbn [String.length PyStr.drop]. done.
Qed.

(** The suffix of a path is empty, or a dot followed by at least one
    character and no further dot. *)
Lemma suffix_shape (p : string) :
  PurePath.suffix p = EmptyString
  ∨ ∃ r, PurePath.suffix p = String "." r ∧ r ≠ EmptyString ∧ lacks "." r = true.
Proof.
  unfold PurePath.suffix, PurePath.suffix_index.
  destruct (PyStr.rfind "." (PurePath.name p)) as [i|] eqn:Hi; [|by left].
  destruct (_ && _) eqn:Hb; [|by left].
  apply andb_prop in Hb as [_ Hlt%Nat.ltb_lt].
  apply rfind_Some in Hi as (r & Hr & Hl & Hlen).
  right. exists r. split; [done|]. split; [|done].
  intros ->. simpl in Hlen. lia.
Qed.

(** The stored name [{id}{suffix}] of a plain id: its stem is the id and
    its suffix the suffix. *)
Lemma plain_id_stem_suffix (u p : string) :
  plain_id u = true →
  PurePath.stem (u ++ PurePath.suffix p) = u
  ∧ PurePath.suffix (u ++ PurePath.suffix p) = PurePath.suffix p.
Proof.
  unfold plain_id. intros [[Hu Hslash]%andb_prop Hdot]%andb_prop.
  pose proof (suffix_lacks_slash p) as Hes.
  set (e := PurePath.suffix p) in *.
  assert (PurePath.name (u ++ e) = u ++ e) as Hname.
  { unfold PurePath.name, PurePath.parts.
    rewrite split_on_lacks by (by rewrite lacks_app, Hslash, Hes).
    fold (String.rev (u ++ e)). rewrite rev_rev. cbn [List.filter].
    destruct u as [|a u]; [done|].
    rewrite append_cons.
    destruct (String.eqb (String a (u ++ e)) ".") eqn:Hd; [|done].
    apply String.eqb_eq in Hd. injection Hd as -> _.
    by rewrite lacks_cons in Hdot. }
  unfold PurePath.stem, PurePath.suffix at 1. rewrite Hname.
  unfold PurePath.suffix_index.
  destruct (suffix_shape p) as [He|(r & He & Hr & Hl)]; fold e in He; rewrite He.
  - rewrite append_empty_r, (rfind_lacks "." u Hdot). done.
  - rewrite (rfind_app_last "." u r Hl).
    assert ((0 <? String.length u) && (S (String.length u) <? String.length (u ++ String "." r))
            = true) as ->.
    { apply andb_true_intro. split; apply Nat.ltb_lt.
      - destruct u; [done|simpl; lia].
      - rewrite append_length. simpl. destruct r; [done|simpl; lia]. }
    by rewrite take_app_length, drop_app_length.
Qed.

(** X10. For a generated id without slash or dot (a UUID string), the
    name under which an upload is stored has the id as its stem and the
    suffix of the uploaded file name as its suffix; so a file type that
    [validate_file] lets through is one that [process_document] knows, and
    the extraction goes to one of the three extractors, never to the
    "Unsupported file type" error. *)
Theorem stored_name_keeps_type (svc : Services) (env : UploadEnv)
    (file : UploadFile) :
  plain_id (uuid4 env) = true →
  allowed_extension (filename file) = true →
  PurePath.stem (unique_filename env file) = uuid4 env
  ∧ PurePath.suffix (unique_filename env file) = PurePath.suffix (filename file)
  ∧ ∃ extract,
      extract ∈ [extract_text_from_pdf; extract_text_from_docx;
                 extract_text_from_txt]
      ∧ ∀ w, process_document svc (unique_filename env file) w
             = (log_call (ExtractCall (unique_filename env file))
                ≫= fun _ => extract svc (unique_filename env file)) w.
Proof.
  intros Hid Hext. unfold unique_filename.
  destruct (plain_id_stem_suffix (uuid4 env) (filename file) Hid) as [Hstem Hsuf].
  split; [done|]. split; [done|].
  unfold process_document. rewrite Hsuf.
  unfold allowed_extension, Config.ALLOWED_EXTENSIONS in Hext.
  cbn [existsb] in Hext.
  set (t := PyStr.lower (PurePath.suffix (filename file))) in *.
  destruct (String.eqb t ".pdf") eqn:Hpdf.
  { exists extract_text_from_pdf. split; [set_solver|done]. }
  destruct (String.eqb t ".docx") eqn:Hdocx.
  { exists extract_text_from_docx. split; [set_solver|done]. }
  destruct (String.eqb t ".txt") eqn:Htxt; [|done].
  exists extract_text_from_txt. split; [set_solver|done].
Qed.

Lemma stored_name_keeps_type_witness :
  PurePath.stem (unique_filename Demo.env (Demo.text_file "Notes.TXT" 60))
  = uuid4 Demo.env
  ∧ PurePath.suffix (unique_filename Demo.env (Demo.text_file "Notes.TXT" 60))
    = PurePath.suffix (filename (Demo.text_file "Notes.TXT" 60))
  ∧ ∃ extract,
      extract ∈ [extract_text_from_pdf; extract_text_from_docx;
                 extract_text_from_txt]
      ∧ ∀ w, process_document Demo.services
               (unique_filename Demo.env (Demo.text_file "Notes.TXT" 60)) w
             = (log_call (ExtractCall
                            (unique_filename Demo.env
                               (Demo.text_file "Notes.TXT" 60)))
                ≫= fun _ => extract Demo.services
                              (unique_filename Demo.env
                                 (Demo.text_file "Notes.TXT" 60))) w.
Proof.
  apply (stored_name_keeps_type Demo.services Demo.env
           (Demo.text_file "Notes.TXT" 60)); reflexivity.
Defined.

(** ** Deleting *)

Lemma delete_by_file_id_ok_shape (svc : Services) (fid : string) (w : World) :
  ∃ deleted w', delete_by_file_id svc fid w = (Ok deleted, w').
Proof.
  unfold delete_by_file_id, try_except, Pinecone.delete, Pinecone.call. run.
  destruct (pinecone_fault svc _ _); simpl; eauto.
Qed.

(** X11. [delete_by_file_id] never raises. It makes one delete call with
    the filter [{"file_id": file_id}] and returns [True] exactly when that
    call went through, in which case the entries that carry the file id
    are gone and the others are kept; when the call fails it returns
    [False] and the index is as before. It never touches the upload
    directory. *)
Theorem delete_by_file_id_never_raises (svc : Services) (fid : string) (w : World) :
  ∃ deleted w',
    delete_by_file_id svc fid w = (Ok deleted, w')
    ∧ (deleted = true
       ↔ pinecone_fault svc (gateway_log w) (DeleteCall (FieldEq "file_id" (MStr fid)))
         = None)
    ∧ gateway_log w'
      = (gateway_log w ++ [DeleteCall (FieldEq "file_id" (MStr fid))])%list
    ∧ upload_dir w' = upload_dir w
    ∧ (deleted = false → pinecone w' = pinecone w)
    ∧ (deleted = true →
       entries_of fid (pinecone w') = ∅
       ∧ ∀ k e, pinecone w !! k = Some e →
                metadata e !! "file_id" ≠ Some (MStr fid) →
                pinecone w' !! k = Some e).
Proof.
  unfold delete_by_file_id, try_except, Pinecone.delete, Pinecone.call. run.
  destruct (pinecone_fault svc _ _) as [e|]; cbv beta iota.
  - eexists false, _. split; [reflexivity|]. cbn [gateway_log upload_dir pinecone].
    repeat split; try done.
  - eexists true, _. split; [reflexivity|]. cbn [gateway_log upload_dir pinecone].
    repeat split; try done.
    + apply map_empty. intros k. apply eq_None_not_Some. intros [e He].
      unfold entries_of in He.
      apply map_lookup_filter_Some in He as [He Hfid]. cbn [snd] in Hfid.
      apply map_lookup_filter_Some in He as [_ Hkeep]. cbn [snd] in Hkeep.
      apply matches_file_id in Hfid. congruence.
    + intros k e He Hfid. apply map_lookup_filter_Some. split; [done|].
      cbn [snd]. apply not_true_is_false. by rewrite matches_file_id.
Qed.

Lemma delete_first_run (svc : Services) (fid : string) (listing : list string)
    (w : World) :
  delete_first svc fid listing w
  = match List.find (fun n => String.eqb (PurePath.stem n) fid) listing with
    | Some file_name =>
        (fs_unlink file_name ≫= fun _ =>
         delete_by_file_id svc fid ≫= fun _ => ret true) w
    | None => (Ok false, w)
    end.
Proof.
  induction listing as [|n rest IH]; [done|].
  cbn [delete_first List.find].
  by destruct (String.eqb (PurePath.stem n) fid).
Qed.

Lemma delete_file_run (svc : Services) (fid : string) (w : World) :
  delete_file svc fid w
  = match file_for fid w with
    | Some file_name =>
        (Ok (true, "File deleted successfully"),
         (delete_by_file_id svc fid
            (mk_World (delete file_name (upload_dir w)) (pinecone w)
                      (gateway_log w))).2)
    | None => (Raise (HTTPException 404 "File not found"), w)
    end.
Proof.
  unfold delete_file. rewrite bind_run. unfold fs_iterdir.
  rewrite bind_run, delete_first_run. unfold file_for.
  destruct (List.find _ _) as [n|] eqn:Hfind; [|done].
  apply find_some in Hfind as [Hin _].
  apply in_map_iff in Hin as ([n' c] & <- & Hin).
  apply list_elem_of_In, elem_of_map_to_list in Hin. cbn [fst].
  rewrite bind_run. unfold fs_unlink. rewrite Hin. rewrite bind_run.
  destruct (delete_by_file_id_ok_shape svc fid
              (mk_World (delete n' (upload_dir w)) (pinecone w) (gateway_log w)))
    as (b & w' & ->).
  reflexivity.
Qed.

Lemma delete_by_file_id_never_raises_shape (svc : Services) (fid : string)
    (w : World) :
  gateway_log (delete_by_file_id svc fid w).2
  = (gateway_log w ++ [DeleteCall (FieldEq "file_id" (MStr fid))])%list
  ∧ upload_dir (delete_by_file_id svc fid w).2 = upload_dir w.
Proof.
  unfold delete_by_file_id, try_except, Pinecone.delete, Pinecone.call. run.
  by destruct (pinecone_fault svc _ _).
Qed.

Lemma delete_by_file_id_never_raises_full (svc : Services) (fid : string)
    (w : World) :
  upload_dir (delete_by_file_id svc fid w).2 = upload_dir w
  ∧ (pinecone_fault svc (gateway_log w) (DeleteCall (FieldEq "file_id" (MStr fid)))
     = None →
     entries_of fid (pinecone (delete_by_file_id svc fid w).2) = ∅).
Proof.
  split; [apply delete_by_file_id_never_raises_shape|].
  intros Hok.
  unfold delete_by_file_id, try_except, Pinecone.delete, Pinecone.call. run.
  rewrite Hok. cbv beta iota. cbn [snd pinecone].
  apply map_empty. intros k. apply eq_None_not_Some. intros [e He].
  unfold entries_of in He.
  apply map_lookup_filter_Some in He as [He Hfid]. cbn [snd] in Hfid.
  apply map_lookup_filter_Some in He as [_ Hkeep]. cbn [snd] in Hkeep.
  apply matches_file_id in Hfid. congruence.
Qed.

(** X12. Deleting an id for which the upload directory holds no file
    (no stored name has the id as its stem) answers 404 and does nothing
    else: no file is removed and the index is not called, so entries that
    carry the id, if there are any, stay. *)
Theorem delete_unknown_id_is_404 (svc : Services) (fid : string) (w : World) :
  file_for fid w = None →
  delete_file svc fid w = (Raise (HTTPException 404 "File not found"), w).
Proof. intros H. by rewrite delete_file_run, H. Qed.

Lemma delete_unknown_id_is_404_witness :
  delete_file Demo.services "no-such-id" Demo.world_one_document
  = (Raise (HTTPException 404 "File not found"), Demo.world_one_document).
Proof.
  apply (delete_unknown_id_is_404 Demo.services "no-such-id"
           Demo.world_one_document).
  vm_compute. reflexivity.
Defined.

(** X13. Deleting an id for which a file is stored removes that one file
    (the first listed whose stem is the id) and no other, makes the one
    delete call to the index, and answers with success in every case: the
    answer does not depend on whether the delete call went through. *)
Theorem delete_known_id_removes_file (svc : Services) (fid file_name : string)
    (w : World) :
  file_for fid w = Some file_name →
  ∃ w',
    delete_file svc fid w = (Ok (true, "File deleted successfully"), w')
    ∧ PurePath.stem file_name = fid
    ∧ is_Some (upload_dir w !! file_name)
    ∧ upload_dir w' = delete file_name (upload_dir w)
    ∧ gateway_log w'
      = (gateway_log w ++ [DeleteCall (FieldEq "file_id" (MStr fid))])%list.
Proof.
  intros Hfile. rewrite delete_file_run, Hfile.
  eexists. split; [reflexivity|].
  unfold file_for in Hfile. apply find_some in Hfile as [Hin Hstem].
  apply String.eqb_eq in Hstem.
  apply in_map_iff in Hin as ([n c] & <- & Hin).
  apply list_elem_of_In, elem_of_map_to_list in Hin. cbn [fst].
  split; [done|]. split; [by exists c|].
  destruct (delete_by_file_id_never_raises_shape svc fid
              (mk_World (delete n (upload_dir w)) (pinecone w) (gateway_log w)))
    as (Hl & Hu).
  split; [exact Hu | exact Hl].
Qed.

Lemma delete_known_id_removes_file_witness :
  ∃ w',
    delete_file Demo.services_delete_fails (uuid4 Demo.env) Demo.world_one_document
    = (Ok (true, "File deleted successfully"), w')
    ∧ PurePath.stem (unique_filename Demo.env (Demo.text_file "notes.txt" 60))
      = uuid4 Demo.env
    ∧ is_Some (upload_dir Demo.world_one_document
               !! unique_filename Demo.env (Demo.text_file "notes.txt" 60))
    ∧ upload_dir w'
      = delete (unique_filename Demo.env (Demo.text_file "notes.txt" 60))
               (upload_dir Demo.world_one_document)
    ∧ gateway_log w'
      = (gateway_log Demo.world_one_document
         ++ [DeleteCall (FieldEq "file_id" (MStr (uuid4 Demo.env)))])%list.
Proof.
  apply (delete_known_id_removes_file Demo.services_delete_fails
           (uuid4 Demo.env)
           (unique_filename Demo.env (Demo.text_file "notes.txt" 60))
           Demo.world_one_document).
  vm_compute. reflexivity.
Defined.

(** X14. Upload and delete undo each other on the upload directory. After
    a successful upload under a generated id without slash or dot that no
    stored file had as its stem, deleting that id finds the uploaded file,
    answers with success and leaves the upload directory as it was before
    the upload; when the delete call of the index goes through, no entry
    of the index carries the id any more. *)
Theorem upload_then_delete (svc : Services) (env : UploadEnv)
    (file : UploadFile) (w w1 : World) (summary : UploadSummary) :
  plain_id (uuid4 env) = true →
  file_for (uuid4 env) w = None →
  upload_file svc env file w = (Ok summary, w1) →
  ∃ w2,
    delete_file svc (summary_file_id summary) w1
    = (Ok (true, "File deleted successfully"), w2)
    ∧ upload_dir w2 = upload_dir w
    ∧ (pinecone_fault svc (gateway_log w1)
         (DeleteCall (FieldEq "file_id" (MStr (uuid4 env)))) = None →
       entries_of (uuid4 env) (pinecone w2) = ∅).
Proof.
  intros Hid Hfresh Hup.
  pose proof Hup as (text & chunks & embs & wa & wb & _ & _ & Hdoc & _ & _ & _
                     & Hemb & Hups & Hsum)%upload_file_steps.
  assert (summary_file_id summary = uuid4 env) as -> by (by rewrite Hsum).
  assert (upload_dir w1
          = <[unique_filename env file := file_contents file]> (upload_dir w))
    as Hdir.
  { apply upsert_chunks_ok in Hups as (_ & _ & _ & Hfiles).
    pose proof (keeps_files_process_document svc (unique_filename env file)
                  (mk_World (<[unique_filename env file := file_contents file]>
                               (upload_dir w)) (pinecone w) (gateway_log w)))
      as Hk1.
    rewrite Hdoc in Hk1. cbn [snd upload_dir] in Hk1.
    pose proof (keeps_files_generate_embeddings svc chunks wa) as Hk2.
    rewrite Hemb in Hk2. cbn [snd] in Hk2.
    by rewrite Hfiles, Hk2, Hk1. }
  destruct (plain_id_stem_suffix (uuid4 env) (filename file) Hid) as [Hstem _].
  fold (unique_filename env file) in Hstem.
  (* no file of the directory before the upload has the id as its stem *)
  assert (∀ n c, upload_dir w !! n = Some c → PurePath.stem n ≠ uuid4 env)
    as Hold.
  { intros n c Hn Hs. unfold file_for in Hfresh.
    assert (In n (List.map fst (map_to_list (upload_dir w)))) as Hin.
    { apply in_map_iff. exists (n, c). split; [done|].
      by apply list_elem_of_In, elem_of_map_to_list. }
    pose proof (find_none _ _ Hfresh n Hin) as Hf. cbv beta in Hf.
    by apply String.eqb_neq in Hf. }
  assert (upload_dir w !! unique_filename env file = None) as Hnew.
  { destruct (upload_dir w !! unique_filename env file) as [c|] eqn:Hc; [|done].
    by destruct (Hold _ _ Hc). }
  assert (file_for (uuid4 env) w1 = Some (unique_filename env file)) as Hfile.
  { unfold file_for.
    destruct (List.find _ _) as [n|] eqn:Hfind.
    - apply find_some in Hfind as [Hin Hs]. apply String.eqb_eq in Hs.
      apply in_map_iff in Hin as ([n' c] & <- & Hin).
      apply list_elem_of_In, elem_of_map_to_list in Hin. cbn [fst] in *.
      rewrite Hdir in Hin. apply lookup_insert_Some in Hin as [[<- _]|[_ Hin]];
        [done|]. by destruct (Hold _ _ Hin).
    - assert (In (unique_filename env file)
                 (List.map fst (map_to_list (upload_dir w1)))) as Hin.
      { apply in_map_iff. exists (unique_filename env file, file_contents file).
        split; [done|]. apply list_elem_of_In, elem_of_map_to_list.
        rewrite Hdir. apply lookup_insert_eq. }
      pose proof (find_none _ _ Hfind _ Hin) as Hf. cbv beta in Hf.
      by apply String.eqb_neq in Hf. }
  rewrite delete_file_run, Hfile. eexists. split; [reflexivity|].
  destruct (delete_by_file_id_never_raises_full svc (uuid4 env)
              (mk_World (delete (unique_filename env file) (upload_dir w1))
                        (pinecone w1) (gateway_log w1)))
    as (Hu & Hgone).
  split.
  - rewrite Hu. cbn [upload_dir]. rewrite Hdir, delete_insert_eq.
    by apply delete_id.
  - exact Hgone.
Qed.

Lemma upload_then_delete_witness :
  ∃ w2,
    delete_file Demo.services (summary_file_id Demo.first_summary)
      Demo.world_one_document
    = (Ok (true, "File deleted successfully"), w2)
    ∧ upload_dir w2 = upload_dir Demo.empty_world
    ∧ (pinecone_fault Demo.services (gateway_log Demo.world_one_document)
         (DeleteCall (FieldEq "file_id" (MStr (uuid4 Demo.env)))) = None →
       entries_of (uuid4 Demo.env) (pinecone w2) = ∅).
Proof.
  apply (upload_then_delete Demo.services Demo.env
           (Demo.text_file "notes.txt" 60) Demo.empty_world
           Demo.world_one_document Demo.first_summary).
  - reflexivity.
  - reflexivity.
  - vm_compute. reflexivity.
Defined.

(** ** Extraction of plain text *)

Lemma universal_newlines_cons (a : ascii) (s : string) :
  universal_newlines (String a s)
  = if Ascii.eqb a "013" then
      match s with
      | String b _ =>
          if Ascii.eqb b "010" then universal_newlines s
          else String "010" (universal_newlines s)
      | EmptyString => String "010" EmptyString
      end
    else String a (universal_newlines s).
Proof.
  destruct a as [[] [] [] [] [] [] [] []]; try reflexivity.
  destruct s as [|b s]; [reflexivity|].
  destruct b as [[] [] [] [] [] [] [] []]; reflexivity.
Qed.

Lemma universal_newlines_no_cr (s : string) :
  lacks "013" (universal_newlines s) = true.
Proof.
  induction s as [|a s IH]; [done|].
  rewrite universal_newlines_cons.
  destruct (Ascii.eqb a "013") eqn:Ha.
  - destruct s as [|b s]; [done|].
    destruct (Ascii.eqb b "010"); [done|]. by rewrite lacks_cons, IH.
  - by rewrite lacks_cons, Ha, IH.
Qed.

(** X15. A plain-text file that is there is always extracted: when the
    bytes are not valid UTF-8 the file is read again as Latin-1, which
    accepts every byte, so [extract_text_from_txt] returns a text and
    raises nothing; the text has no carriage return left, and reading the
    file changes nothing. Only a missing file makes it fail. *)
Theorem txt_extraction_never_fails (svc : Services) (file_name : string)
    (w : World) :
  (∀ contents, upload_dir w !! file_name = Some contents →
     ∃ text, extract_text_from_txt svc file_name w = (Ok text, w)
             ∧ lacks "013" text = true
             ∧ (utf8_decode svc contents = None →
                text = universal_newlines (latin1_decode contents)))
  ∧ (upload_dir w !! file_name = None →
     extract_text_from_txt svc file_name w
     = (Raise (FileNotFoundError file_name), w)).
Proof.
  split.
  - intros contents Hc. unfold extract_text_from_txt.
    rewrite bind_run. unfold fs_read. rewrite Hc.
    destruct (utf8_decode svc contents) as [text|]; eexists;
      (split; [reflexivity|]); (split; [apply universal_newlines_no_cr|]);
      done.
  - intros Hc. unfold extract_text_from_txt.
    rewrite bind_run. unfold fs_read. by rewrite Hc.
Qed.

(** ** The chat endpoint, further *)

(** X16. A chat request whose message is empty or white space only is
    answered with status 400 before anything else happens: no embedding,
    no search, no call to the language model, the world is as it was. *)
Theorem chat_blank_message_is_400 (svc : Services) (request : ChatRequest)
    (w : World) :
  whitespace_only (message request) = true →
  chat svc request w = (Raise (HTTPException 400 "Message cannot be empty"), w).
Proof.
  intros H. unfold chat. by rewrite (blank_whitespace_only _ H).
Qed.

Lemma chat_blank_message_is_400_witness :
  chat Demo.services (ChatRequest_init "   " None None) Demo.world_one_document
  = (Raise (HTTPException 400 "Message cannot be empty"), Demo.world_one_document).
Proof.
  apply (chat_blank_message_is_400 Demo.services
           (ChatRequest_init "   " None None) Demo.world_one_document).
  reflexivity.
Defined.

Lemma keeps_files_chat (svc : Services) (request : ChatRequest) :
  keeps_files (chat svc request).
Proof.
  unfold chat, generate_single_embedding, search, Pinecone.query,
    generate_response.
  frame.
Qed.

(** X17. The chat endpoint only reads: whatever the request and whatever
    its outcome, the upload directory and the vector index are afterwards
    what they were, and the trace of outside calls has only grown. *)
Theorem chat_only_reads (svc : Services) (request : ChatRequest) (w : World) :
  upload_dir (chat svc request w).2 = upload_dir w
  ∧ pinecone (chat svc request w).2 = pinecone w
  ∧ ∃ calls, gateway_log (chat svc request w).2 = (gateway_log w ++ calls)%list.
Proof.
  split; [apply keeps_files_chat|]. split; [apply keeps_index_chat|].
  destruct (PyStr.blank (message request)) eqn:Hmsg.
  { exists []. unfold chat. rewrite Hmsg. cbn. by rewrite app_nil_r. }
  pose proof (generate_single_embedding_effect svc (message request) w)
    as (Hl1 & _).
  destruct (generate_single_embedding svc (message request) w)
    as [[v|e] w1] eqn:Hemb; cbn [snd] in Hl1.
  - destruct (chat_reaches_search svc request w w1 v Hmsg Hemb) as [rest ->].
    rewrite Hl1, <- app_assoc. eauto.
  - unfold chat. rewrite Hmsg, (bind_raise _ _ _ _ _ Hemb). eauto.
Qed.

Lemma txt_extraction_never_fails_witness :
  (∃ text,
     extract_text_from_txt Demo.services
       (unique_filename Demo.env (Demo.text_file "notes.txt" 60))
       Demo.world_one_document = (Ok text, Demo.world_one_document)
     ∧ lacks "013" text = true
     ∧ (utf8_decode Demo.services (file_contents (Demo.text_file "notes.txt" 60))
        = None →
        text = universal_newlines
                 (latin1_decode (file_contents (Demo.text_file "notes.txt" 60)))))
  ∧ extract_text_from_txt Demo.services "missing.txt" Demo.world_one_document
    = (Raise (FileNotFoundError "missing.txt"), Demo.world_one_document).
Proof.
  split.
  - apply (txt_extraction_never_fails Demo.services
             (unique_filename Demo.env (Demo.text_file "notes.txt" 60))
             Demo.world_one_document).
    vm_compute. reflexivity.
  - apply (txt_extraction_never_fails Demo.services "missing.txt"
             Demo.world_one_document).
    vm_compute. reflexivity.
Defined.

(** What the loop over the matches makes of each match. *)
Lemma assemble_sources (ms : list Match) (pieces : list string)
    (srcs : list Source) :
  assemble ms = Ok (pieces, srcs) →
  Forall2 (fun m src =>
             ∃ chunk, match_chunk_text m = Ok chunk
                      ∧ source_chunk_text src = PyStr.take 200 chunk ++ "..."
                      ∧ match_filename m = Ok (source_filename src)
                      ∧ match_chunk_index m = Ok (chunk_index src)
                      ∧ similarity_score src = py_round (score m) 4)
          ms srcs.
Proof.
  revert pieces srcs. induction ms as [|m ms IH]; intros pieces srcs.
  - cbn [assemble]. intros [= <- <-]. constructor.
  - cbn [assemble]. unfold assemble_match.
    destruct (match_chunk_text m) as [chunk|] eqn:Hc; [|discriminate].
    destruct (match_filename m) as [name|] eqn:Hn; [|discriminate].
    destruct (match_chunk_index m) as [idx|] eqn:Hi; [|discriminate].
    destruct (assemble ms) as [[cs ss]|]; [|discriminate].
    intros [= <- <-]. constructor; [|by eapply IH].
    exists chunk. cbn [source_chunk_text source_filename chunk_index
                       similarity_score]. done.
Qed.

(** The outcome of the handler once the search has returned. *)
Lemma chat_after_search (svc : Services) (request : ChatRequest)
    (w w1 w2 w3 : World) (v : list Q) (ms : list Match) (response : ChatResponse) :
  PyStr.blank (message request) = false →
  generate_single_embedding svc (message request) w = (Ok v, w1) →
  search svc v (top_k request) (filter_dict_of request) w1 = (Ok ms, w2) →
  chat svc request w = (Ok response, w3) →
  (ms = [] ∧ response = mk_ChatResponse no_information_reply [] 0 ∧ w3 = w2)
  ∨ (ms ≠ []
     ∧ ∃ pieces srcs text,
         assemble ms = Ok (pieces, srcs)
         ∧ generate_response svc (message request)
             (PyStr.join blank_line pieces) w2 = (Ok text, w3)
         ∧ response = mk_ChatResponse text srcs (length srcs)).
Proof.
  intros Hmsg Hemb Hsearch.
  destruct ms as [|m ms].
  - rewrite (chat_no_matches_run svc request w w1 w2 v Hmsg Hemb Hsearch).
    intros [= <- <-]. by left.
  - destruct (assemble (m :: ms)) as [[pieces srcs]|e] eqn:Hassemble.
    + rewrite (chat_with_matches svc request w w1 w2 v m ms pieces srcs)
        by assumption.
      destruct (generate_response _ _ _ w2) as [[text|e] w3'] eqn:Hllm;
        [|discriminate].
      intros [= <- <-]. right. split; [done|]. eauto 10.
    + unfold chat. rewrite Hmsg.
      rewrite (bind_ok _ _ _ _ _ Hemb). cbv zeta.
      rewrite (bind_ok _ _ _ _ _ Hsearch).
      rewrite bind_run. unfold lift. rewrite Hassemble. discriminate.
Qed.

(** X18. The sources of a chat response mirror the matches of the search:
    one source per match, in the order of the matches, [num_sources] is
    their number, and each source carries the file name and chunk number
    of its match, its score rounded to 4 digits, and as preview the first
    200 characters of the stored chunk text followed by three dots (so at
    most 203 characters). *)
Theorem chat_sources_mirror_matches (svc : Services) (request : ChatRequest)
    (w w1 w2 w3 : World) (v : list Q) (ms : list Match) (response : ChatResponse) :
  PyStr.blank (message request) = false →
  generate_single_embedding svc (message request) w = (Ok v, w1) →
  search svc v (top_k request) (filter_dict_of request) w1 = (Ok ms, w2) →
  chat svc request w = (Ok response, w3) →
  num_sources response = length (sources response)
  ∧ length (sources response) = length ms
  ∧ Forall2 (fun m src =>
               ∃ chunk, match_chunk_text m = Ok chunk
                        ∧ source_chunk_text src = PyStr.take 200 chunk ++ "..."
                        ∧ String.length (source_chunk_text src) ≤ 203
                        ∧ match_filename m = Ok (source_filename src)
                        ∧ match_chunk_index m = Ok (chunk_index src)
                        ∧ similarity_score src = py_round (score m) 4)
            ms (sources response).
Proof.
  intros Hmsg Hemb Hsearch Hchat.
  destruct (chat_after_search svc request w w1 w2 w3 v ms response
              Hmsg Hemb Hsearch Hchat)
    as [(-> & -> & _)|(_ & pieces & srcs & text & Hassemble & _ & ->)].
  - cbn [num_sources sources]. repeat split; constructor.
  - cbn [num_sources sources]. apply assemble_sources in Hassemble.
    split; [done|]. split; [symmetry; by eapply Forall2_length|].
    eapply Forall2_impl; [exact Hassemble|].
    intros m src (chunk & Hc & Hp & Hrest). exists chunk.
    split; [done|]. split; [done|]. split; [|done].
    rewrite Hp, append_length, take_length.
    change (String.length "...") with 3. lia.
Qed.

Lemma chat_sources_mirror_matches_witness :
  num_sources Demo.first_response = length (sources Demo.first_response)
  ∧ length (sources Demo.first_response)
    = length (Demo.matches_of (Demo.search_result Demo.world_one_document))
  ∧ Forall2 (fun m src =>
               ∃ chunk, match_chunk_text m = Ok chunk
                        ∧ source_chunk_text src = PyStr.take 200 chunk ++ "..."
                        ∧ String.length (source_chunk_text src) ≤ 203
                        ∧ match_filename m = Ok (source_filename src)
                        ∧ match_chunk_index m = Ok (chunk_index src)
                        ∧ similarity_score src = py_round (score m) 4)
            (Demo.matches_of (Demo.search_result Demo.world_one_document))
            (sources Demo.first_response).
Proof.
  apply (chat_sources_mirror_matches Demo.services Demo.request
           Demo.world_one_document
           (Demo.after_embedding Demo.world_one_document)
           (Demo.search_result Demo.world_one_document).2
           (chat Demo.services Demo.request Demo.world_one_document).2
           [11%Q]).
  - reflexivity.
  - vm_compute. reflexivity.
  - vm_compute. reflexivity.
  - vm_compute. reflexivity.
Defined.

(** ** Scores *)

Lemma round_half_even_mono (p q : Q) :
  (p <= q)%Q → (round_half_even p <= round_half_even q)%Z.
Proof.
  intros Hpq. unfold round_half_even.
  pose proof (Qfloor_le p) as Hp1. pose proof (Qlt_floor p) as Hp2.
  pose proof (Qfloor_le q) as Hq1. pose proof (Qlt_floor q) as Hq2.
  pose proof (Qfloor_resp_le _ _ Hpq) as Hf.
  rewrite inject_Z_plus in Hp2, Hq2.
  destruct (Z.eq_dec (Qfloor p) (Qfloor q)) as [Heq|Hne].
  - rewrite <- Heq in *.
    destruct (Qcompare_spec (p - inject_Z (Qfloor p)) (1 # 2)) as [Hcp|Hcp|Hcp];
      destruct (Qcompare_spec (q - inject_Z (Qfloor p)) (1 # 2)) as [Hcq|Hcq|Hcq];
      try (destruct (Z.even (Qfloor p))); try lia; exfalso; lra.
  - assert (Qfloor p + 1 <= Qfloor q)%Z as Hlt by lia.
    destruct (p - inject_Z (Qfloor p) ?= 1 # 2)%Q;
      destruct (q - inject_Z (Qfloor q) ?= 1 # 2)%Q;
      try (destruct (Z.even (Qfloor p))); try (destruct (Z.even (Qfloor q)));
      lia.
Qed.

Lemma py_round_mono (p q : Q) (n : nat) :
  (p <= q)%Q → (py_round p n <= py_round q n)%Q.
Proof.
  intros Hpq. unfold py_round. rewrite !Qred_correct.
  assert (0 < 10 ^ Z.of_nat n)%Z as Hpos by (apply Z.pow_pos_nonneg; lia).
  unfold Qle. cbn [Qnum Qden].
  apply Z.mul_le_mono_nonneg_r; [lia|].
  apply round_half_even_mono.
  apply Qmult_le_compat_r; [done|].
  replace 0%Q with (inject_Z 0) by done. rewrite <- Zle_Qle. lia.
Qed.

Lemma descending_rounded (ms : list Match) (srcs : list Source) :
  Forall2 (fun m src => similarity_score src = py_round (score m) 4) ms srcs →
  descending (List.map score ms) →
  descending (List.map similarity_score srcs).
Proof.
  intros H. induction H as [|m src ms srcs Hs H IH]; [done|].
  destruct H as [|m' src' ms srcs Hs' H]; [done|].
  cbn [List.map descending] in *. intros [Hle Hrest].
  split; [|by apply IH]. rewrite Hs, Hs'. by apply py_round_mono.
Qed.

(** X19. Rounding the scores for display keeps their order: when the
    matches of the search come with scores from the highest to the lowest,
    the sources of the response, each with its score rounded to 4 digits,
    are in that order too (equal rounded scores may appear where the
    scores differed). *)
Theorem chat_sources_keep_order (svc : Services) (request : ChatRequest)
    (w w1 w2 w3 : World) (v : list Q) (ms : list Match) (response : ChatResponse) :
  PyStr.blank (message request) = false →
  generate_single_embedding svc (message request) w = (Ok v, w1) →
  search svc v (top_k request) (filter_dict_of request) w1 = (Ok ms, w2) →
  chat svc request w = (Ok response, w3) →
  descending (List.map score ms) →
  descending (List.map similarity_score (sources response)).
Proof.
  intros Hmsg Hemb Hsearch Hchat.
  destruct (chat_after_search svc request w w1 w2 w3 v ms response
              Hmsg Hemb Hsearch Hchat)
    as [(-> & -> & _)|(_ & pieces & srcs & text & Hassemble & _ & ->)];
    [done|].
  cbn [sources]. apply descending_rounded.
  apply assemble_sources in Hassemble.
  eapply Forall2_impl; [exact Hassemble|].
  by intros m src (chunk & _ & _ & _ & _ & Hround).
Qed.

Lemma chat_sources_keep_order_witness :
  descending
    (List.map similarity_score
       (sources (match (chat Demo.services Demo.request
                          Demo.world_two_documents).1 with
                 | Ok response => response
                 | Raise _ => mk_ChatResponse EmptyString [] 0
                 end))).
Proof.
  apply (chat_sources_keep_order Demo.services Demo.request
           Demo.world_two_documents
           (Demo.after_embedding Demo.world_two_documents)
           (Demo.search_result Demo.world_two_documents).2
           (chat Demo.services Demo.request Demo.world_two_documents).2
           [11%Q]
           (Demo.matches_of (Demo.search_result Demo.world_two_documents))).
  - reflexivity.
  - vm_compute. reflexivity.
  - vm_compute. reflexivity.
  - vm_compute. reflexivity.
  - vm_compute. split; [discriminate|exact I].
Defined.

(** ** The language model and the document filter *)

Lemma generate_response_run (svc : Services) (query context : string) (w : World) :
  generate_response svc query context w
  = (match generate_content svc (build_prompt query context) with
     | Ok text => Ok text
     | Raise e => Raise (PyException ("Failed to generate response: " ++ exn_str e))
     end,
     mk_World (upload_dir w) (pinecone w)
       (gateway_log w ++ [GenerateCall (build_prompt query context)])).
Proof.
  unfold generate_response. run. cbv beta iota.
  by destruct (generate_content svc _).
Qed.

(** X20. When the search has returned matches, the reply of the chat
    endpoint is the text of the language model, unchanged, and the
    response carries the sources; when the language model fails, the
    handler fails with the message "Failed to generate response: ..."
    wrapped around the cause, which the caller sees as status 500. *)
Theorem chat_reply_is_model_text (svc : Services) (request : ChatRequest)
    (w w1 w2 : World) (v : list Q) (ms : list Match)
    (pieces : list string) (srcs : list Source) :
  PyStr.blank (message request) = false →
  generate_single_embedding svc (message request) w = (Ok v, w1) →
  search svc v (top_k request) (filter_dict_of request) w1 = (Ok ms, w2) →
  ms ≠ [] →
  assemble ms = Ok (pieces, srcs) →
  (∀ text,
     generate_content svc
       (build_prompt (message request) (PyStr.join blank_line pieces)) = Ok text →
     (chat svc request w).1 = Ok (mk_ChatResponse text srcs (length srcs)))
  ∧ (∀ e,
       generate_content svc
         (build_prompt (message request) (PyStr.join blank_line pieces)) = Raise e →
       (chat svc request w).1
       = Raise (PyException ("Failed to generate response: " ++ exn_str e))
       ∧ http_status (chat svc request w).1 = 500%Z).
Proof.
  intros Hmsg Hemb Hsearch Hne Hassemble.
  destruct ms as [|m ms]; [done|].
  rewrite (chat_with_matches svc request w w1 w2 v m ms pieces srcs)
    by assumption.
  rewrite generate_response_run.
  split.
  - intros text ->. done.
  - intros e ->. done.
Qed.

Lemma chat_reply_is_model_text_witness :
  (∀ text,
     generate_content Demo.services
       (build_prompt (message Demo.request)
          (PyStr.join blank_line (Demo.assembled Demo.world_one_document).1))
     = Ok text →
     (chat Demo.services Demo.request Demo.world_one_document).1
     = Ok (mk_ChatResponse text (Demo.assembled Demo.world_one_document).2
             (length (Demo.assembled Demo.world_one_document).2)))
  ∧ (∀ e,
       generate_content Demo.services
         (build_prompt (message Demo.request)
            (PyStr.join blank_line (Demo.assembled Demo.world_one_document).1))
       = Raise e →
       (chat Demo.services Demo.request Demo.world_one_document).1
       = Raise (PyException ("Failed to generate response: " ++ exn_str e))
       ∧ http_status (chat Demo.services Demo.request Demo.world_one_document).1
         = 500%Z).
Proof.
  apply (chat_reply_is_model_text Demo.services Demo.request
           Demo.world_one_document
           (Demo.after_embedding Demo.world_one_document)
           (Demo.search_result Demo.world_one_document).2
           [11%Q]
           (Demo.matches_of (Demo.search_result Demo.world_one_document))).
  - reflexivity.
  - vm_compute. reflexivity.
  - vm_compute. reflexivity.
  - intros H. vm_compute in H. discriminate H.
  - vm_compute. reflexivity.
Defined.

Lemma meta_value_eqb_MStr (x : meta_value) (s : string) :
  Pinecone.meta_value_eqb x (MStr s) = true → x = MStr s.
Proof.
  destruct x as [t|z|q]; simpl; try discriminate.
  by intros ->%String.eqb_eq.
Qed.

(** Every source comes from one of the matches. *)
Lemma assemble_sources_from (ms : list Match) (pieces : list string)
    (srcs : list Source) :
  assemble ms = Ok (pieces, srcs) →
  Forall (fun src => ∃ m piece, m ∈ ms ∧ assemble_match m = Ok (piece, src)) srcs.
Proof.
  revert pieces srcs. induction ms as [|m ms IH]; intros pieces srcs;
    cbn [assemble].
  - intros [= <- <-]. constructor.
  - destruct (assemble_match m) as [[piece src]|] eqn:Hm; [|discriminate].
    destruct (assemble ms) as [[cs ss]|]; [|discriminate].
    intros [= <- <-]. constructor.
    + exists m, piece. split; [apply elem_of_cons; by left|done].
    + eapply Forall_impl; [by eapply IH|].
      intros src' (m' & piece' & Hin & Ha). exists m', piece'.
      split; [apply elem_of_cons; by right|done].
Qed.

(** X21. The [file_ids] of a chat request restrict the answer to those
    documents: with a non-empty list the handler makes its query with the
    filter [{"file_id": {"$in": file_ids}}], and every source of its
    response is made from an entry of the index that carries the file id
    of one of the listed documents. An empty list restricts nothing: the
    request is handled as if [file_ids] had been left out. *)
Theorem chat_file_ids_restrict_search (svc : Services) (request : ChatRequest)
    (w : World) :
  (file_ids request = Some [] →
   chat svc request w
   = chat svc (mk_ChatRequest (message request) None (top_k request)) w)
  ∧ (∀ ids response w',
       file_ids request = Some ids → ids ≠ [] →
       chat svc request w = (Ok response, w') →
       (∃ v rest,
          gateway_log w'
          = (gateway_log w
             ++ EncodeCall [message request]
                :: QueryCall v (top_k request)
                     (Some (FieldIn "file_id" (List.map MStr ids)))
                :: rest)%list)
       ∧ Forall (fun src =>
                   ∃ m e fid piece,
                     pinecone w !! match_id m = Some e
                     ∧ match_metadata m = metadata e
                     ∧ fid ∈ ids
                     ∧ metadata e !! "file_id" = Some (MStr fid)
                     ∧ assemble_match m = Ok (piece, src))
                (sources response)).
Proof.
  split.
  - intros Hids. unfold chat, filter_dict_of. cbn [message top_k file_ids].
    by rewrite Hids.
  - intros ids response w' Hids Hne Hchat.
    assert (filter_dict_of request
            = Some (FieldIn "file_id" (List.map MStr ids))) as Hfilter.
    { unfold filter_dict_of. rewrite Hids. by destruct ids. }
    destruct (PyStr.blank (message request)) eqn:Hmsg.
    { unfold chat in Hchat. rewrite Hmsg in Hchat. discriminate. }
    destruct (generate_single_embedding svc (message request) w)
      as [[v|e] w1] eqn:Hemb.
    2: { unfold chat in Hchat. rewrite Hmsg in Hchat.
         rewrite (bind_raise _ _ _ _ _ Hemb) in Hchat. discriminate. }
    destruct (search svc v (top_k request) (filter_dict_of request) w1)
      as [[ms|e] w2] eqn:Hsearch.
    2: { unfold chat in Hchat. rewrite Hmsg in Hchat.
         rewrite (bind_ok _ _ _ _ _ Hemb) in Hchat. cbv zeta in Hchat.
         rewrite (bind_raise _ _ _ _ _ Hsearch) in Hchat. discriminate. }
    pose proof (generate_single_embedding_effect svc (message request) w)
      as (Hl1 & Hp1 & _).
    rewrite Hemb in Hl1, Hp1. cbn [snd] in Hl1, Hp1.
    destruct (search_effect _ _ _ _ _ _ _ Hsearch) as (_ & Hp2 & _).
    split.
    + destruct (chat_reaches_search svc request w w1 v Hmsg Hemb) as [rest Hrest].
      rewrite Hchat in Hrest. cbn [snd] in Hrest. exists v, rest.
      by rewrite Hrest, Hl1, Hfilter, <- app_assoc.
    + destruct (chat_after_search svc request w w1 w2 w' v ms response
                  Hmsg Hemb Hsearch Hchat)
        as [(-> & -> & ->)|(Hms & pieces & srcs & text & Hassemble & _ & ->)];
        [constructor|].
      cbn [sources]. apply assemble_sources_from in Hassemble.
      apply query_matches_stored in Hsearch.
      rewrite Forall_forall in Hsearch.
      eapply Forall_impl; [exact Hassemble|].
      intros src (m & piece & Hin & Ha). cbv beta.
      destruct (Hsearch m Hin) as (e & He & Hmeta & Hpass).
      rewrite Hp2, Hp1 in He. rewrite Hfilter in Hpass.
      unfold Pinecone.passes, Pinecone.matches_filter in Hpass.
      destruct (metadata e !! "file_id") as [x|] eqn:Hx; [|discriminate].
      apply existsb_exists in Hpass as (y & Hy & Heq).
      apply in_map_iff in Hy as (fid & <- & Hfid).
      apply meta_value_eqb_MStr in Heq as ->.
      exists m, e, fid, piece.
      split; [done|]. split; [done|].
      split; [by apply list_elem_of_In|done].
Qed.

Lemma chat_file_ids_restrict_search_witness :
  length (sources Demo.second_response) = 1
  ∧ (∃ v rest,
       gateway_log (chat Demo.services Demo.request_second
                      Demo.world_two_documents).2
       = (gateway_log Demo.world_two_documents
          ++ EncodeCall [message Demo.request_second]
             :: QueryCall v (top_k Demo.request_second)
                  (Some (FieldIn "file_id"
                           (List.map MStr [uuid4 Demo.env_second])))
             :: rest)%list)
  ∧ Forall (fun src =>
              ∃ m e fid piece,
                pinecone Demo.world_two_documents !! match_id m = Some e
                ∧ match_metadata m = metadata e
                ∧ fid ∈ [uuid4 Demo.env_second]
                ∧ metadata e !! "file_id" = Some (MStr fid)
                ∧ assemble_match m = Ok (piece, src))
           (sources Demo.second_response).
Proof.
  split; [vm_compute; reflexivity|].
  destruct (chat_file_ids_restrict_search Demo.services Demo.request_second
              Demo.world_two_documents) as [_ H].
  apply (H [uuid4 Demo.env_second] Demo.second_response
           (chat Demo.services Demo.request_second Demo.world_two_documents).2).
  - reflexivity.
  - discriminate.
  - apply run_outcome. vm_compute. reflexivity.
Defined.

(** ** Listing the uploads *)

(** X22. [list_files] changes nothing and lists the upload directory
    completely: [total] is the number of stored files, every stored file
    appears under its stored name with its size in bytes, and no name
    appears twice. *)
Theorem list_files_lists_every_file (ctime_iso : string → string) (w : World) :
  ∃ files,
    list_files ctime_iso w = (Ok (files, length files), w)
    ∧ length files = size (upload_dir w)
    ∧ NoDup (List.map info_filename files)
    ∧ ∀ file_name size,
        (∃ date, mk_FileInfo file_name size date ∈ files)
        ↔ ∃ contents, upload_dir w !! file_name = Some contents
                      ∧ size = length contents.
Proof.
  eexists. split; [reflexivity|].
  split; [by rewrite length_map, length_map_to_list|].
  split.
  - rewrite List.map_map. cbn [info_filename].
    apply (NoDup_fst_map_to_list (upload_dir w)).
  - intros file_name size. split.
    + intros (date & Hin). apply list_elem_of_In, in_map_iff in Hin
        as ([n c] & [= <- <- _] & Hin).
      apply list_elem_of_In, elem_of_map_to_list in Hin. eauto.
    + intros (contents & Hc & ->). exists (ctime_iso file_name).
      apply list_elem_of_In, in_map_iff. exists (file_name, contents).
      split; [done|]. by apply list_elem_of_In, elem_of_map_to_list.
Qed.

(** ** The upload endpoint: documents that yield nothing *)

Lemma filter_long_enough_none (pieces : list string) :
  Forall (fun piece => String.length (PyStr.strip piece) ≤ 50) pieces →
  List.filter long_enough pieces = [].
Proof.
  induction 1 as [|piece pieces Hp _ IH]; [done|].
  cbn [List.filter]. unfold long_enough at 1.
  destruct (50 <? String.length (PyStr.strip piece)) eqn:Hlt; [|exact IH].
  apply Nat.ltb_lt in Hlt. lia.
Qed.

(** X23. A document from which no usable chunk comes is turned away. Once
    the file is written: when the extracted text is blank, or when every piece that the splitter
    makes of it has a trimmed length of 50 or less, the upload fails with
    status 500 ("No text could be extracted ..." or "No valid chunks
    created ..."), the written file is removed again, and neither the
    embedding model nor the index is called. *)
Theorem upload_without_chunks_is_rejected (svc : Services) (env : UploadEnv)
    (file : UploadFile) (w wa : World) (text : string) :
  allowed_extension (filename file) = true →
  too_large (file_contents file) = false →
  write_fault svc (unique_filename env file) (file_contents file) = None →
  process_document svc (unique_filename env file)
    (mk_World (<[unique_filename env file := file_contents file]> (upload_dir w))
              (pinecone w) (gateway_log w)) = (Ok text, wa) →
  (PyStr.blank text = true →
   upload_file svc env file w
   = (Raise (HTTPException 500
               "Failed to process document: No text could be extracted from the document"),
      mk_World (delete (unique_filename env file) (upload_dir w))
               (pinecone w) (gateway_log wa)))
  ∧ (∀ pieces,
       PyStr.blank text = false →
       split_text svc Config.CHUNK_SIZE Config.CHUNK_OVERLAP separators text
       = Ok pieces →
       Forall (fun piece => String.length (PyStr.strip piece) ≤ 50) pieces →
       upload_file svc env file w
       = (Raise (HTTPException 500
                   "Failed to process document: No valid chunks created from uploaded document"),
          mk_World (delete (unique_filename env file) (upload_dir w))
                   (pinecone w) (gateway_log wa))).
Proof.
  intros Hext Hsize Hwrite Hdoc.
  pose proof (keeps_index_process_document svc (unique_filename env file)
                (mk_World (<[unique_filename env file := file_contents file]>
                             (upload_dir w)) (pinecone w) (gateway_log w)))
    as Hk. rewrite Hdoc in Hk. cbn [snd pinecone] in Hk.
  rewrite (upload_file_persisted svc env file w Hext Hsize Hwrite).
  unfold process_upload. rewrite bind_run, Hdoc. split.
  - intros Hblank. rewrite bind_run, Hblank. unfold raise. by rewrite Hk.
  - intros pieces Hblank Hsplit Hshort.
    rewrite bind_run, Hblank. unfold ret at 1.
    rewrite bind_run. unfold lift, chunk_text.
    rewrite Hblank, Hsplit, (filter_long_enough_none pieces Hshort).
    rewrite bind_run. unfold raise. by rewrite Hk.
Qed.

Lemma upload_without_chunks_is_rejected_witness :
  upload_file Demo.services Demo.env (Demo.text_file "tiny.txt" 50)
    Demo.empty_world
  = (Raise (HTTPException 500
              "Failed to process document: No valid chunks created from uploaded document"),
     mk_World (delete (unique_filename Demo.env (Demo.text_file "tiny.txt" 50))
                      (upload_dir Demo.empty_world))
              (pinecone Demo.empty_world)
              [ExtractCall (unique_filename Demo.env
                              (Demo.text_file "tiny.txt" 50))]).
Proof.
  destruct (upload_without_chunks_is_rejected Demo.services Demo.env
              (Demo.text_file "tiny.txt" 50) Demo.empty_world
              (mk_World (<[unique_filename Demo.env (Demo.text_file "tiny.txt" 50)
                           := file_contents (Demo.text_file "tiny.txt" 50)]>
                          (upload_dir Demo.empty_world))
                        (pinecone Demo.empty_world)
                        [ExtractCall (unique_filename Demo.env
                                        (Demo.text_file "tiny.txt" 50))])
              Demo.fifty_letters) as [_ H].
  - reflexivity.
  - reflexivity.
  - reflexivity.
  - vm_compute. reflexivity.
  - apply (H [Demo.fifty_letters]).
    + reflexivity.
    + reflexivity.
    + repeat constructor.
Defined.

(** X24. The number of embeddings is checked before anything is stored
    in the index. Once the file is written: when the embedding model returns a number of vectors other than the
    number of chunks, the upload fails with status 500 ("Number of chunks
    must match number of embeddings"), the written file is removed again,
    and no upsert call is made: the index is as it was. *)
Theorem upload_with_wrong_embedding_count (svc : Services) (env : UploadEnv)
    (file : UploadFile) (w wa wb : World) (text : string)
    (chunks : list string) (embs : list (list Q)) :
  allowed_extension (filename file) = true →
  too_large (file_contents file) = false →
  write_fault svc (unique_filename env file) (file_contents file) = None →
  process_document svc (unique_filename env file)
    (mk_World (<[unique_filename env file := file_contents file]> (upload_dir w))
              (pinecone w) (gateway_log w)) = (Ok text, wa) →
  PyStr.blank text = false →
  chunk_text (split_text svc) text Config.CHUNK_SIZE Config.CHUNK_OVERLAP
  = Ok chunks →
  chunks ≠ [] →
  generate_embeddings svc chunks wa = (Ok embs, wb) →
  length embs ≠ length chunks →
  upload_file svc env file w
  = (Raise (HTTPException 500
              "Failed to process document: Number of chunks must match number of embeddings"),
     mk_World (delete (unique_filename env file) (upload_dir w))
              (pinecone w) (gateway_log wb)).
Proof.
  intros Hext Hsize Hwrite Hdoc Hblank Hchunks Hne Hemb Hlen.
  pose proof (keeps_index_process_document svc (unique_filename env file)
                (mk_World (<[unique_filename env file := file_contents file]>
                             (upload_dir w)) (pinecone w) (gateway_log w)))
    as Hk1. rewrite Hdoc in Hk1. cbn [snd pinecone] in Hk1.
  pose proof (keeps_index_generate_embeddings svc chunks wa) as Hk2.
  rewrite Hemb in Hk2. cbn [snd] in Hk2.
  rewrite (upload_file_persisted svc env file w Hext Hsize Hwrite).
  unfold process_upload. rewrite bind_run, Hdoc.
  rewrite bind_run, Hblank. unfold ret at 1.
  rewrite bind_run. unfold lift. rewrite Hchunks.
  rewrite bind_run. destruct chunks as [|c chunks]; [done|]. unfold ret at 1.
  rewrite bind_run, Hemb. rewrite bind_run. unfold upsert_chunks.
  assert ((length (c :: chunks) =? length embs) = false) as ->
    by (apply Nat.eqb_neq; congruence).
  cbn [negb]. unfold raise. by rewrite Hk2, Hk1.
Qed.

Lemma upload_with_wrong_embedding_count_witness :
  upload_file Demo.services_extra_vector Demo.env
    (Demo.text_file "notes.txt" 60) Demo.empty_world
  = (Raise (HTTPException 500
              "Failed to process document: Number of chunks must match number of embeddings"),
     mk_World (delete (unique_filename Demo.env (Demo.text_file "notes.txt" 60))
                      (upload_dir Demo.empty_world))
              (pinecone Demo.empty_world)
              [ExtractCall (unique_filename Demo.env
                              (Demo.text_file "notes.txt" 60));
               EncodeCall [PyStr.replicate 60 "a"]]).
Proof.
  apply (upload_with_wrong_embedding_count Demo.services_extra_vector Demo.env
           (Demo.text_file "notes.txt" 60) Demo.empty_world
           (mk_World (<[unique_filename Demo.env (Demo.text_file "notes.txt" 60)
                        := file_contents (Demo.text_file "notes.txt" 60)]>
                       (upload_dir Demo.empty_world))
                     (pinecone Demo.empty_world)
                     [ExtractCall (unique_filename Demo.env
                                     (Demo.text_file "notes.txt" 60))])
           (mk_World (<[unique_filename Demo.env (Demo.text_file "notes.txt" 60)
                        := file_contents (Demo.text_file "notes.txt" 60)]>
                       (upload_dir Demo.empty_world))
                     (pinecone Demo.empty_world)
                     [ExtractCall (unique_filename Demo.env
                                     (Demo.text_file "notes.txt" 60));
                      EncodeCall [PyStr.replicate 60 "a"]])
           (PyStr.replicate 60 "a") [PyStr.replicate 60 "a"]
           [[0%Q]; [60%Q]]).
  - reflexivity.
  - reflexivity.
  - reflexivity.
  - vm_compute. reflexivity.
  - reflexivity.
  - vm_compute. reflexivity.
  - discriminate.
  - vm_compute. reflexivity.
  - simpl. lia.
Defined.
